(** * upload_backup.py: upload pipeline and retention sweeps

    A shallow embedding of [scripts/upload_backup.py].  The script logs in
    to a cloud-storage service, uploads the newest local backup sets and
    prunes old remote generations.

    What is represented:
    - Python values the script inspects: decoded JSON ([json]), listing
      entries ([entry], a dict whose keys [id], [name], [date] may be
      missing), list slices, [sorted] with a key, [max] with a key;
    - exceptions, as the error side of a state-and-error monad [M] whose
      state is the [World]: the remote tree, the plan of faults the service
      will show, and the trace of requests issued so far;
    - the remote service, as the small machine of the section
      "The remote service": it is not code of the script, the script only
      talks to it.

    What is left out: the configuration check at import, cookies and
    headers, the validation key inside URLs, [print] output (the values a
    [print] reads are kept where reading them can raise), file handles, and
    non-integer JSON numbers.  Dates and modification times are integers:
    the script only compares them.  Strings are Rocq strings, one [ascii]
    per character. *)

From Stdlib Require Import ZArith List String Ascii Bool Lia.
From Stdlib Require Import Permutation Sorted DecimalString.
Import ListNotations.

Set Warnings "-register-all".

Local Open Scope string_scope.
Local Open Scope list_scope.
Local Open Scope Z_scope.

(** ** Python primitives *)

Module Py.

(** [s.startswith(p)] *)
Definition startswith (s p : string) : bool := String.prefix p s.

(** [s.endswith(p)] *)
Definition endswith (s p : string) : bool :=
  let n := String.length s in
  let m := String.length p in
  (m <=? n)%nat && String.eqb (String.substring (n - m) m s) p.

(** [s[:n]] for a literal [n >= 0] *)
Definition str_prefix (n : nat) (s : string) : string := String.substring 0 n s.

(** [str(n)] for a natural number *)
Definition str_of_nat (n : nat) : string :=
  NilEmpty.string_of_uint (Nat.to_uint n).

Section Lists.
Context {A : Type}.

(** [l[:stop]]: a negative [stop] counts from the end, and the bound is
    clamped to [0 .. len(l)]. *)
Definition slice_to (stop : Z) (l : list A) : list A :=
  let n := Z.of_nat (List.length l) in
  let hi := if stop <? 0 then Z.max 0 (stop + n) else Z.min stop n in
  firstn (Z.to_nat hi) l.

(** [l[:-k]], as the sweeps write it: Python negates [k] first, and
    [-0] is [0]. *)
Definition drop_last (k : Z) (l : list A) : list A := slice_to (- k) l.

Variable le : A -> A -> bool.

(** [sorted] is stable: an element is placed before the first element
    that is not smaller, so equal elements keep their input order. *)
Fixpoint insert_sorted (x : A) (l : list A) : list A :=
  match l with
  | [] => [x]
  | y :: t => if le x y then x :: y :: t else y :: insert_sorted x t
  end.

Definition sorted_with (l : list A) : list A :=
  fold_right insert_sorted [] l.

(** [max(l, key=...)] keeps the first of the largest elements; here [le]
    compares the keys.  [None] stands for the empty list, which the script
    never passes. *)
Fixpoint max_with (l : list A) : option A :=
  match l with
  | [] => None
  | x :: t =>
      match max_with t with
      | None => Some x
      | Some m => if le m x then Some x else Some m
      end
  end.
End Lists.

(** [sorted(l, key=key)] with integer keys *)
Definition sorted_by {A} (key : A -> Z) (l : list A) : list A :=
  sorted_with (fun x y => key x <=? key y) l.

(** [max(l, key=key)] with integer keys *)
Definition max_by {A} (key : A -> Z) (l : list A) : option A :=
  max_with (fun x y => key x <=? key y) l.

End Py.

(** ** Exceptions *)

Inductive exn_class : Type :=
| RuntimeError
| HTTPError              (* requests.exceptions.HTTPError *)
| ConnectionError        (* requests.exceptions.ConnectionError *)
| Timeout                (* requests.exceptions.Timeout *)
| ChunkedEncodingError   (* requests.exceptions.ChunkedEncodingError *)
| JSONDecodeError
| KeyError
| AttributeError
| TypeError
| ValueError
| OSError.

(** An exception with the text [str(exc)] gives. *)
Record exn : Type := Exn { exn_cls : exn_class; exn_str : string }.

Inductive result (A : Type) : Type :=
| Ok (a : A)
| Raise (e : exn).
Arguments Ok {A} a.
Arguments Raise {A} e.

(** The classes of the first [except] clause of [upload_file]; a subclass
    (a connect or read timeout, an SSL or proxy error) stands as the class
    that catches it. *)
Definition is_transport (e : exn) : bool :=
  match exn_cls e with
  | ChunkedEncodingError | ConnectionError | Timeout => true
  | _ => false
  end.

(** The class of the second [except] clause of [upload_file]. *)
Definition is_http_error (e : exn) : bool :=
  match exn_cls e with
  | HTTPError => true
  | _ => false
  end.

(** ** Decoded JSON *)

Inductive json : Type :=
| JNull
| JBool (b : bool)
| JInt (z : Z)
| JStr (s : string)
| JList (l : list json)
| JDict (d : list (string * json)).

Fixpoint assoc {V} (k : string) (d : list (string * V)) : option V :=
  match d with
  | [] => None
  | (k', v) :: t => if String.eqb k k' then Some v else assoc k t
  end.

(** Truth value of a JSON value, as [not x] and [x or y] test it. *)
Definition truthy (v : json) : bool :=
  match v with
  | JNull => false
  | JBool b => b
  | JInt z => negb (z =? 0)
  | JStr s => negb (String.eqb s EmptyString)
  | JList l => match l with [] => false | _ => true end
  | JDict d => match d with [] => false | _ => true end
  end.

(** [d.get(k, default)]; only a dict has [get]. *)
Definition dict_get (d : json) (k : string) (default : json) : result json :=
  match d with
  | JDict kv =>
      Ok (match assoc k kv with Some v => v | None => default end)
  | _ => Raise (Exn AttributeError "object has no attribute 'get'")
  end.

(** What the script takes from the Python runtime without defining it:
    [int(s)] on a string ([None] when it raises [ValueError]) and the text
    of a decoded JSON value inside an f-string. *)
Class PyRuntime : Type := {
  int_of_str : string -> option Z;
  repr_json : json -> string
}.

(** [int(v)] *)
Definition py_int `{PyRuntime} (v : json) : result Z :=
  match v with
  | JInt z => Ok z
  | JBool b => Ok (if b then 1 else 0)
  | JStr s =>
      match int_of_str s with
      | Some z => Ok z
      | None => Raise (Exn ValueError "invalid literal for int()")
      end
  | _ => Raise (Exn TypeError "int() argument must be a string or a number")
  end.

(** ** Listings *)

(** One element of a listing: a dict whose keys may be missing.  When
    present, [id] and [date] are integers and [name] is a string. *)
Record entry : Type := mkEntry {
  e_id : option Z;
  e_name : option string;
  e_date : option Z
}.

(** The body of a [folder?action=list] answer, under its [data] key. *)
Record listing : Type := mkListing {
  l_folders : list entry;
  l_files : list entry
}.

(** [f.get("name", '')], the empty string when the key is missing *)
Definition get_name (f : entry) : string :=
  match e_name f with Some n => n | None => EmptyString end.

(** [f.get("date", 0)], the sort key of every sweep *)
Definition get_date (f : entry) : Z :=
  match e_date f with Some d => d | None => 0 end.

(** [f["id"]] *)
Definition getitem_id (f : entry) : result Z :=
  match e_id f with Some i => Ok i | None => Raise (Exn KeyError "'id'") end.

(** [f["name"]] *)
Definition getitem_name (f : entry) : result string :=
  match e_name f with Some n => Ok n | None => Raise (Exn KeyError "'name'") end.

(** ** Configuration constants *)

Definition DOCKER_PARENT_FOLDER_ID : Z := 17922957.
Definition STORAGE_PARENT_FOLDER_ID : Z := 17922958.
Definition BITWARDEN_PARENT_FOLDER_ID : Z := 17922956.

Definition LOCAL_DOCKER_BACKUP_ROOT : string := "/backups/docker-tar".
Definition LOCAL_STORAGE_ROOT : string := "/backups/storage-exports".
Definition LOCAL_BITWARDEN_ROOT : string := "/backups/bitwarden".

Definition KEEP_NIGHTLY : Z := 2.
Definition KEEP_BIWEEKLY : Z := 5.
Definition KEEP_MONTHLY : Z := 1.
Definition KEEP_SNAPSHOT : Z := 1.
Definition KEEP_BITWARDEN : Z := 10.

Definition MAX_UPLOAD_RETRIES : nat := 3.
Definition RETRY_DELAY : Z := 5.

(** ** Retention, the pure part

    Every sweep computes, for one bucket, the filtered listing, its sort by
    date and the slice [sorted[:-keep]] of entries to delete. *)

(** [[f for f in folders if f.get("name", '').startswith(prefix)]] *)
Definition bucket (prefix : string) (folders : list entry) : list entry :=
  filter (fun f => Py.startswith (get_name f) prefix) folders.

(** [sorted(l, key=lambda f: f.get("date", 0))] *)
Definition by_date (l : list entry) : list entry := Py.sorted_by get_date l.

(** [by_date(l)[:-keep]], the entries a sweep deletes *)
Definition stale (keep : Z) (l : list entry) : list entry :=
  Py.drop_last keep (by_date l).

(** What the slice leaves out: the entries a sweep does not touch. *)
Definition retained (keep : Z) (l : list entry) : list entry :=
  skipn (List.length (stale keep l)) (by_date l).

(** ** The world: remote service, fault plan, trace *)

(** An HTTP response, as far as the script reads it. *)
Record response : Type := mkResponse {
  resp_error : option string;   (* [Some m]: [raise_for_status] raises HTTPError(m) *)
  resp_text : option string;    (* [r.text]; [None] when reading it raises *)
  resp_json : result json       (* [r.json()] *)
}.

(** What [session.post] gives for one upload request. *)
Inductive http_result : Type :=
| HttpRaise (e : exn)
| HttpResp (r : response).

Inductive request : Type :=
| ReqLogin
| ReqList (parent : Z)
| ReqCreate (name : string) (parent : Z)
| ReqDelete (id : Z).

(** The observable actions of a run, oldest first. *)
Inductive event : Type :=
| EvLogin
| EvList (parent : Z)
| EvCreate (name : string) (parent : Z)
| EvDelete (id : Z)
| EvUpload (folder : Z) (file : string) (attempt : nat)
| EvSleep (seconds : Z).

(** A remote folder or file, under its parent folder. *)
Record node : Type := mkNode {
  n_parent : Z;
  n_is_folder : bool;
  n_entry : entry
}.

Record World : Type := mkWorld {
  w_nodes : list node;                 (* the remote tree, in listing order *)
  w_fresh : Z;                         (* the id the service gives next *)
  w_clock : Z;                         (* the date the service stamps next *)
  w_fault : request -> option exn;     (* requests that fail, and how *)
  w_login_reply : json;                (* body of the login answer *)
  w_cookies : json;                    (* [session.cookies.get_dict()] *)
  w_create_reply : Z -> json;          (* body of a create answer, from the new id *)
  w_uploads : list http_result;        (* outcomes of the next upload requests *)
  w_trace : list event
}.

Definition set_nodes (ns : list node) (w : World) : World :=
  mkWorld ns (w_fresh w) (w_clock w) (w_fault w) (w_login_reply w)
          (w_cookies w) (w_create_reply w) (w_uploads w) (w_trace w).

Definition set_uploads (us : list http_result) (w : World) : World :=
  mkWorld (w_nodes w) (w_fresh w) (w_clock w) (w_fault w) (w_login_reply w)
          (w_cookies w) (w_create_reply w) us (w_trace w).

Definition log (ev : event) (w : World) : World :=
  mkWorld (w_nodes w) (w_fresh w) (w_clock w) (w_fault w) (w_login_reply w)
          (w_cookies w) (w_create_reply w) (w_uploads w) (w_trace w ++ [ev]).

(** The service stores a new node: it takes the next id and the next date. *)
Definition add_node (parent : Z) (is_folder : bool) (name : string) (w : World) : World :=
  mkWorld
    (w_nodes w ++ [mkNode parent is_folder
                     (mkEntry (Some (w_fresh w)) (Some name) (Some (w_clock w)))])
    (w_fresh w + 1) (w_clock w + 1) (w_fault w) (w_login_reply w)
    (w_cookies w) (w_create_reply w) (w_uploads w) (w_trace w).

Definition has_id (i : Z) (f : entry) : bool :=
  match e_id f with Some j => i =? j | None => false end.

(** A soft delete takes the entry out of the listings. *)
Definition remove_id (i : Z) (ns : list node) : list node :=
  filter (fun n => negb (has_id i (n_entry n))) ns.

Definition children (parent : Z) (is_folder : bool) (ns : list node) : list entry :=
  map n_entry
      (filter (fun n => (n_parent n =? parent) && Bool.eqb (n_is_folder n) is_folder) ns).

(** ** The monad of the script: state and exceptions *)

Definition M (A : Type) : Type := World -> result A * World.

Definition ret {A} (a : A) : M A := fun w => (Ok a, w).

Definition raise {A} (e : exn) : M A := fun w => (Raise e, w).

Definition bind {A B} (m : M A) (k : A -> M B) : M B :=
  fun w =>
    match m w with
    | (Ok a, w') => k a w'
    | (Raise e, w') => (Raise e, w')
    end.

Definition lift {A} (r : result A) : M A := fun w => (r, w).

Declare Scope m_scope.
Delimit Scope m_scope with M.
Notation "x <- m ;; k" := (bind m (fun x => k))
  (at level 61, m at next level, right associativity) : m_scope.
Notation "m ;; k" := (bind m (fun _ => k))
  (at level 61, right associativity) : m_scope.
Local Open Scope m_scope.

(** [for x in l: body(x)]: an exception leaves the loop. *)
Fixpoint for_each {A} (l : list A) (body : A -> M unit) : M unit :=
  match l with
  | [] => ret tt
  | x :: t => body x ;; for_each t body
  end.

(** [for x in l: if cond(x): body(x)] *)
Definition for_each_if {A} (l : list A) (cond : A -> bool) (body : A -> M unit) : M unit :=
  for_each l (fun x => if cond x then body x else ret tt).

(** ** The remote service

    Each request is logged when it is issued.  A request the fault plan
    names raises and changes nothing. *)

Definition call (ev : event) (req : request) : M unit :=
  fun w =>
    let w' := log ev w in
    match w_fault w' req with
    | Some e => (Raise e, w')
    | None => (Ok tt, w')
    end.

Definition time_sleep (seconds : Z) : M unit :=
  fun w => (Ok tt, log (EvSleep seconds) w).

(** The service answers a list request with the children of [parent]. *)
Definition service_list (parent : Z) : M listing :=
  fun w =>
    (Ok (mkListing (children parent true (w_nodes w))
                   (children parent false (w_nodes w))), w).

(** The service creates the folder and answers with a body built from the
    new id. *)
Definition service_create (name : string) (parent : Z) : M json :=
  fun w => (Ok (w_create_reply w (w_fresh w)), add_node parent true name w).

Definition service_delete (id : Z) : M unit :=
  fun w => (Ok tt, set_nodes (remove_id id (w_nodes w)) w).

(** The answer to an upload when the plan is exhausted. *)
Definition upload_ack : response :=
  mkResponse None (Some "{}") (Ok (JDict [])).

(** One upload request: the plan gives the outcome; the file is stored when
    the answer carries no error status. *)
Definition service_upload (folder : Z) (name : string) (attempt : nat) : M http_result :=
  fun w =>
    let w1 := log (EvUpload folder name attempt) w in
    let hr := match w_uploads w1 with [] => HttpResp upload_ack | h :: _ => h end in
    let w2 := set_uploads (tl (w_uploads w1)) w1 in
    match hr with
    | HttpResp r =>
        match resp_error r with
        | None => (Ok hr, add_node folder false name w2)
        | Some _ => (Ok hr, w2)
        end
    | HttpRaise _ => (Ok hr, w2)
    end.

(** ** The local file system, read only *)

Inductive fsnode : Type :=
| FsFile (name : string)
| FsDir (name : string) (mtime : Z) (entries : list fsnode).

Definition fs_name (f : fsnode) : string :=
  match f with FsFile n => n | FsDir n _ _ => n end.

Definition is_file (f : fsnode) : bool :=
  match f with FsFile _ => true | FsDir _ _ _ => false end.

(** A directory met while iterating: its name, [stat().st_mtime], and its
    own content. *)
Record ldir : Type := mkDir {
  d_name : string;
  d_mtime : Z;
  d_entries : list fsnode
}.

(** [[f for f in p.iterdir() if f.is_dir()]] *)
Fixpoint dirs_of (l : list fsnode) : list ldir :=
  match l with
  | [] => []
  | FsFile _ :: t => dirs_of t
  | FsDir n m es :: t => mkDir n m es :: dirs_of t
  end.

(** [sorted(d.iterdir())]: paths of one directory compare by name. *)
Definition sorted_paths (l : list fsnode) : list fsnode :=
  Py.sorted_with (fun a b => String.leb (fs_name a) (fs_name b)) l.

(** [p.suffix == ".json"]: the suffix starts at the last dot, which must not
    be the first character of the name. *)
Definition suffix_is_json (name : string) : bool :=
  Py.endswith name ".json" && (5 <? String.length name)%nat.

(** The three local roots; [None] is a root that does not exist. *)
Record LocalFS : Type := mkFS {
  fs_docker : option (list fsnode);
  fs_storage : option (list fsnode);
  fs_bitwarden : option (list fsnode)
}.

(** [get_latest_folder_in], on the content of [root_dir] *)
Definition get_latest_folder_in (root : option (list fsnode)) : option ldir :=
  match root with
  | None => None
  | Some es => Py.max_by d_mtime (dirs_of es)
  end.

Fixpoint find_child (name : string) (l : list fsnode) : option fsnode :=
  match l with
  | [] => None
  | f :: t => if String.eqb (fs_name f) name then Some f else find_child name t
  end.

(** ** The script *)

Section Script.
Context `{PyRuntime}.

(** *** API calls *)

(** [login]: the two requests count as one; the key is the value under
    [data.validationkey]. *)
Definition login : M json :=
  call EvLogin ReqLogin ;;
  data <- (fun w => (Ok (w_login_reply w), w)) ;;
  d <- lift (dict_get data "data" (JDict [])) ;;
  validation_key <- lift (dict_get d "validationkey" JNull) ;;
  if negb (truthy validation_key) then
    cookies <- (fun w => (Ok (w_cookies w), w)) ;;
    raise (Exn RuntimeError
             ("Login failed to return validationKey. Response: " ++ repr_json data
              ++ " Cookies: " ++ repr_json cookies)%string)
  else ret validation_key.

(** Lines 116-119 of [create_cloud_folder]: the id out of the decoded
    answer. *)
Definition folder_id_of_response (data : json) : result Z :=
  match dict_get data "data" (JDict []) with
  | Raise e => Raise e
  | Ok a =>
      match dict_get a "folder" (JDict []) with
      | Raise e => Raise e
      | Ok b =>
          match dict_get b "id" JNull with
          | Raise e => Raise e
          | Ok nested =>
              match (if truthy nested then Ok nested else dict_get data "id" JNull) with
              | Raise e => Raise e
              | Ok folder_id =>
                  if negb (truthy folder_id) then
                    Raise (Exn RuntimeError
                             ("Failed to create folder. Response: " ++ repr_json data)%string)
                  else py_int folder_id
              end
          end
      end
  end.

Definition create_cloud_folder (folder_name : string) (parent_id : Z) : M Z :=
  call (EvCreate folder_name parent_id) (ReqCreate folder_name parent_id) ;;
  data <- service_create folder_name parent_id ;;
  lift (folder_id_of_response data).

(** One [folder?action=list] request. *)
Definition list_request (parent_id : Z) : M listing :=
  call (EvList parent_id) (ReqList parent_id) ;;
  service_list parent_id.

Definition list_child_folders (parent_id : Z) : M (list entry) :=
  l <- list_request parent_id ;;
  ret (l_folders l).

(** [soft_delete_folder]; no caller reads the answer. *)
Definition soft_delete_folder (folder_id : Z) : M unit :=
  call (EvDelete folder_id) (ReqDelete folder_id) ;;
  service_delete folder_id.

(** *** Upload with retries *)

(** The text the [except HTTPError] clause puts in its message: [r] is the
    last response bound, if any. *)
Definition body_text (r : option response) : string :=
  match r with
  | Some resp =>
      match resp_text resp with
      | Some t => Py.str_prefix 1000 t
      | None => "<no body>"
      end
  | None => "<no body>"
  end.

(** The [try] body of one upload attempt, from what the request gave:
    the acknowledgement, or the exception the [except] clauses see. *)
Definition attempt_result (hr : http_result) : result json :=
  match hr with
  | HttpRaise e => Raise e
  | HttpResp resp =>
      match resp_error resp with
      | Some m => Raise (Exn HTTPError m)
      | None => resp_json resp
      end
  end.

Definition str_of_last (last_exc : option exn) : string :=
  match last_exc with Some e => exn_str e | None => "None" end.

(** The loop of [upload_file] over the attempts still to make. *)
Fixpoint upload_attempts (folder_id : Z) (path name : string)
    (attempts : list nat) (last_exc : option exn) (r : option response) : M json :=
  match attempts with
  | [] =>
      raise (Exn RuntimeError
               ("Failed uploading " ++ path ++ " after " ++ Py.str_of_nat MAX_UPLOAD_RETRIES
                ++ " attempts: last error: " ++ str_of_last last_exc)%string)
  | attempt :: rest =>
      hr <- service_upload folder_id name attempt ;;
      let r' := match hr with HttpResp resp => Some resp | HttpRaise _ => r end in
      match attempt_result hr with
      | Ok ack => ret ack
      | Raise e =>
          if is_transport e then
            time_sleep RETRY_DELAY ;;
            upload_attempts folder_id path name rest (Some e) r'
          else if is_http_error e then
            raise (Exn RuntimeError
                     ("HTTP error during upload: " ++ exn_str e ++ ". Body: "
                      ++ body_text r')%string)
          else raise e
      end
  end.

(** [upload_file]; [dir] is the directory of the file, [name] its name. *)
Definition upload_file (folder_id : Z) (dir name : string) : M json :=
  upload_attempts folder_id (dir ++ "/" ++ name)%string name
                  (seq 1 MAX_UPLOAD_RETRIES) None None.

(** *** Retention and cleanup *)

(** The body of every deletion loop: the [print] reads [f['name']] and
    [f['id']], then the entry is deleted. *)
Definition delete_old (f : entry) : M unit :=
  _ <- lift (getitem_name f) ;;
  id <- lift (getitem_id f) ;;
  soft_delete_folder id.

Definition cleanup_two_types (parent_id keep_nightly keep_biweekly : Z) : M unit :=
  folders <- list_child_folders parent_id ;;
  let nightly := bucket "nightly-" folders in
  for_each (stale keep_nightly nightly) delete_old ;;
  let biweekly := bucket "biweekly-" folders in
  for_each (stale keep_biweekly biweekly) delete_old.

Definition cleanup_storage_types (parent_id keep_monthly keep_snapshot : Z) : M unit :=
  folders <- list_child_folders parent_id ;;
  let monthly := bucket "monthly-" folders in
  let snapshot := bucket "snapshot-" folders in
  for_each (stale keep_monthly monthly) delete_old ;;
  for_each (stale keep_snapshot snapshot) delete_old.

Definition cleanup_bitwarden_backups (parent_id keep : Z) : M unit :=
  folders <- list_child_folders parent_id ;;
  match folders with
  | [] => ret tt
  | first :: _ =>
      folder_id <- lift (getitem_id first) ;;
      l <- list_request folder_id ;;
      for_each (stale keep (l_files l)) delete_old
  end.

(** *** Upload logic *)

Definition cloud_has_folder (parent_id : Z) (local_folder_name : string) : M bool :=
  folders <- list_child_folders parent_id ;;
  ret (existsb
         (fun f => match e_name f with
                   | Some n => String.eqb n local_folder_name
                   | None => false
                   end) folders).

(** [for part in sorted(d.iterdir()): if part.is_file(): upload_file(...)] *)
Definition upload_parts (cloud_folder_id : Z) (dir : string) (entries : list fsnode) : M unit :=
  for_each_if (sorted_paths entries) is_file
    (fun part => _ <- upload_file cloud_folder_id dir (fs_name part) ;; ret tt).

(** One of the two blocks of [upload_new_storage_backups]: the set is
    uploaded and the storage sweep run when no remote folder has its name. *)
Definition upload_storage_set (dir : string) (latest : option ldir) : M unit :=
  match latest with
  | None => ret tt
  | Some d =>
      present <- cloud_has_folder STORAGE_PARENT_FOLDER_ID (d_name d) ;;
      if present then ret tt
      else
        cloud_folder_id <- create_cloud_folder (d_name d) STORAGE_PARENT_FOLDER_ID ;;
        upload_parts cloud_folder_id (dir ++ "/" ++ d_name d)%string (d_entries d) ;;
        cleanup_storage_types STORAGE_PARENT_FOLDER_ID KEEP_MONTHLY KEEP_SNAPSHOT
  end.

(** [root / "monthly"], then [get_latest_folder_in] when it exists. *)
Definition latest_monthly_in (root : list fsnode) : result (option ldir) :=
  match find_child "monthly" root with
  | None => Ok None
  | Some (FsDir _ _ es) => Ok (get_latest_folder_in (Some es))
  | Some (FsFile _) => Raise (Exn OSError "Not a directory")
  end.

Definition latest_snapshot_in (root : list fsnode) : option ldir :=
  Py.max_by d_mtime
    (filter (fun d => Py.startswith (d_name d) "snapshot-") (dirs_of root)).

Definition upload_new_storage_backups (fs : LocalFS) : M unit :=
  match fs_storage fs with
  | None => ret tt
  | Some root =>
      latest_monthly <- lift (latest_monthly_in root) ;;
      let latest_snapshot := latest_snapshot_in root in
      upload_storage_set LOCAL_STORAGE_ROOT latest_snapshot ;;
      upload_storage_set (LOCAL_STORAGE_ROOT ++ "/monthly")%string latest_monthly
  end.

Definition upload_bitwarden_backups (fs : LocalFS) : M unit :=
  match fs_bitwarden fs with
  | None => ret tt
  | Some root =>
      cloud_folders <- list_child_folders BITWARDEN_PARENT_FOLDER_ID ;;
      cloud_folder_id <-
        match cloud_folders with
        | first :: _ => lift (getitem_id first)
        | [] => create_cloud_folder "bitwarden-backups" BITWARDEN_PARENT_FOLDER_ID
        end ;;
      for_each_if (sorted_paths root)
        (fun f => is_file f && suffix_is_json (fs_name f))
        (fun f =>
           present <- cloud_has_folder cloud_folder_id (fs_name f) ;;
           if present then ret tt
           else _ <- upload_file cloud_folder_id LOCAL_BITWARDEN_ROOT (fs_name f) ;; ret tt) ;;
      cleanup_bitwarden_backups cloud_folder_id KEEP_BITWARDEN
  end.

(** *** Main flow *)

(** The Docker block of [main]: the newest local folder is created and
    uploaded, then the sweep runs. *)
Definition upload_docker_backup (latest_backup : option ldir) : M unit :=
  match latest_backup with
  | None => ret tt
  | Some d =>
      cloud_folder_id <- create_cloud_folder (d_name d) DOCKER_PARENT_FOLDER_ID ;;
      upload_parts cloud_folder_id (LOCAL_DOCKER_BACKUP_ROOT ++ "/" ++ d_name d)%string
                   (d_entries d) ;;
      cleanup_two_types DOCKER_PARENT_FOLDER_ID KEEP_NIGHTLY KEEP_BIWEEKLY
  end.

(** [validation_key[:8]], read by the [print] after the login: only a
    string or a list can be sliced. *)
Definition key_prefix (validation_key : json) : result unit :=
  match validation_key with
  | JStr _ | JList _ => Ok tt
  | _ => Raise (Exn TypeError "object is not subscriptable")
  end.

Definition main (fs : LocalFS) : M unit :=
  let latest_backup := get_latest_folder_in (fs_docker fs) in
  validation_key <- login ;;
  lift (key_prefix validation_key) ;;
  upload_docker_backup latest_backup ;;
  upload_new_storage_backups fs ;;
  upload_bitwarden_backups fs.

End Script.

(** ** Observations on a run *)

(** The events a computation issues from [w]: the trace only grows, so these
    are the events past those of [w]. *)
Definition issued {A} (m : M A) (w : World) : list event :=
  skipn (List.length (w_trace w)) (w_trace (snd (m w))).

Definition is_delete (ev : event) : bool :=
  match ev with EvDelete _ => true | _ => false end.

Definition is_upload (ev : event) : bool :=
  match ev with EvUpload _ _ _ => true | _ => false end.

Definition is_sleep (ev : event) : bool :=
  match ev with EvSleep _ => true | _ => false end.

(** The outcome the service holds for the next upload request. *)
Definition next_outcome (w : World) : http_result :=
  match w_uploads w with [] => HttpResp upload_ack | h :: _ => h end.

(** An attempt the first [except] clause catches. *)
Definition retryable (hr : http_result) : bool :=
  match attempt_result hr with
  | Raise e => is_transport e
  | Ok _ => false
  end.

(** No two nodes of the remote tree carry the same id. *)
Definition same_id (n m : node) : bool :=
  match e_id (n_entry n), e_id (n_entry m) with
  | Some i, Some j => i =? j
  | _, _ => false
  end.

Fixpoint distinct_ids (ns : list node) : bool :=
  match ns with
  | [] => true
  | n :: t => negb (existsb (same_id n) t) && distinct_ids t
  end.

(** The remote tree after the soft deletes of [ids], in order. *)
Definition remove_ids (ids : list Z) (ns : list node) : list node :=
  fold_left (fun acc i => remove_id i acc) ids ns.

(** An entry none of [ids] names. *)
Definition survives (ids : list Z) (f : entry) : bool :=
  negb (existsb (fun i => has_id i f) ids).

(** The name prefixes of the four folder categories. *)
Definition category_prefixes : list string :=
  ["nightly-"; "biweekly-"; "monthly-"; "snapshot-"].

(** The id of an answer of the shape [{"data": {"folder": {"id": v}}}]. *)
Definition nested_id (data : json) : option json :=
  match data with
  | JDict d =>
      match assoc "data" d with
      | Some (JDict a) =>
          match assoc "folder" a with
          | Some (JDict b) => assoc "id" b
          | _ => None
          end
      | _ => None
      end
  | _ => None
  end.

(** The values under [data] and [data.folder], when present, are objects:
    the nested lookup raises no [AttributeError]. *)
Definition nested_path_ok (data : json) : bool :=
  match data with
  | JDict d =>
      match assoc "data" d with
      | None => true
      | Some (JDict a) =>
          match assoc "folder" a with
          | None | Some (JDict _) => true
          | _ => false
          end
      | _ => false
      end
  | _ => false
  end.

(** The id of an answer of the shape [{"id": v}]. *)
Definition top_id (data : json) : option json :=
  match data with
  | JDict d => assoc "id" d
  | _ => None
  end.

(** ** Sample data *)

Module Sample.

Definition runtime : PyRuntime :=
  {| int_of_str := fun _ => None; repr_json := fun _ => "<data>" |}.

(** The answer shape [{"data": {"folder": {"id": i}}}]. *)
Definition nested_reply (i : Z) : json :=
  JDict [("data", JDict [("folder", JDict [("id", JInt i)])])].

(** The answer shape [{"id": i}]. *)
Definition flat_reply (i : Z) : json := JDict [("id", JInt i)].

Definition login_ok : json :=
  JDict [("data", JDict [("validationkey", JStr "0123456789abcdef")])].

(** A service that never fails, holding [ns], with upload plan [plan]. *)
Definition world (ns : list node) (plan : list http_result) : World :=
  mkWorld ns 100 1000 (fun _ => None) login_ok (JDict []) nested_reply plan [].

(** The same service, failing the soft delete of [bad] with an HTTP error. *)
Definition world_failing_delete (ns : list node) (bad : Z) : World :=
  mkWorld ns 100 1000
    (fun req => match req with
                | ReqDelete i =>
                    if i =? bad then Some (Exn HTTPError "500 Server Error") else None
                | _ => None
                end)
    login_ok (JDict []) nested_reply [] [].

Definition folder (parent id : Z) (name : string) (date : Z) : node :=
  mkNode parent true (mkEntry (Some id) (Some name) (Some date)).

Definition file (parent id : Z) (name : string) (date : Z) : node :=
  mkNode parent false (mkEntry (Some id) (Some name) (Some date)).

(** Three nightly generations under the Docker parent. *)
Definition three_nightly : list node :=
  [ folder DOCKER_PARENT_FOLDER_ID 1 "nightly-20240101" 1;
    folder DOCKER_PARENT_FOLDER_ID 2 "nightly-20240102" 2;
    folder DOCKER_PARENT_FOLDER_ID 3 "nightly-20240103" 3 ].

(** The local Docker root, whose newest folder is already on the remote. *)
Definition docker_fs : LocalFS :=
  mkFS (Some [FsDir "nightly-20240103" 30 [FsFile "app.tar"]]) None None.

(** The bitwarden folder with one export already uploaded. *)
Definition bitwarden_nodes : list node :=
  [ folder BITWARDEN_PARENT_FOLDER_ID 50 "bitwarden-backups" 1;
    file 50 51 "export-2024-01-01.json" 2 ].

(** The bitwarden folder with two exports. *)
Definition bitwarden_two : list node :=
  [ folder BITWARDEN_PARENT_FOLDER_ID 50 "bitwarden-backups" 1;
    file 50 51 "export-2024-01-01.json" 2;
    file 50 52 "export-2024-02-01.json" 3 ].


Definition bitwarden_fs : LocalFS :=
  mkFS None None (Some [FsFile "export-2024-01-01.json"]).

Definition conn_reset : exn := Exn ConnectionError "Connection reset by peer".
Definition timed_out : exn := Exn Timeout "Read timed out".
Definition truncated : exn := Exn ChunkedEncodingError "Connection broken".

Definition forbidden : response :=
  mkResponse (Some "403 Client Error: Forbidden") (Some "quota exceeded") (Ok JNull).

Definition acked : response :=
  mkResponse None (Some "{}") (Ok (JDict [("success", JBool true)])).

End Sample.


(** ** Footprints of a computation *)

(** Every event [m] issues, from whatever world, satisfies [P]. *)
Definition only_issues {A} (m : M A) (P : event -> Prop) : Prop :=
  forall w, exists evs,
    w_trace (snd (m w)) = w_trace w ++ evs /\ Forall P evs.

(** [m] keeps the property [I] of the world. *)
Definition keeps {A} (m : M A) (I : World -> Prop) : Prop :=
  forall w, I w -> I (snd (m w)).

(** The names of the files of a directory, in the order [upload_parts]
    meets them. *)
Definition file_names (entries : list fsnode) : list string :=
  map fs_name (filter is_file (sorted_paths entries)).

(** The entry can be deleted: it has a name and an id, and the service does
    not fail the delete of that id. *)
Definition deletable (w : World) (f : entry) : bool :=
  match e_name f, e_id f with
  | Some _, Some i =>
      match w_fault w (ReqDelete i) with None => true | Some _ => false end
  | _, _ => false
  end.

(** The ids of the entries that have one. *)
Fixpoint ids_of (l : list entry) : list Z :=
  match l with
  | [] => []
  | f :: t => match e_id f with Some i => i :: ids_of t | None => ids_of t end
  end.


Module SampleMore.

(** A service that fails every create request with an HTTP error. *)
Definition world_failing_create : World :=
  mkWorld [] 100 1000
    (fun req => match req with
                | ReqCreate _ _ => Some (Exn HTTPError "507 Insufficient Storage")
                | _ => None
                end)
    Sample.login_ok (JDict []) Sample.nested_reply [] [].

(** A service that fails every listing request with a timeout. *)
Definition world_failing_list : World :=
  mkWorld Sample.three_nightly 100 1000
    (fun req => match req with
                | ReqList _ => Some (Exn Timeout "Read timed out")
                | _ => None
                end)
    Sample.login_ok (JDict []) Sample.nested_reply [] [].

(** Nightly and biweekly folders under the Docker parent, with a folder of
    another name among them. *)
Definition mixed_folders : list node :=
  [ Sample.folder DOCKER_PARENT_FOLDER_ID 10 "nightly-20240102" 20;
    Sample.folder DOCKER_PARENT_FOLDER_ID 11 "biweekly-20240101" 5;
    Sample.folder DOCKER_PARENT_FOLDER_ID 12 "nightly-20240101" 10;
    Sample.folder DOCKER_PARENT_FOLDER_ID 13 "manual-copy" 1;
    Sample.folder DOCKER_PARENT_FOLDER_ID 14 "biweekly-20240115" 15;
    Sample.folder DOCKER_PARENT_FOLDER_ID 15 "biweekly-20240201" 25;
    Sample.folder DOCKER_PARENT_FOLDER_ID 16 "biweekly-20240215" 35;
    Sample.folder DOCKER_PARENT_FOLDER_ID 17 "biweekly-20240301" 45;
    Sample.folder DOCKER_PARENT_FOLDER_ID 18 "biweekly-20240315" 55 ].

(** Three nightly folders, the second without an id. *)
Definition nightly_without_id : list node :=
  [ Sample.folder DOCKER_PARENT_FOLDER_ID 1 "nightly-20240101" 1;
    mkNode DOCKER_PARENT_FOLDER_ID true
           (mkEntry None (Some "nightly-20240102") (Some 2));
    Sample.folder DOCKER_PARENT_FOLDER_ID 3 "nightly-20240103" 3 ].

(** An answer with a good status whose body is not JSON. *)
Definition not_json : response :=
  mkResponse None (Some "<html>")
    (Raise (Exn JSONDecodeError "Expecting value: line 1 column 1 (char 0)")).

(** The bitwarden folder holding twelve exports, two more than
    [KEEP_BITWARDEN]. *)
Definition bitwarden_twelve : list node :=
  Sample.folder BITWARDEN_PARENT_FOLDER_ID 50 "bitwarden-backups" 1
  :: map (fun k => Sample.file 50 (60 + Z.of_nat k) "export.json" (Z.of_nat k))
         (seq 1 12).

(** A storage root with a monthly export and two snapshots, and a remote
    that holds the newest of each. *)
Definition storage_fs : LocalFS :=
  mkFS None
       (Some [FsDir "monthly" 5 [FsDir "monthly-2024-01" 7 [FsFile "export.tar"]];
              FsDir "snapshot-2024-01-15" 9 [FsFile "snap.tar"];
              FsDir "snapshot-2024-01-08" 8 [FsFile "snap.tar"]])
       None.

Definition storage_nodes : list node :=
  [ Sample.folder STORAGE_PARENT_FOLDER_ID 30 "monthly-2024-01" 7;
    Sample.folder STORAGE_PARENT_FOLDER_ID 31 "snapshot-2024-01-15" 9 ].

(** A service whose login answer carries an empty validation key. *)
Definition world_without_key : World :=
  mkWorld [] 100 1000 (fun _ => None)
    (JDict [("data", JDict [("validationkey", JStr EmptyString)])])
    (JDict []) Sample.nested_reply [] [].


End SampleMore.

(** * Properties *)

(** ** Slices and sorting *)

Section SliceFacts.
Context {A : Type}.
Implicit Types (l : list A) (k : Z).

Lemma drop_last_zero l : Py.drop_last 0 l = [].
Proof.
  unfold Py.drop_last, Py.slice_to. simpl.
  rewrite Z.min_l by lia. reflexivity.
Qed.

Lemma drop_last_pos k l :
  0 < k -> Py.drop_last k l = firstn (List.length l - Z.to_nat k) l.
Proof.
  intros Hk. unfold Py.drop_last, Py.slice_to.
  destruct (Z.ltb_spec (- k) 0) as [_ | Hge]; [| lia].
  f_equal. lia.
Qed.

Lemma drop_last_length k l :
  0 < k ->
  Z.of_nat (List.length (Py.drop_last k l)) = Z.max 0 (Z.of_nat (List.length l) - k).
Proof.
  intros Hk. rewrite drop_last_pos by assumption.
  rewrite length_firstn. lia.
Qed.

Lemma drop_last_short k l :
  0 <= k -> Z.of_nat (List.length l) <= k -> Py.drop_last k l = [].
Proof.
  intros Hk Hlen.
  destruct (Z.eq_dec k 0) as [-> | Hne]; [apply drop_last_zero |].
  rewrite drop_last_pos by lia.
  replace (List.length l - Z.to_nat k)%nat with 0%nat by lia. reflexivity.
Qed.

Lemma drop_last_split k l :
  l = Py.drop_last k l ++ skipn (List.length (Py.drop_last k l)) l.
Proof.
  unfold Py.drop_last, Py.slice_to.
  set (n := Z.to_nat _).
  rewrite length_firstn.
  destruct (Nat.le_ge_cases n (List.length l)) as [Hle | Hge].
  - rewrite Nat.min_l by assumption. symmetry. apply firstn_skipn.
  - rewrite Nat.min_r by assumption.
    rewrite firstn_all2 by assumption.
    rewrite skipn_all. now rewrite app_nil_r.
Qed.
End SliceFacts.

Section SortFacts.
Context {A : Type} (key : A -> Z).
Implicit Types (l : list A).

Local Abbreviation le := (fun x y : A => key x <=? key y).
Local Abbreviation R := (fun x y : A => key x <= key y).

Lemma insert_sorted_perm x l : Permutation (Py.insert_sorted le x l) (x :: l).
Proof.
  induction l as [| y t IH]; simpl.
  - apply Permutation_refl.
  - destruct (le x y).
    + apply Permutation_refl.
    + eapply perm_trans; [apply perm_skip, IH | apply perm_swap].
Qed.

Lemma sorted_by_perm l : Permutation (Py.sorted_by key l) l.
Proof.
  unfold Py.sorted_by, Py.sorted_with.
  induction l as [| x t IH]; simpl.
  - apply perm_nil.
  - eapply perm_trans; [apply insert_sorted_perm | apply perm_skip, IH].
Qed.

Lemma sorted_by_length l : List.length (Py.sorted_by key l) = List.length l.
Proof. apply Permutation_length, sorted_by_perm. Qed.

Lemma sorted_by_In l x : In x (Py.sorted_by key l) <-> In x l.
Proof.
  split; apply Permutation_in; [| apply Permutation_sym]; apply sorted_by_perm.
Qed.

Lemma insert_sorted_sorted x l :
  StronglySorted R l -> StronglySorted R (Py.insert_sorted le x l).
Proof.
  induction 1 as [| y t Hs IH Hall]; simpl.
  - constructor; constructor.
  - destruct (Z.leb_spec (key x) (key y)) as [Hle | Hgt].
    + constructor; [constructor; assumption |].
      constructor; [exact Hle |].
      eapply Forall_impl; [| exact Hall].
      intros z Hz. simpl in *. lia.
    + constructor; [exact IH |].
      eapply Permutation_Forall; [apply Permutation_sym, insert_sorted_perm |].
      constructor; [simpl; lia | exact Hall].
Qed.

Lemma sorted_by_sorted l : StronglySorted R (Py.sorted_by key l).
Proof.
  unfold Py.sorted_by, Py.sorted_with.
  induction l as [| x t IH]; simpl.
  - constructor.
  - apply insert_sorted_sorted, IH.
Qed.

(** Stability: the entries of one key keep their input order. *)
Lemma insert_sorted_stable x l k :
  filter (fun y => key y =? k) (Py.insert_sorted le x l)
  = filter (fun y => key y =? k) (x :: l).
Proof.
  induction l as [| y t IH]; [reflexivity |].
  simpl Py.insert_sorted.
  destruct (Z.leb_spec (key x) (key y)) as [Hle | Hgt]; [reflexivity |].
  simpl. simpl in IH. rewrite IH.
  destruct (Z.eqb_spec (key x) k), (Z.eqb_spec (key y) k); try reflexivity; lia.
Qed.

Lemma sorted_by_stable l k :
  filter (fun y => key y =? k) (Py.sorted_by key l) = filter (fun y => key y =? k) l.
Proof.
  unfold Py.sorted_by, Py.sorted_with.
  induction l as [| x t IH]; [reflexivity |].
  simpl fold_right. rewrite insert_sorted_stable. simpl. now rewrite IH.
Qed.

(** In a sorted list, what stands before is not larger. *)
Lemma sorted_app_le l1 l2 :
  StronglySorted R (l1 ++ l2) ->
  forall x y, In x l1 -> In y l2 -> key x <= key y.
Proof.
  induction l1 as [| a t IH]; simpl; intros Hs x y Hx Hy; [contradiction |].
  inversion Hs as [| ? ? Hs' Hall]; subst.
  destruct Hx as [-> | Hx].
  - rewrite Forall_forall in Hall. apply Hall, in_or_app. now right.
  - now apply IH.
Qed.
End SortFacts.


(** ** Filtering *)

Section FilterFacts.
Context {A : Type} (g : A -> bool).

Lemma filter_length_perm (l l' : list A) :
  Permutation l l' -> List.length (filter g l) = List.length (filter g l').
Proof.
  induction 1 as [| x l l' _ IH | x y l | l l' l'' _ IH1 _ IH2]; simpl.
  - reflexivity.
  - destruct (g x); simpl; now rewrite IH.
  - destruct (g x), (g y); reflexivity.
  - now rewrite IH1.
Qed.

Lemma filter_none (l : list A) :
  (forall x, In x l -> g x = false) -> filter g l = [].
Proof.
  induction l as [| x t IH]; intros Hall; [reflexivity |].
  simpl. rewrite (Hall x (or_introl eq_refl)). apply IH.
  intros y Hy. apply Hall. now right.
Qed.

Lemma filter_head (x : A) (t : list A) :
  g x = true -> filter g (x :: t) = x :: filter g t.
Proof. intros Hx. simpl. now rewrite Hx. Qed.
End FilterFacts.

(** ** Retention: what a slice deletes and what it leaves *)

Section RetentionFacts.
Implicit Types (l fs : list entry) (keep : Z).

Lemma by_date_perm l : Permutation (by_date l) l.
Proof. apply sorted_by_perm. Qed.

Lemma by_date_length l : List.length (by_date l) = List.length l.
Proof. apply sorted_by_length. Qed.

Lemma stale_retained keep l : by_date l = stale keep l ++ retained keep l.
Proof. unfold stale, retained. apply drop_last_split. Qed.

Lemma stale_zero l : stale 0 l = [].
Proof. apply drop_last_zero. Qed.

Lemma stale_count keep l :
  0 < keep ->
  Z.of_nat (List.length (stale keep l)) = Z.max 0 (Z.of_nat (List.length l) - keep).
Proof.
  intros Hk. unfold stale. rewrite drop_last_length by assumption.
  now rewrite by_date_length.
Qed.

Lemma stale_retained_length keep l :
  (List.length (stale keep l) + List.length (retained keep l))%nat = List.length l.
Proof.
  rewrite <- length_app, <- stale_retained. apply by_date_length.
Qed.

Lemma retained_count keep l :
  0 < keep ->
  Z.of_nat (List.length (retained keep l)) = Z.min (Z.of_nat (List.length l)) keep.
Proof.
  intros Hk.
  pose proof (stale_count keep l Hk). pose proof (stale_retained_length keep l). lia.
Qed.

Lemma retained_at_least keep l :
  Z.min (Z.of_nat (List.length l)) keep <= Z.of_nat (List.length (retained keep l)).
Proof.
  destruct (Z.lt_ge_cases 0 keep) as [Hk | Hk].
  - rewrite retained_count by assumption. lia.
  - lia.
Qed.

Lemma stale_short keep l :
  0 <= keep -> Z.of_nat (List.length l) <= keep -> stale keep l = [].
Proof.
  intros Hk Hlen. unfold stale. apply drop_last_short; [assumption |].
  now rewrite by_date_length.
Qed.

Lemma stale_In keep l f : In f (stale keep l) -> In f l.
Proof.
  intros Hf. apply (sorted_by_In get_date). fold (by_date l).
  rewrite (stale_retained keep l). apply in_or_app. now left.
Qed.

Lemma stale_older keep l d r :
  In d (stale keep l) -> In r (retained keep l) -> get_date d <= get_date r.
Proof.
  intros Hd Hr.
  apply (sorted_app_le get_date (stale keep l) (retained keep l)); try assumption.
  rewrite <- stale_retained. apply sorted_by_sorted.
Qed.

Lemma stale_not_retained keep l d :
  NoDup l -> In d (stale keep l) -> ~ In d (retained keep l).
Proof.
  intros Hnd Hd Hr.
  assert (Hnd' : NoDup (stale keep l ++ retained keep l)).
  { rewrite <- stale_retained.
    eapply Permutation_NoDup; [apply Permutation_sym, by_date_perm | exact Hnd]. }
  apply in_split in Hd. destruct Hd as (s1 & s2 & Hs).
  rewrite Hs in Hnd'. rewrite <- app_assoc in Hnd'. simpl in Hnd'.
  apply NoDup_remove_2 in Hnd'. apply Hnd'.
  apply in_or_app. right. apply in_or_app. now right.
Qed.

Lemma bucket_In prefix fs f :
  In f (bucket prefix fs) <-> In f fs /\ Py.startswith (get_name f) prefix = true.
Proof. unfold bucket. apply filter_In. Qed.

Lemma bucket_filter prefix fs (g : entry -> bool) :
  bucket prefix (filter g fs) = filter g (bucket prefix fs).
Proof.
  unfold bucket. induction fs as [| f t IH]; [reflexivity |].
  simpl. destruct (g f) eqn:Hg, (Py.startswith (get_name f) prefix) eqn:Hp;
    simpl; rewrite ?Hg, ?Hp, IH; reflexivity.
Qed.

(** Once the stale entries are gone from a listing, nothing in it is stale. *)
Lemma stale_after_removal keep l (g : entry -> bool) :
  0 <= keep ->
  (forall f, In f (stale keep l) -> g f = false) ->
  stale keep (filter g l) = [].
Proof.
  intros Hk Hgone.
  destruct (Z.eq_dec keep 0) as [-> | Hne]; [apply stale_zero |].
  apply stale_short; [assumption |].
  assert (Hlen : List.length (filter g l) = List.length (filter g (retained keep l))).
  { transitivity (List.length (filter g (by_date l))).
    - apply filter_length_perm, Permutation_sym, by_date_perm.
    - rewrite (stale_retained keep l) at 1.
      rewrite filter_app, length_app, (filter_none g (stale keep l) Hgone).
      reflexivity. }
  pose proof (filter_length_le g (retained keep l)).
  pose proof (retained_count keep l ltac:(lia)). lia.
Qed.

End RetentionFacts.


(** ** Running the script: one step at a time *)

Lemma skipn_length_app {A} (a b : list A) : skipn (List.length a) (a ++ b) = b.
Proof. induction a as [| x t IH]; [reflexivity | exact IH]. Qed.

Lemma issued_from_trace {A} (m : M A) (w : World) (evs : list event) :
  w_trace (snd (m w)) = w_trace w ++ evs -> issued m w = evs.
Proof. intros Ht. unfold issued. rewrite Ht. apply skipn_length_app. Qed.

Lemma for_each_app {A} (body : A -> M unit) (l1 l2 : list A) (w : World) :
  for_each (l1 ++ l2) body w = (for_each l1 body ;; for_each l2 body) w.
Proof.
  revert w. induction l1 as [| x t IH]; intros w; [reflexivity |].
  simpl. unfold bind.
  destruct (body x w) as [[[] | e] w1]; [| reflexivity].
  rewrite IH. reflexivity.
Qed.

Lemma children_remove_id parent kind i ns :
  children parent kind (remove_id i ns)
  = filter (fun f => negb (has_id i f)) (children parent kind ns).
Proof.
  unfold children, remove_id.
  induction ns as [| n t IH]; [reflexivity |].
  simpl.
  destruct (negb (has_id i (n_entry n))) eqn:Hi,
           ((n_parent n =? parent) && Bool.eqb (n_is_folder n) kind) eqn:Hp;
    simpl; rewrite ?Hi, ?Hp; simpl; rewrite ?Hi, IH; reflexivity.
Qed.

Lemma children_remove_ids parent kind ids ns :
  children parent kind (remove_ids ids ns)
  = filter (survives ids) (children parent kind ns).
Proof.
  revert ns. induction ids as [| i t IH]; intros ns.
  - simpl. unfold survives. simpl.
    induction (children parent kind ns) as [| f l IHl]; [reflexivity |].
    simpl. now rewrite <- IHl.
  - change (remove_ids (i :: t) ns) with (remove_ids t (remove_id i ns)).
    rewrite IH, children_remove_id.
    induction (children parent kind ns) as [| f l IHl]; [reflexivity |].
    unfold survives in *. simpl.
    destruct (has_id i f); simpl; [exact IHl |].
    destruct (existsb (fun j => has_id j f) t); simpl; now rewrite IHl.
Qed.

Section RunFacts.

Lemma list_child_folders_run parent w :
  list_child_folders parent w
  = match w_fault w (ReqList parent) with
    | Some e => (Raise e, log (EvList parent) w)
    | None => (Ok (children parent true (w_nodes w)), log (EvList parent) w)
    end.
Proof.
  unfold list_child_folders, list_request, call, service_list, bind, ret. simpl.
  destruct (w_fault w (ReqList parent)); reflexivity.
Qed.

Lemma list_request_run parent w :
  list_request parent w
  = match w_fault w (ReqList parent) with
    | Some e => (Raise e, log (EvList parent) w)
    | None => (Ok (mkListing (children parent true (w_nodes w))
                             (children parent false (w_nodes w))),
               log (EvList parent) w)
    end.
Proof.
  unfold list_request, call, service_list, bind. simpl.
  destruct (w_fault w (ReqList parent)); reflexivity.
Qed.

Lemma delete_old_run f w :
  delete_old f w
  = match e_name f, e_id f with
    | None, _ => (Raise (Exn KeyError "'name'"), w)
    | Some _, None => (Raise (Exn KeyError "'id'"), w)
    | Some _, Some i =>
        match w_fault w (ReqDelete i) with
        | Some e => (Raise e, log (EvDelete i) w)
        | None => (Ok tt, set_nodes (remove_id i (w_nodes w)) (log (EvDelete i) w))
        end
    end.
Proof.
  unfold delete_old, getitem_name, getitem_id, soft_delete_folder, call,
    service_delete, bind, lift.
  destruct (e_name f); [| reflexivity].
  destruct (e_id f) as [i |]; [| reflexivity].
  simpl. destruct (w_fault w (ReqDelete i)); reflexivity.
Qed.

(** The deletion loop: it walks a prefix [done] of the list, asks for the
    deletion of each of its entries, and is left by the first exception. *)
Lemma delete_loop_spec l : forall w,
  exists ids done rest,
    l = done ++ rest /\
    map e_id done = map Some ids /\
    w_trace (snd (for_each l delete_old w)) = w_trace w ++ map EvDelete ids /\
    (fst (for_each l delete_old w) = Ok tt ->
       rest = [] /\
       w_nodes (snd (for_each l delete_old w)) = remove_ids ids (w_nodes w) /\
       w_fault (snd (for_each l delete_old w)) = w_fault w) /\
    (forall pre i post e,
       ids = pre ++ i :: post -> w_fault w (ReqDelete i) = Some e ->
       post = [] /\ fst (for_each l delete_old w) = Raise e).
Proof.
  induction l as [| f t IH]; intros w.
  - exists [], [], []. simpl. rewrite app_nil_r.
    split; [reflexivity |]. split; [reflexivity |]. split; [reflexivity |].
    split; [intros _; repeat split |].
    intros pre i post e Hsplit. destruct pre; discriminate.
  - simpl for_each. unfold bind. rewrite delete_old_run.
    destruct (e_name f) as [nm |] eqn:Hn;
      [destruct (e_id f) as [i |] eqn:Hi;
       [destruct (w_fault w (ReqDelete i)) as [e |] eqn:Hf |] |].
    + (* the delete fails *)
      exists [i], [f], t. simpl. rewrite Hi.
      split; [reflexivity |]. split; [reflexivity |]. split; [reflexivity |].
      split; [discriminate |].
      intros pre j post e' Hsplit Hfj.
      destruct pre as [| a pre']; simpl in Hsplit.
      * injection Hsplit as Hij Hpost. subst. split; congruence.
      * injection Hsplit as _ Hrest. destruct pre'; discriminate.
    + (* the delete succeeds, the loop goes on *)
      set (w1 := set_nodes (remove_id i (w_nodes w)) (log (EvDelete i) w)).
      destruct (IH w1) as (ids & done & rest & Hl & Hids & Htr & Hok & Hbad).
      exists (i :: ids), (f :: done), rest.
      split; [simpl; now f_equal |].
      split; [simpl; now rewrite Hi, Hids |].
      split; [rewrite Htr; subst w1; simpl; now rewrite <- app_assoc |].
      split.
      * intros Hr. destruct (Hok Hr) as (Hrest & Hnodes & Hfault).
        split; [assumption |].
        split; [rewrite Hnodes; reflexivity | rewrite Hfault; reflexivity].
      * intros pre j post e Hsplit Hfj.
        destruct pre as [| a pre']; simpl in Hsplit;
          injection Hsplit as Ha Hrest; subst.
        -- congruence.
        -- apply (Hbad pre' j post e eq_refl). subst w1. exact Hfj.
    + (* no id *)
      exists [], [], (f :: t). simpl.
      split; [reflexivity |]. split; [reflexivity |].
      split; [now rewrite app_nil_r |].
      split; [discriminate |].
      intros pre j post e Hsplit. destruct pre; discriminate.
    + (* no name *)
      exists [], [], (f :: t). simpl.
      split; [reflexivity |]. split; [reflexivity |].
      split; [now rewrite app_nil_r |].
      split; [discriminate |].
      intros pre j post e Hsplit. destruct pre; discriminate.
Qed.

(** A sweep of the folders of [parent]: one listing, then the deletion loop
    over the entries [sel] picks from it. *)
Lemma listed_sweep_spec parent (sel : list entry -> list entry) (m : M unit) w :
  (forall w0,
     m w0 = (folders <- list_child_folders parent ;;
             for_each (sel folders) delete_old) w0) ->
  exists ids done,
    issued m w = EvList parent :: map EvDelete ids /\
    (forall f, In f done -> In f (sel (children parent true (w_nodes w)))) /\
    map e_id done = map Some ids /\
    (fst (m w) = Ok tt ->
       done = sel (children parent true (w_nodes w)) /\
       w_nodes (snd (m w)) = remove_ids ids (w_nodes w) /\
       w_fault (snd (m w)) = w_fault w) /\
    (forall pre i post e,
       ids = pre ++ i :: post -> w_fault w (ReqDelete i) = Some e ->
       post = [] /\ fst (m w) = Raise e).
Proof.
  intros Hm. unfold issued. rewrite Hm. unfold bind.
  rewrite list_child_folders_run.
  destruct (w_fault w (ReqList parent)) as [e |] eqn:Hfl.
  - exists [], []. simpl. rewrite skipn_length_app.
    split; [reflexivity |]. split; [intros f [] |]. split; [reflexivity |].
    split; [discriminate |].
    intros pre i post e' Hsplit. destruct pre; discriminate.
  - set (folders := children parent true (w_nodes w)).
    destruct (delete_loop_spec (sel folders) (log (EvList parent) w))
      as (ids & done & rest & Hl & Hids & Htr & Hok & Hbad).
    exists ids, done.
    split.
    { rewrite Htr. simpl. rewrite <- app_assoc. apply skipn_length_app. }
    split.
    { intros f Hf. rewrite Hl. apply in_or_app. now left. }
    split; [exact Hids |].
    split.
    { intros Hr. destruct (Hok Hr) as (Hrest & Hnodes & Hfault).
      subst rest. rewrite app_nil_r in Hl.
      split; [congruence |]. split; [exact Hnodes | exact Hfault]. }
    exact Hbad.
Qed.

Lemma cleanup_two_types_unfold parent ka kb w0 :
  cleanup_two_types parent ka kb w0
  = (folders <- list_child_folders parent ;;
     for_each (stale ka (bucket "nightly-" folders)
               ++ stale kb (bucket "biweekly-" folders)) delete_old) w0.
Proof.
  unfold cleanup_two_types, bind.
  destruct (list_child_folders parent w0) as [[folders | e] w1]; [| reflexivity].
  rewrite for_each_app. reflexivity.
Qed.

Lemma cleanup_storage_types_unfold parent km ks w0 :
  cleanup_storage_types parent km ks w0
  = (folders <- list_child_folders parent ;;
     for_each (stale km (bucket "monthly-" folders)
               ++ stale ks (bucket "snapshot-" folders)) delete_old) w0.
Proof.
  unfold cleanup_storage_types, bind.
  destruct (list_child_folders parent w0) as [[folders | e] w1]; [| reflexivity].
  rewrite for_each_app. reflexivity.
Qed.

(** The bitwarden sweep: the folders of [parent] are listed, then the files
    of the first of them, then the loop runs over the stale files. *)
Lemma cleanup_bitwarden_spec parent keep w :
  exists lists ids done,
    issued (cleanup_bitwarden_backups parent keep) w = lists ++ map EvDelete ids /\
    forallb (fun ev => negb (is_delete ev)) lists = true /\
    map e_id done = map Some ids /\
    (forall f, In f done ->
       exists first fid,
         hd_error (children parent true (w_nodes w)) = Some first /\
         e_id first = Some fid /\
         In f (stale keep (children fid false (w_nodes w)))) /\
    (fst (cleanup_bitwarden_backups parent keep w) = Ok tt ->
       w_nodes (snd (cleanup_bitwarden_backups parent keep w))
         = remove_ids ids (w_nodes w) /\
       w_fault (snd (cleanup_bitwarden_backups parent keep w)) = w_fault w /\
       forall first fid,
         hd_error (children parent true (w_nodes w)) = Some first ->
         e_id first = Some fid ->
         done = stale keep (children fid false (w_nodes w))) /\
    (forall pre i post e,
       ids = pre ++ i :: post -> w_fault w (ReqDelete i) = Some e ->
       post = [] /\ fst (cleanup_bitwarden_backups parent keep w) = Raise e).
Proof.
  unfold issued, cleanup_bitwarden_backups, bind.
  rewrite list_child_folders_run.
  destruct (w_fault w (ReqList parent)) as [e |] eqn:Hfl.
  { exists [EvList parent], [], []. simpl. rewrite skipn_length_app.
    split; [reflexivity |]. split; [reflexivity |]. split; [reflexivity |].
    split; [intros f [] |]. split; [discriminate |].
    intros pre i post e' Hsplit. destruct pre; discriminate. }
  destruct (children parent true (w_nodes w)) as [| first tl] eqn:Hch.
  { exists [EvList parent], [], []. simpl. rewrite skipn_length_app.
    split; [reflexivity |]. split; [reflexivity |]. split; [reflexivity |].
    split; [intros f [] |].
    split; [intros _; repeat split; intros; discriminate |].
    intros pre i post e' Hsplit. destruct pre; discriminate. }
  unfold lift, getitem_id.
  destruct (e_id first) as [fid |] eqn:Hfid.
  2:{ exists [EvList parent], [], []. simpl. rewrite skipn_length_app.
      split; [reflexivity |]. split; [reflexivity |]. split; [reflexivity |].
      split; [intros f [] |]. split; [discriminate |].
      intros pre i post e' Hsplit. destruct pre; discriminate. }
  rewrite list_request_run. simpl w_fault.
  destruct (w_fault w (ReqList fid)) as [e |] eqn:Hfl2.
  { exists [EvList parent; EvList fid], [], []. simpl.
    rewrite <- app_assoc. rewrite skipn_length_app.
    split; [reflexivity |]. split; [reflexivity |]. split; [reflexivity |].
    split; [intros f [] |]. split; [discriminate |].
    intros pre i post e' Hsplit. destruct pre; discriminate. }
  simpl l_files.
  set (w1 := log (EvList fid) (log (EvList parent) w)).
  destruct (delete_loop_spec (stale keep (children fid false (w_nodes w))) w1)
    as (ids & done & rest & Hl & Hids & Htr & Hok & Hbad).
  change (w_nodes (log (EvList parent) w)) with (w_nodes w).
  exists [EvList parent; EvList fid], ids, done.
  split.
  { rewrite Htr. subst w1. simpl. rewrite <- !app_assoc. apply skipn_length_app. }
  split; [reflexivity |].
  split; [exact Hids |].
  split.
  { intros f Hf. exists first, fid. repeat split; try assumption.
    rewrite Hl. apply in_or_app. now left. }
  split.
  { intros Hr. destruct (Hok Hr) as (Hrest & Hnodes & Hfault).
    split; [exact Hnodes |]. split; [exact Hfault |].
    intros first' fid' Hhd Hid'. simpl in Hhd. injection Hhd as <-.
    rewrite Hfid in Hid'. injection Hid' as <-.
    subst rest. now rewrite app_nil_r in Hl. }
  exact Hbad.
Qed.

End RunFacts.

(** ** Categories *)

Lemma startswith_head (name : string) (a : ascii) (p : string) :
  Py.startswith name (String a p) = true -> exists rest, name = String a rest.
Proof.
  unfold Py.startswith. destruct name as [| c rest]; simpl; [discriminate |].
  destruct (Ascii.ascii_dec a c) as [-> | _]; [| discriminate].
  intros _. now exists rest.
Qed.

(** A name carries at most one of the four category prefixes. *)
Lemma category_prefixes_exclusive (name p q : string) :
  In p category_prefixes -> In q category_prefixes ->
  Py.startswith name p = true -> Py.startswith name q = true -> p = q.
Proof.
  unfold category_prefixes. simpl.
  intros [<- | [<- | [<- | [<- | []]]]] [<- | [<- | [<- | [<- | []]]]] H1 H2;
    try reflexivity;
    apply startswith_head in H1; apply startswith_head in H2;
    destruct H1 as (r1 & ->); destruct H2 as (r2 & H2); discriminate.
Qed.

Lemma ids_of_done (done : list entry) (ids : list Z) (i : Z) :
  map e_id done = map Some ids -> In i ids ->
  exists f, In f done /\ e_id f = Some i.
Proof.
  intros Hmap Hi.
  assert (Hin : In (Some i) (map e_id done)).
  { rewrite Hmap. now apply in_map. }
  apply in_map_iff in Hin. destruct Hin as (f & Hf & Hin). now exists f.
Qed.

Lemma delete_in_listed_trace parent ids i :
  In (EvDelete i) (EvList parent :: map EvDelete ids) -> In i ids.
Proof.
  intros [Habs | Hin]; [discriminate |].
  apply in_map_iff in Hin. destruct Hin as (j & Hj & Hin). congruence.
Qed.

(** ** Sweeps: what is deleted, and when a delete fails *)

(** C1 (code defect).  The claim asks that a sweep with keep count 0 delete
    every matched entry.  The sweeps write the stale slice as
    [sorted[:-keep]], and with [keep = 0] this is [sorted[:0]], the empty
    list: on a listing with three matched nightly folders the sweep with
    [keep_nightly = 0] issues the listing request and no delete, and leaves
    the remote tree as it was, where the claim wants [max(0, 3 - 0) = 3]
    deletions. *)
Theorem keep_zero_deletes_nothing :
  let w := Sample.world Sample.three_nightly [] in
  let matched := bucket "nightly-" (children DOCKER_PARENT_FOLDER_ID true (w_nodes w)) in
  List.length matched = 3%nat /\
  stale 0 matched = [] /\
  cleanup_two_types DOCKER_PARENT_FOLDER_ID 0 KEEP_BIWEEKLY w
    = (Ok tt, log (EvList DOCKER_PARENT_FOLDER_ID) w) /\
  issued (cleanup_two_types DOCKER_PARENT_FOLDER_ID 0 KEEP_BIWEEKLY) w
    = [EvList DOCKER_PARENT_FOLDER_ID].
Proof. vm_compute. repeat split. Qed.

(** For a positive keep count the slice follows the retention policy: the
    sweep picks [max(0, N - k)] entries, leaves the [min(N, k)] entries that
    come last in date order, and picks nothing when [N <= k]. *)
Lemma positive_keep_counts (keep : Z) (l : list entry) :
  0 < keep ->
  Z.of_nat (List.length (stale keep l)) = Z.max 0 (Z.of_nat (List.length l) - keep) /\
  Z.of_nat (List.length (retained keep l)) = Z.min (Z.of_nat (List.length l)) keep /\
  by_date l = stale keep l ++ retained keep l /\
  (forall d r, In d (stale keep l) -> In r (retained keep l) -> get_date d <= get_date r) /\
  (Z.of_nat (List.length l) <= keep -> stale keep l = []).
Proof.
  intros Hk.
  split; [now apply stale_count |].
  split; [now apply retained_count |].
  split; [apply stale_retained |].
  split; [apply stale_older |].
  intros Hlen. apply stale_short; [lia | assumption].
Qed.

(** C3, as the code has it.  A soft delete that fails ends the sweep: in
    each of the three sweeps the requests issued are the listing requests
    followed by delete requests, and a delete request the service fails is
    the last request of the sweep, whose exception is the result of the
    sweep.  No later deletion is attempted; the exception is not caught. *)
Theorem sweep_stops_at_failed_delete (parent ka kb : Z) (w : World) :
  (exists ids,
     issued (cleanup_two_types parent ka kb) w = EvList parent :: map EvDelete ids /\
     forall pre i post e,
       ids = pre ++ i :: post -> w_fault w (ReqDelete i) = Some e ->
       post = [] /\ fst (cleanup_two_types parent ka kb w) = Raise e)
  /\
  (exists ids,
     issued (cleanup_storage_types parent ka kb) w = EvList parent :: map EvDelete ids /\
     forall pre i post e,
       ids = pre ++ i :: post -> w_fault w (ReqDelete i) = Some e ->
       post = [] /\ fst (cleanup_storage_types parent ka kb w) = Raise e)
  /\
  (exists lists ids,
     issued (cleanup_bitwarden_backups parent ka) w = lists ++ map EvDelete ids /\
     forallb (fun ev => negb (is_delete ev)) lists = true /\
     forall pre i post e,
       ids = pre ++ i :: post -> w_fault w (ReqDelete i) = Some e ->
       post = [] /\ fst (cleanup_bitwarden_backups parent ka w) = Raise e).
Proof.
  split; [| split].
  - destruct (listed_sweep_spec parent _ _ w (cleanup_two_types_unfold parent ka kb))
      as (ids & done & Hev & _ & _ & _ & Hbad).
    exists ids. split; assumption.
  - destruct (listed_sweep_spec parent _ _ w (cleanup_storage_types_unfold parent ka kb))
      as (ids & done & Hev & _ & _ & _ & Hbad).
    exists ids. split; assumption.
  - destruct (cleanup_bitwarden_spec parent ka w)
      as (lists & ids & done & Hev & Hl & _ & _ & _ & Hbad).
    exists lists, ids. split; [exact Hev | split; [exact Hl | exact Hbad]].
Qed.

(** C3, as the claim states it, fails.  Three nightly folders, keep count 1:
    the folders with ids 1 and 2 are stale.  The service fails the delete of
    id 1; the sweep ends with that HTTP error and the delete of id 2 is never
    requested. *)
Lemma failed_delete_skips_remaining :
  let w := Sample.world_failing_delete Sample.three_nightly 1 in
  let sweep := cleanup_two_types DOCKER_PARENT_FOLDER_ID 1 KEEP_BIWEEKLY in
  map e_id (stale 1 (bucket "nightly-"
                       (children DOCKER_PARENT_FOLDER_ID true (w_nodes w))))
    = [Some 1; Some 2] /\
  fst (sweep w) = Raise (Exn HTTPError "500 Server Error") /\
  issued sweep w = [EvList DOCKER_PARENT_FOLDER_ID; EvDelete 1] /\
  ~ In (EvDelete 2) (issued sweep w).
Proof.
  vm_compute. repeat split.
  intros [Habs | [Habs | []]]; discriminate.
Qed.

Lemma sweep_stops_at_failed_delete_witness :
  let w := Sample.world_failing_delete Sample.three_nightly 1 in
  fst (cleanup_two_types DOCKER_PARENT_FOLDER_ID 1 KEEP_BIWEEKLY w)
  = Raise (Exn HTTPError "500 Server Error").
Proof.
  destruct (proj1 (sweep_stops_at_failed_delete DOCKER_PARENT_FOLDER_ID 1 KEEP_BIWEEKLY
                     (Sample.world_failing_delete Sample.three_nightly 1)))
    as (ids & Hev & Hbad).
  vm_compute in Hev. injection Hev as Hids.
  destruct ids as [| i [| j tl]]; try discriminate.
  injection Hids as <-.
  apply (Hbad [] 1 [] (Exn HTTPError "500 Server Error")); reflexivity.
Defined.

(** C5.  Every delete request of a folder sweep names an entry of the
    listing whose name starts with the prefix of one of the two buckets of
    that sweep, and with no other category prefix, and which is in the stale
    slice of that bucket.  The stale slice and the retained entries split
    the bucket in date order: the retained part holds the last
    [min(N, keep)] entries at least, no stale entry is newer than a retained
    one, and in a bucket without repeated entries no stale entry is
    retained. *)
Theorem sweep_deletes_only_stale_of_bucket (parent ka kb : Z) (w : World) :
  let folders := children parent true (w_nodes w) in
  (forall i, In (EvDelete i) (issued (cleanup_two_types parent ka kb) w) ->
     exists f prefix keep,
       In (prefix, keep) [("nightly-", ka); ("biweekly-", kb)] /\
       e_id f = Some i /\ In f folders /\
       Py.startswith (get_name f) prefix = true /\
       (forall q, In q category_prefixes ->
                  Py.startswith (get_name f) q = true -> q = prefix) /\
       In f (stale keep (bucket prefix folders)))
  /\
  (forall i, In (EvDelete i) (issued (cleanup_storage_types parent ka kb) w) ->
     exists f prefix keep,
       In (prefix, keep) [("monthly-", ka); ("snapshot-", kb)] /\
       e_id f = Some i /\ In f folders /\
       Py.startswith (get_name f) prefix = true /\
       (forall q, In q category_prefixes ->
                  Py.startswith (get_name f) q = true -> q = prefix) /\
       In f (stale keep (bucket prefix folders)))
  /\
  (forall prefix keep,
     let b := bucket prefix folders in
     by_date b = stale keep b ++ retained keep b /\
     Z.min (Z.of_nat (List.length b)) keep <= Z.of_nat (List.length (retained keep b)) /\
     (forall d r, In d (stale keep b) -> In r (retained keep b) ->
                  get_date d <= get_date r) /\
     (NoDup b -> forall d, In d (stale keep b) -> ~ In d (retained keep b))).
Proof.
  intros folders.
  assert (Hbucket : forall f prefix keep,
             In prefix category_prefixes ->
             In f (stale keep (bucket prefix folders)) ->
             In f folders /\ Py.startswith (get_name f) prefix = true /\
             (forall q, In q category_prefixes ->
                        Py.startswith (get_name f) q = true -> q = prefix)).
  { intros f prefix keep Hp Hf.
    apply stale_In, bucket_In in Hf. destruct Hf as (Hin & Hpre).
    repeat split; try assumption.
    intros q Hq Hqf. now apply (category_prefixes_exclusive (get_name f)). }
  split; [| split].
  - intros i Hi.
    destruct (listed_sweep_spec parent _ _ w (cleanup_two_types_unfold parent ka kb))
      as (ids & done & Hev & Hdone & Hids & _ & _).
    rewrite Hev in Hi. apply delete_in_listed_trace in Hi.
    destruct (ids_of_done done ids i Hids Hi) as (f & Hf & Hid).
    apply Hdone, in_app_or in Hf. fold folders in Hf.
    destruct Hf as [Hf | Hf].
    + exists f, "nightly-", ka.
      destruct (Hbucket f "nightly-" ka) as (H1 & H2 & H3);
        [simpl; tauto | exact Hf |].
      repeat split; try assumption. simpl; tauto.
    + exists f, "biweekly-", kb.
      destruct (Hbucket f "biweekly-" kb) as (H1 & H2 & H3);
        [simpl; tauto | exact Hf |].
      repeat split; try assumption. simpl; tauto.
  - intros i Hi.
    destruct (listed_sweep_spec parent _ _ w (cleanup_storage_types_unfold parent ka kb))
      as (ids & done & Hev & Hdone & Hids & _ & _).
    rewrite Hev in Hi. apply delete_in_listed_trace in Hi.
    destruct (ids_of_done done ids i Hids Hi) as (f & Hf & Hid).
    apply Hdone, in_app_or in Hf. fold folders in Hf.
    destruct Hf as [Hf | Hf].
    + exists f, "monthly-", ka.
      destruct (Hbucket f "monthly-" ka) as (H1 & H2 & H3);
        [simpl; tauto | exact Hf |].
      repeat split; try assumption. simpl; tauto.
    + exists f, "snapshot-", kb.
      destruct (Hbucket f "snapshot-" kb) as (H1 & H2 & H3);
        [simpl; tauto | exact Hf |].
      repeat split; try assumption. simpl; tauto.
  - intros prefix keep b.
    split; [apply stale_retained |].
    split; [apply retained_at_least |].
    split; [apply stale_older |].
    intros Hnd d. now apply stale_not_retained.
Qed.

Lemma sweep_deletes_only_stale_of_bucket_witness :
  exists f,
    e_id f = Some 1 /\
    Py.startswith (get_name f) "nightly-" = true /\
    In f (stale 2 (bucket "nightly-"
                     (children DOCKER_PARENT_FOLDER_ID true Sample.three_nightly))).
Proof.
  destruct (proj1 (sweep_deletes_only_stale_of_bucket DOCKER_PARENT_FOLDER_ID 2 5
                     (Sample.world Sample.three_nightly [])) 1)
    as (f & prefix & keep & Hin & Hid & _ & Hpre & _ & Hst).
  { vm_compute. right. now left. }
  destruct Hin as [Heq | [Heq | []]]; injection Heq as <- <-.
  - exists f. repeat split; assumption.
  - vm_compute in Hst. contradiction.
Defined.

(** ** A second sweep *)

Lemma done_removed (done : list entry) (ids : list Z) (f : entry) :
  map e_id done = map Some ids -> In f done -> survives ids f = false.
Proof.
  intros Hmap Hf.
  assert (Hin : In (e_id f) (map Some ids)).
  { rewrite <- Hmap. now apply in_map. }
  apply in_map_iff in Hin. destruct Hin as (i & Hi & Hin).
  unfold survives. apply negb_false_iff, existsb_exists.
  exists i. split; [assumption |].
  unfold has_id. rewrite <- Hi. apply Z.eqb_refl.
Qed.

Lemma children_In parent kind ns f :
  In f (children parent kind ns) ->
  exists n, In n ns /\ n_entry n = f /\ n_is_folder n = kind.
Proof.
  unfold children. intros Hf.
  apply in_map_iff in Hf. destruct Hf as (n & Hn & Hin).
  apply filter_In in Hin. destruct Hin as (Hin & Hc).
  apply andb_prop in Hc. destruct Hc as (_ & Hk).
  exists n. repeat split; try assumption. now apply Bool.eqb_prop.
Qed.

Lemma same_id_sym n m : same_id n m = same_id m n.
Proof.
  unfold same_id.
  destruct (e_id (n_entry n)), (e_id (n_entry m)); try reflexivity.
  apply Z.eqb_sym.
Qed.

Lemma distinct_ids_inj ns n m :
  distinct_ids ns = true -> In n ns -> In m ns -> same_id n m = true -> n = m.
Proof.
  induction ns as [| a t IH]; simpl; intros Hd Hn Hm Hs; [contradiction |].
  apply andb_prop in Hd. destruct Hd as (Hfresh & Hd).
  apply negb_true_iff in Hfresh.
  assert (Hno : forall x, In x t -> same_id a x = false).
  { intros x Hx. destruct (same_id a x) eqn:Hax; [| reflexivity].
    assert (existsb (same_id a) t = true) by (apply existsb_exists; eauto).
    congruence. }
  destruct Hn as [-> | Hn], Hm as [-> | Hm].
  - reflexivity.
  - rewrite (Hno m Hm) in Hs. discriminate.
  - rewrite same_id_sym, (Hno n Hn) in Hs. discriminate.
  - now apply IH.
Qed.

(** After a sweep that went through, the same sweep finds nothing stale. *)
Lemma listed_resweep parent (sel : list entry -> list entry) (m : M unit) w :
  (forall w0,
     m w0 = (folders <- list_child_folders parent ;;
             for_each (sel folders) delete_old) w0) ->
  (forall ids folders,
     (forall f, In f (sel folders) -> survives ids f = false) ->
     sel (filter (survives ids) folders) = []) ->
  fst (m w) = Ok tt ->
  issued m (snd (m w)) = [EvList parent].
Proof.
  intros Hm Hsel Hok.
  destruct (listed_sweep_spec parent sel m w Hm) as (ids & done & _ & _ & Hids & Hfin & _).
  destruct (Hfin Hok) as (Hdone & Hnodes & Hfault).
  unfold issued. rewrite (Hm (snd (m w))). unfold bind.
  rewrite list_child_folders_run.
  destruct (w_fault (snd (m w)) (ReqList parent)).
  - simpl. apply skipn_length_app.
  - rewrite Hnodes, children_remove_ids, Hsel.
    + simpl. apply skipn_length_app.
    + intros f Hf. apply (done_removed done ids); [exact Hids |].
      rewrite Hdone. exact Hf.
Qed.

Lemma two_buckets_resweep p1 p2 ka kb ids folders :
  0 <= ka -> 0 <= kb ->
  (forall f, In f (stale ka (bucket p1 folders) ++ stale kb (bucket p2 folders)) ->
             survives ids f = false) ->
  stale ka (bucket p1 (filter (survives ids) folders))
  ++ stale kb (bucket p2 (filter (survives ids) folders)) = [].
Proof.
  intros Ha Hb Hgone.
  rewrite !bucket_filter.
  rewrite (stale_after_removal ka), (stale_after_removal kb); try assumption.
  - reflexivity.
  - intros f Hf. apply Hgone, in_or_app. now right.
  - intros f Hf. apply Hgone, in_or_app. now left.
Qed.

Lemma bitwarden_resweep parent keep w :
  0 <= keep ->
  distinct_ids (w_nodes w) = true ->
  fst (cleanup_bitwarden_backups parent keep w) = Ok tt ->
  filter is_delete
    (issued (cleanup_bitwarden_backups parent keep)
            (snd (cleanup_bitwarden_backups parent keep w))) = [].
Proof.
  intros Hk Hdist Hok.
  destruct (cleanup_bitwarden_spec parent keep w)
    as (lists & ids & done & _ & _ & Hids & Hdone & Hfin & _).
  destruct (Hfin Hok) as (Hnodes & Hfault & Hall).
  set (w1 := snd (cleanup_bitwarden_backups parent keep w)) in *.
  unfold issued, cleanup_bitwarden_backups, bind.
  rewrite list_child_folders_run.
  destruct (w_fault w1 (ReqList parent)) as [e |].
  { simpl. rewrite skipn_length_app. reflexivity. }
  rewrite Hnodes, children_remove_ids.
  destruct (children parent true (w_nodes w)) as [| first tl] eqn:Hch.
  { simpl. rewrite skipn_length_app. reflexivity. }
  assert (Hfirst : survives ids first = true).
  { unfold survives. apply negb_true_iff.
    destruct (existsb (fun i => has_id i first) ids) eqn:Hex; [| reflexivity].
    exfalso. apply existsb_exists in Hex. destruct Hex as (i & Hi & Hhas).
    unfold has_id in Hhas. destruct (e_id first) as [fid |] eqn:Hfid; [| discriminate].
    apply Z.eqb_eq in Hhas. subst i.
    destruct (ids_of_done done ids fid Hids Hi) as (f & Hf & Hidf).
    destruct (Hdone f Hf) as (first' & fid' & Hhd & Hid' & Hstale).
    simpl in Hhd. injection Hhd as <-.
    rewrite Hfid in Hid'. injection Hid' as <-.
    apply stale_In, children_In in Hstale. destruct Hstale as (g & Hg & Hge & Hgk).
    assert (Hf1 : In first (children parent true (w_nodes w)))
      by (rewrite Hch; now left).
    apply children_In in Hf1. destruct Hf1 as (n & Hn & Hne & Hnk).
    assert (Heq : n = g).
    { apply (distinct_ids_inj (w_nodes w)); try assumption.
      unfold same_id. rewrite Hne, Hge, Hfid, Hidf. apply Z.eqb_refl. }
    subst g. congruence. }
  rewrite (filter_head _ _ _ Hfirst).
  unfold lift, getitem_id.
  destruct (e_id first) as [fid |] eqn:Hfid.
  2:{ simpl. rewrite skipn_length_app. reflexivity. }
  rewrite list_request_run. simpl w_fault.
  destruct (w_fault w1 (ReqList fid)) as [e |].
  { simpl. rewrite <- app_assoc, skipn_length_app. reflexivity. }
  simpl l_files. change (w_nodes (log (EvList parent) w1)) with (w_nodes w1).
  rewrite Hnodes, children_remove_ids, stale_after_removal.
  - simpl. rewrite <- app_assoc, skipn_length_app. reflexivity.
  - exact Hk.
  - intros f Hf. apply (done_removed done ids); [exact Hids |].
    rewrite (Hall first fid eq_refl Hfid). exact Hf.
Qed.

(** C9.  For keep counts that are not negative, a sweep that ran to its end
    leaves a remote tree on which the same sweep, run again with nothing
    added, requests no deletion.  For the two folder sweeps the second run
    issues the listing request and nothing else.  For the bitwarden sweep
    the remote ids are taken to identify the remote entries. *)
Theorem second_sweep_deletes_nothing (parent ka kb : Z) (w : World) :
  0 <= ka -> 0 <= kb ->
  (fst (cleanup_two_types parent ka kb w) = Ok tt ->
   issued (cleanup_two_types parent ka kb)
          (snd (cleanup_two_types parent ka kb w)) = [EvList parent])
  /\
  (fst (cleanup_storage_types parent ka kb w) = Ok tt ->
   issued (cleanup_storage_types parent ka kb)
          (snd (cleanup_storage_types parent ka kb w)) = [EvList parent])
  /\
  (distinct_ids (w_nodes w) = true ->
   fst (cleanup_bitwarden_backups parent ka w) = Ok tt ->
   filter is_delete
     (issued (cleanup_bitwarden_backups parent ka)
             (snd (cleanup_bitwarden_backups parent ka w))) = []).
Proof.
  intros Ha Hb. split; [| split].
  - apply (listed_resweep parent
             (fun folders => stale ka (bucket "nightly-" folders)
                             ++ stale kb (bucket "biweekly-" folders))).
    + apply cleanup_two_types_unfold.
    + intros ids folders. now apply two_buckets_resweep.
  - apply (listed_resweep parent
             (fun folders => stale ka (bucket "monthly-" folders)
                             ++ stale kb (bucket "snapshot-" folders))).
    + apply cleanup_storage_types_unfold.
    + intros ids folders. now apply two_buckets_resweep.
  - now apply bitwarden_resweep.
Qed.

(** The run of the end-to-end scenario of the specification: three nightly
    folders, keep count 2.  The first sweep deletes the oldest folder only;
    the second sweep deletes nothing. *)
Lemma second_sweep_deletes_nothing_witness :
  (let w := Sample.world Sample.three_nightly [] in
   let sweep := cleanup_two_types DOCKER_PARENT_FOLDER_ID 2 5 in
   issued sweep w = [EvList DOCKER_PARENT_FOLDER_ID; EvDelete 1] /\
   issued sweep (snd (sweep w)) = [EvList DOCKER_PARENT_FOLDER_ID])
  /\
  (let w := Sample.world Sample.bitwarden_two [] in
   let sweep := cleanup_bitwarden_backups BITWARDEN_PARENT_FOLDER_ID 1 in
   filter is_delete (issued sweep w) = [EvDelete 51] /\
   filter is_delete (issued sweep (snd (sweep w))) = []).
Proof.
  split.
  - split; [reflexivity |].
    apply (second_sweep_deletes_nothing DOCKER_PARENT_FOLDER_ID 2 5
             (Sample.world Sample.three_nightly [])); [lia | lia | reflexivity].
  - split; [reflexivity |].
    apply (second_sweep_deletes_nothing BITWARDEN_PARENT_FOLDER_ID 1 1
             (Sample.world Sample.bitwarden_two []));
      [lia | lia | reflexivity | reflexivity].
Defined.

(** ** One upload request *)

Section UploadFacts.
Variables (folder : Z) (path name : string).

Lemma service_upload_fst a w :
  fst (service_upload folder name a w) = Ok (next_outcome w).
Proof.
  unfold service_upload, next_outcome. simpl.
  destruct (w_uploads w) as [| [e | resp] tl]; simpl; try reflexivity.
  destruct (resp_error resp); reflexivity.
Qed.

Lemma service_upload_trace a w :
  w_trace (snd (service_upload folder name a w))
  = w_trace w ++ [EvUpload folder name a].
Proof.
  unfold service_upload. simpl.
  destruct (w_uploads w) as [| [e | resp] tl]; simpl; try reflexivity.
  destruct (resp_error resp); reflexivity.
Qed.

Lemma service_upload_plan a w :
  w_uploads (snd (service_upload folder name a w)) = tl (w_uploads w).
Proof.
  unfold service_upload. simpl.
  destruct (w_uploads w) as [| [e | resp] tl]; simpl; try reflexivity.
  destruct (resp_error resp); reflexivity.
Qed.

Lemma next_outcome_nth w : next_outcome w = nth 0 (w_uploads w) (HttpResp upload_ack).
Proof. unfold next_outcome. destruct (w_uploads w); reflexivity. Qed.

Lemma nth_tl {A} (k : nat) (l : list A) (d : A) : nth k (tl l) d = nth (S k) l d.
Proof. destruct l; [destruct k |]; reflexivity. Qed.

(** One turn of the loop of [upload_file]. *)
Lemma upload_attempts_cons a rest last r w :
  upload_attempts folder path name (a :: rest) last r w
  = let hr := next_outcome w in
    let w1 := snd (service_upload folder name a w) in
    let r' := match hr with HttpResp resp => Some resp | HttpRaise _ => r end in
    match attempt_result hr with
    | Ok ack => (Ok ack, w1)
    | Raise e =>
        if is_transport e then
          upload_attempts folder path name rest (Some e) r' (log (EvSleep RETRY_DELAY) w1)
        else if is_http_error e then
          (Raise (Exn RuntimeError
                    ("HTTP error during upload: " ++ exn_str e ++ ". Body: "
                     ++ body_text r')%string), w1)
        else (Raise e, w1)
    end.
Proof.
  simpl upload_attempts. unfold bind.
  pose proof (service_upload_fst a w) as Hfst.
  destruct (service_upload folder name a w) as [res w1]. simpl in Hfst. subst res.
  simpl.
  destruct (attempt_result (next_outcome w)) as [ack | e]; [reflexivity |].
  destruct (is_transport e); [reflexivity |].
  destruct (is_http_error e); reflexivity.
Qed.

(** The requests of the loop over the attempts [s, s+1, ..., s+n-1]: at most
    [n] uploads, sleeps of [RETRY_DELAY] only, and an attempt is made only
    when every attempt before it met a transport failure. *)
Lemma upload_attempts_spec n : forall s last r w,
  exists evs,
    w_trace (snd (upload_attempts folder path name (seq s n) last r w))
      = w_trace w ++ evs /\
    (List.length (filter is_upload evs) <= n)%nat /\
    (forall ev, In ev evs ->
       ev = EvSleep RETRY_DELAY \/
       exists a, ev = EvUpload folder name a /\ (s <= a)%nat /\
         forall j, (s <= j < a)%nat ->
           retryable (nth (j - s) (w_uploads w) (HttpResp upload_ack)) = true).
Proof.
  induction n as [| n IH]; intros s last r w.
  - exists []. simpl. rewrite app_nil_r.
    split; [reflexivity |]. split; [lia |]. intros ev [].
  - simpl seq. rewrite upload_attempts_cons. cbv zeta.
    assert (Hfirst : forall ev, ev = EvUpload folder name s ->
              ev = EvSleep RETRY_DELAY \/
              exists a, ev = EvUpload folder name a /\ (s <= a)%nat /\
                forall j, (s <= j < a)%nat ->
                  retryable (nth (j - s) (w_uploads w) (HttpResp upload_ack)) = true).
    { intros ev ->. right. exists s. split; [reflexivity |]. split; [lia |].
      intros j Hj. lia. }
    assert (Hone : exists evs,
              w_trace (snd (service_upload folder name s w)) = w_trace w ++ evs /\
              (List.length (filter is_upload evs) <= S n)%nat /\
              (forall ev, In ev evs ->
                 ev = EvSleep RETRY_DELAY \/
                 exists a, ev = EvUpload folder name a /\ (s <= a)%nat /\
                   forall j, (s <= j < a)%nat ->
                     retryable (nth (j - s) (w_uploads w) (HttpResp upload_ack)) = true)).
    { exists [EvUpload folder name s].
      split; [apply service_upload_trace |]. split; [simpl; lia |].
      intros ev [<- | []]. now apply Hfirst. }
    destruct (attempt_result (next_outcome w)) as [ack | e] eqn:Hres; [exact Hone |].
    destruct (is_transport e) eqn:Htr;
      [| destruct (is_http_error e); exact Hone].
    set (w2 := log (EvSleep RETRY_DELAY) (snd (service_upload folder name s w))).
    destruct (IH (S s) (Some e)
                 (match next_outcome w with
                  | HttpResp resp => Some resp
                  | HttpRaise _ => r
                  end) w2) as (evs & Htrace & Hlen & Hevs).
    exists (EvUpload folder name s :: EvSleep RETRY_DELAY :: evs).
    split.
    { rewrite Htrace. subst w2. simpl. rewrite service_upload_trace.
      rewrite <- !app_assoc. reflexivity. }
    split; [simpl; lia |].
    intros ev [<- | [<- | Hin]].
    + now apply Hfirst.
    + now left.
    + destruct (Hevs ev Hin) as [-> | (a & -> & Hsa & Hprev)]; [now left |].
      right. exists a. split; [reflexivity |]. split; [lia |].
      intros j Hj.
      destruct (Nat.eq_dec j s) as [-> | Hne].
      * rewrite Nat.sub_diag, <- next_outcome_nth.
        unfold retryable. now rewrite Hres.
      * specialize (Hprev j ltac:(lia)).
        subst w2. simpl w_uploads in Hprev.
        rewrite service_upload_plan, nth_tl in Hprev.
        replace (j - s)%nat with (S (j - S s)) by lia. exact Hprev.
Qed.

End UploadFacts.


(** ** The retry loop *)

Section RetryFacts.
Variables (folder : Z) (path name : string).

(** The requests of [k] failed attempts numbered from [s]. *)
Lemma upload_attempts_after_failures before : forall s n last r w rest,
  w_uploads w = map HttpRaise before ++ rest ->
  forallb is_transport before = true ->
  (List.length before <= n)%nat ->
  exists w',
    upload_attempts folder path name (seq s n) last r w
    = upload_attempts folder path name
        (seq (s + List.length before) (n - List.length before))
        (fold_left (fun _ e => Some e) before last) r w' /\
    w_uploads w' = rest /\
    w_trace w' = w_trace w
                 ++ flat_map (fun a => [EvUpload folder name a; EvSleep RETRY_DELAY])
                             (seq s (List.length before)).
Proof.
  induction before as [| e t IH]; intros s n last r w rest Hplan Htr Hlen.
  - exists w. simpl. rewrite Nat.add_0_r, Nat.sub_0_r, app_nil_r.
    repeat split. exact Hplan.
  - simpl in Hplan, Htr, Hlen.
    apply andb_prop in Htr. destruct Htr as (He & Ht).
    destruct n as [| n]; [lia |].
    simpl seq at 1. rewrite upload_attempts_cons. cbv zeta.
    rewrite next_outcome_nth, Hplan. simpl nth. simpl attempt_result.
    cbv beta iota. rewrite He.
    set (w1 := log (EvSleep RETRY_DELAY) (snd (service_upload folder name s w))).
    destruct (IH (S s) n (Some e) r w1 rest) as (w' & Hrun & Hrest & Htrace).
    { subst w1. simpl w_uploads. rewrite service_upload_plan, Hplan. reflexivity. }
    { exact Ht. }
    { lia. }
    exists w'. split; [| split].
    + rewrite Hrun. simpl List.length. simpl fold_left.
      replace (s + S (List.length t))%nat with (S s + List.length t)%nat by lia.
      reflexivity.
    + exact Hrest.
    + rewrite Htrace. subst w1. simpl w_trace. rewrite service_upload_trace.
      simpl. rewrite <- !app_assoc. reflexivity.
Qed.

End RetryFacts.

Lemma str_prefix_is_prefix (n : nat) (s : string) :
  String.prefix (Py.str_prefix n s) s = true /\
  (String.length (Py.str_prefix n s) <= n)%nat.
Proof.
  unfold Py.str_prefix. revert s. induction n as [| n IH]; intros s.
  - destruct s; simpl; split; (reflexivity || lia).
  - destruct s as [| c s']; simpl; [split; [reflexivity | lia] |].
    destruct (IH s') as (Hp & Hl).
    destruct (Ascii.ascii_dec c c) as [_ | Hne]; [| congruence].
    split; [exact Hp | lia].
Qed.

(** C6.  [upload_file] makes at most three upload requests; every pause is
    [RETRY_DELAY] seconds; an attempt past the first is made only when each
    attempt before it met a transport failure (connection error, timeout or
    broken chunked body).  When the three attempts meet transport failures
    the result is a [RuntimeError] whose text names the path of the file and
    the third failure.  When the first two attempts meet transport failures
    and the third is acknowledged, the result is that acknowledgement, after
    exactly two pauses. *)
Theorem upload_retry_contract (folder : Z) (dir name : string) (w : World) :
  let run := upload_file folder dir name in
  (List.length (filter is_upload (issued run w)) <= MAX_UPLOAD_RETRIES)%nat /\
  (forall s, In (EvSleep s) (issued run w) -> s = RETRY_DELAY) /\
  (forall a, In (EvUpload folder name (S a)) (issued run w) ->
     forall j, (j < a)%nat ->
       retryable (nth j (w_uploads w) (HttpResp upload_ack)) = true) /\
  (forall e1 e2 e3 rest,
     w_uploads w = HttpRaise e1 :: HttpRaise e2 :: HttpRaise e3 :: rest ->
     is_transport e1 = true -> is_transport e2 = true -> is_transport e3 = true ->
     fst (run w)
     = Raise (Exn RuntimeError
                ("Failed uploading " ++ (dir ++ "/" ++ name)
                 ++ " after 3 attempts: last error: " ++ exn_str e3)%string) /\
     issued run w
     = [EvUpload folder name 1; EvSleep RETRY_DELAY;
        EvUpload folder name 2; EvSleep RETRY_DELAY;
        EvUpload folder name 3; EvSleep RETRY_DELAY]) /\
  (forall e1 e2 resp ack rest,
     w_uploads w = HttpRaise e1 :: HttpRaise e2 :: HttpResp resp :: rest ->
     is_transport e1 = true -> is_transport e2 = true ->
     resp_error resp = None -> resp_json resp = Ok ack ->
     fst (run w) = Ok ack /\
     issued run w
     = [EvUpload folder name 1; EvSleep RETRY_DELAY;
        EvUpload folder name 2; EvSleep RETRY_DELAY;
        EvUpload folder name 3]).
Proof.
  intros run.
  destruct (upload_attempts_spec folder (dir ++ "/" ++ name)%string name
              MAX_UPLOAD_RETRIES 1%nat None None w) as (evs & Htrace & Hlen & Hevs).
  assert (Hissued : issued run w = evs) by (apply issued_from_trace; exact Htrace).
  split; [now rewrite Hissued |].
  split.
  { intros s Hs. rewrite Hissued in Hs.
    destruct (Hevs _ Hs) as [Heq | (a & Heq & _)]; [congruence | discriminate]. }
  split.
  { intros a Ha j Hj. rewrite Hissued in Ha.
    destruct (Hevs _ Ha) as [Heq | (a' & Heq & _ & Hprev)]; [discriminate |].
    injection Heq as <-.
    specialize (Hprev (S j) ltac:(lia)).
    now replace (S j - 1)%nat with j in Hprev by lia. }
  split.
  - intros e1 e2 e3 rest Hplan H1 H2 H3.
    destruct (upload_attempts_after_failures folder (dir ++ "/" ++ name)%string name
                [e1; e2; e3] 1%nat MAX_UPLOAD_RETRIES None None w rest)
      as (w' & Hrun & _ & Htr).
    { exact Hplan. }
    { simpl. now rewrite H1, H2, H3. }
    { simpl. unfold MAX_UPLOAD_RETRIES. lia. }
    subst run. unfold issued, upload_file. rewrite Hrun. simpl.
    rewrite Htr. split; [reflexivity | apply skipn_length_app].
  - intros e1 e2 resp ack rest Hplan H1 H2 Hno Hack.
    destruct (upload_attempts_after_failures folder (dir ++ "/" ++ name)%string name
                [e1; e2] 1%nat MAX_UPLOAD_RETRIES None None w (HttpResp resp :: rest))
      as (w' & Hrun & Hrest & Htr).
    { exact Hplan. }
    { simpl. now rewrite H1, H2. }
    { simpl. unfold MAX_UPLOAD_RETRIES. lia. }
    subst run. unfold issued, upload_file. rewrite Hrun.
    simpl seq. simpl fold_left.
    rewrite upload_attempts_cons. cbv zeta.
    rewrite next_outcome_nth, Hrest. simpl nth. simpl attempt_result.
    rewrite Hno, Hack. simpl fst. simpl snd.
    rewrite service_upload_trace, Htr. simpl.
    split; [reflexivity |].
    rewrite <- app_assoc. apply skipn_length_app.
Qed.

Lemma upload_retry_contract_witness :
  (let w := Sample.world []
              [HttpRaise Sample.conn_reset; HttpRaise Sample.timed_out;
               HttpResp Sample.acked] in
   fst (upload_file 7 "/backups/docker-tar/nightly-20240103" "app.tar" w)
   = Ok (JDict [("success", JBool true)]) /\
   List.length
     (filter is_sleep
        (issued (upload_file 7 "/backups/docker-tar/nightly-20240103" "app.tar") w))
   = 2%nat)
  /\
  (let w := Sample.world []
              [HttpRaise Sample.conn_reset; HttpRaise Sample.timed_out;
               HttpRaise Sample.truncated] in
   fst (upload_file 7 "/backups/docker-tar/nightly-20240103" "app.tar" w)
   = Raise (Exn RuntimeError
              "Failed uploading /backups/docker-tar/nightly-20240103/app.tar after 3 attempts: last error: Connection broken")).
Proof.
  split.
  - pose proof (upload_retry_contract 7 "/backups/docker-tar/nightly-20240103" "app.tar"
                  (Sample.world []
                     [HttpRaise Sample.conn_reset; HttpRaise Sample.timed_out;
                      HttpResp Sample.acked])) as Hc.
    destruct Hc as (_ & _ & _ & _ & Hok).
    destruct (Hok Sample.conn_reset Sample.timed_out Sample.acked
                  (JDict [("success", JBool true)]) []
                  eq_refl eq_refl eq_refl eq_refl eq_refl)
      as (Hres & Hev).
    split; [exact Hres |].
    rewrite Hev. reflexivity.
  - pose proof (upload_retry_contract 7 "/backups/docker-tar/nightly-20240103" "app.tar"
                  (Sample.world []
                     [HttpRaise Sample.conn_reset; HttpRaise Sample.timed_out;
                      HttpRaise Sample.truncated])) as Hc.
    destruct Hc as (_ & _ & _ & Hfail & _).
    exact (proj1 (Hfail Sample.conn_reset Sample.timed_out Sample.truncated []
                        eq_refl eq_refl eq_refl eq_refl)).
Defined.

(** C7.  A response with an HTTP error status ends [upload_file] at once,
    on whichever of the three attempts it comes: the result is a
    [RuntimeError] whose text holds the first 1000 characters of the
    response body, no pause and no upload request follows, and the outcomes
    planned after it are not consumed. *)
Theorem http_error_is_terminal (folder : Z) (dir name : string) (w : World)
    (before : list exn) (resp : response) (m body : string) (rest : list http_result) :
  w_uploads w = map HttpRaise before ++ HttpResp resp :: rest ->
  forallb is_transport before = true ->
  (List.length before < MAX_UPLOAD_RETRIES)%nat ->
  resp_error resp = Some m ->
  resp_text resp = Some body ->
  let run := upload_file folder dir name in
  fst (run w)
  = Raise (Exn RuntimeError
             ("HTTP error during upload: " ++ m ++ ". Body: "
              ++ Py.str_prefix 1000 body)%string) /\
  issued run w
  = flat_map (fun a => [EvUpload folder name a; EvSleep RETRY_DELAY])
             (seq 1 (List.length before))
    ++ [EvUpload folder name (S (List.length before))] /\
  w_uploads (snd (run w)) = rest /\
  String.prefix (Py.str_prefix 1000 body) body = true /\
  (String.length (Py.str_prefix 1000 body) <= 1000)%nat.
Proof.
  intros Hplan Htr Hlen Herr Htext run.
  destruct (upload_attempts_after_failures folder (dir ++ "/" ++ name)%string name
              before 1%nat MAX_UPLOAD_RETRIES None None w (HttpResp resp :: rest)
              Hplan Htr ltac:(lia))
    as (w' & Hrun & Hrest & Htrace).
  subst run. unfold issued, upload_file. rewrite Hrun.
  destruct (MAX_UPLOAD_RETRIES - List.length before)%nat as [| k] eqn:Hk; [lia |].
  simpl seq. rewrite upload_attempts_cons. cbv zeta.
  rewrite next_outcome_nth, Hrest. simpl nth. simpl attempt_result.
  rewrite Herr. cbv beta iota.
  change (is_transport (Exn HTTPError m)) with false.
  change (is_http_error (Exn HTTPError m)) with true.
  cbv beta iota. simpl fst. simpl snd.
  unfold body_text. rewrite Htext.
  rewrite service_upload_trace, service_upload_plan, Hrest, Htrace.
  split; [reflexivity |].
  split; [rewrite <- app_assoc; apply skipn_length_app |].
  split; [reflexivity |].
  apply str_prefix_is_prefix.
Qed.

Lemma http_error_is_terminal_witness :
  let w := Sample.world [] [HttpResp Sample.forbidden; HttpResp Sample.acked] in
  fst (upload_file 7 "/backups/bitwarden" "export.json" w)
  = Raise (Exn RuntimeError
             "HTTP error during upload: 403 Client Error: Forbidden. Body: quota exceeded") /\
  issued (upload_file 7 "/backups/bitwarden" "export.json") w
  = [EvUpload 7 "export.json" 1].
Proof.
  destruct (http_error_is_terminal 7 "/backups/bitwarden" "export.json"
              (Sample.world [] [HttpResp Sample.forbidden; HttpResp Sample.acked])
              [] Sample.forbidden "403 Client Error: Forbidden" "quota exceeded"
              [HttpResp Sample.acked])
    as (Hres & Hev & _); try reflexivity.
  - unfold MAX_UPLOAD_RETRIES. simpl. lia.
  - split; [exact Hres | exact Hev].
Defined.

(** ** The id of a created folder *)

Section CreateFacts.
Context `{PyRuntime}.

Lemma create_cloud_folder_run folder_name parent_id w :
  w_fault w (ReqCreate folder_name parent_id) = None ->
  create_cloud_folder folder_name parent_id w
  = (folder_id_of_response (w_create_reply w (w_fresh w)),
     add_node parent_id true folder_name (log (EvCreate folder_name parent_id) w)).
Proof.
  intros Hf. unfold create_cloud_folder, call, service_create, bind, lift.
  simpl. rewrite Hf. reflexivity.
Qed.

(** The last lines of [create_cloud_folder], once the nested lookup gave
    [nested] and the top-level lookup would give [top]. *)
Lemma chosen_id_inv (msg : string) (nested top : json) (z : Z) :
  match (if truthy nested then Ok nested else Ok top) with
  | Raise e => Raise e
  | Ok folder_id =>
      if negb (truthy folder_id) then Raise (Exn RuntimeError msg)
      else py_int folder_id
  end = Ok z ->
  (truthy nested = true /\ py_int nested = Ok z) \/
  (truthy nested = false /\ truthy top = true /\ py_int top = Ok z).
Proof.
  destruct (truthy nested) eqn:Hn.
  - rewrite Hn. simpl. intros Hz. now left.
  - destruct (truthy top) eqn:Ht; simpl; [| discriminate].
    intros Hz. right. repeat split; assumption.
Qed.

Lemma default_of_lookup (o : option json) (v : json) :
  truthy (match o with Some x => x | None => JNull end) = true ->
  match o with Some x => x | None => JNull end = v -> o = Some v.
Proof. destruct o; simpl; [congruence | discriminate]. Qed.

(** C8, as the code has it.  [create_cloud_folder] gives the id of the
    answer when it is a non-zero integer under the nested shape, or, when
    the nested shape holds no id or one that Python counts as false, under
    the top-level shape.  It raises when neither shape holds an id, and an
    id it returns is always a value of the answer, under one of the two
    shapes, that Python counts as true. *)
Theorem folder_id_of_response_shapes (data : json) :
  (forall z, nested_id data = Some (JInt z) -> z <> 0 ->
             folder_id_of_response data = Ok z) /\
  (forall z, top_id data = Some (JInt z) -> z <> 0 ->
             nested_path_ok data = true ->
             (nested_id data = None \/
              exists v, nested_id data = Some v /\ truthy v = false) ->
             folder_id_of_response data = Ok z) /\
  (nested_id data = None -> top_id data = None ->
   exists e, folder_id_of_response data = Raise e) /\
  (forall z, folder_id_of_response data = Ok z ->
     exists v, (nested_id data = Some v \/ top_id data = Some v) /\
               truthy v = true /\ py_int v = Ok z).
Proof.
  split; [| split; [| split]].
  - intros z Hn Hz. unfold nested_id in Hn.
    destruct data as [| | | | | d]; try discriminate.
    destruct (assoc "data" d) as [[| | | | | a] |] eqn:Hd; try discriminate.
    destruct (assoc "folder" a) as [[| | | | | f] |] eqn:Hf; try discriminate.
    unfold folder_id_of_response, dict_get.
    rewrite Hd, Hf, Hn. simpl truthy.
    rewrite (proj2 (Z.eqb_neq z 0) Hz). simpl.
    rewrite (proj2 (Z.eqb_neq z 0) Hz). reflexivity.
  - intros z Ht Hz Hpath Hnested.
    assert (Hne : (z =? 0) = false) by (now apply Z.eqb_neq).
    unfold top_id in Ht. unfold nested_path_ok in Hpath. unfold nested_id in Hnested.
    destruct data as [| | | | | d]; try discriminate.
    unfold folder_id_of_response, dict_get. rewrite Ht.
    destruct (assoc "data" d) as [[| | | | | a] |]; try discriminate;
      [destruct (assoc "folder" a) as [[| | | | | f] |]; try discriminate |];
      cbn [assoc];
      try (simpl; rewrite Hne; reflexivity).
    destruct Hnested as [Hnone | (v & Hsome & Hfalse)].
    + rewrite Hnone. simpl. rewrite Hne. reflexivity.
    + rewrite Hsome, Hfalse. simpl. rewrite Hne. reflexivity.
  - intros Hn Ht. unfold nested_id in Hn. unfold top_id in Ht.
    unfold folder_id_of_response, dict_get.
    destruct data as [| b | z | s | l | d]; eauto.
    rewrite Ht.
    destruct (assoc "data" d) as [[| b | z | s | l | a] |]; simpl; eauto.
    destruct (assoc "folder" a) as [[| b | z | s | l | f] |]; simpl; eauto.
    rewrite Hn. simpl. eauto.
  - intros z Hres. unfold folder_id_of_response, dict_get in Hres.
    unfold nested_id, top_id.
    destruct data as [| b | z0 | s | l | d]; try discriminate.
    destruct (assoc "data" d) as [[| b | z0 | s | l | a] |] eqn:Hd;
      try discriminate;
      [destruct (assoc "folder" a) as [[| b | z0 | s | l | f] |] eqn:Hf;
       try discriminate |];
      cbn [assoc] in Hres;
      apply chosen_id_inv in Hres;
      destruct Hres as [(Hn & Hz) | (_ & Ht & Hz)];
      try (simpl in Hn; discriminate);
      try (exists (match assoc "id" d with Some x => x | None => JNull end);
           split; [right; now apply default_of_lookup | split; assumption]).
    exists (match assoc "id" f with Some x => x | None => JNull end).
    split; [left; now apply default_of_lookup | split; assumption].
Qed.

End CreateFacts.

Lemma folder_id_of_response_shapes_witness :
  @folder_id_of_response Sample.runtime (Sample.nested_reply 17922960) = Ok 17922960 /\
  @folder_id_of_response Sample.runtime (Sample.flat_reply 17922960) = Ok 17922960.
Proof.
  split.
  - apply (proj1 (@folder_id_of_response_shapes Sample.runtime
                    (Sample.nested_reply 17922960)));
      [reflexivity | lia].
  - apply (proj1 (proj2 (@folder_id_of_response_shapes Sample.runtime
                           (Sample.flat_reply 17922960))));
      [reflexivity | lia | reflexivity | left; reflexivity].
Defined.

(** C8, as the claim states it, fails.  An answer that carries the id 0,
    under the top-level shape or under the nested one, is answered with the
    [RuntimeError] of a missing id: Python counts 0 as false, in
    [... or data.get("id")] and in [if not folder_id]. *)
Lemma zero_id_is_rejected :
  top_id (Sample.flat_reply 0) = Some (JInt 0) /\
  nested_id (Sample.nested_reply 0) = Some (JInt 0) /\
  @folder_id_of_response Sample.runtime (Sample.flat_reply 0)
  = Raise (Exn RuntimeError "Failed to create folder. Response: <data>") /\
  @folder_id_of_response Sample.runtime (Sample.nested_reply 0)
  = Raise (Exn RuntimeError "Failed to create folder. Response: <data>").
Proof. repeat split. Qed.

(** ** Presence checks *)

Section PresenceFacts.
Context `{PyRuntime}.

(** [cloud_has_folder] reads the folders of the listing, never its files. *)
Lemma cloud_has_folder_run parent name w :
  cloud_has_folder parent name w
  = match w_fault w (ReqList parent) with
    | Some e => (Raise e, log (EvList parent) w)
    | None =>
        (Ok (existsb (fun f => match e_name f with
                               | Some n => String.eqb n name
                               | None => false
                               end)
                     (children parent true (w_nodes w))),
         log (EvList parent) w)
    end.
Proof.
  unfold cloud_has_folder, bind, ret. rewrite list_child_folders_run.
  destruct (w_fault w (ReqList parent)); reflexivity.
Qed.

(** The storage block skips a set whose name is on the remote: it is left
    alone, after the one listing request. *)
Lemma storage_set_present_is_noop dir d w :
  fst (cloud_has_folder STORAGE_PARENT_FOLDER_ID (d_name d) w) = Ok true ->
  upload_storage_set dir (Some d) w = (Ok tt, log (EvList STORAGE_PARENT_FOLDER_ID) w).
Proof.
  unfold upload_storage_set, bind. rewrite cloud_has_folder_run.
  destruct (w_fault w (ReqList STORAGE_PARENT_FOLDER_ID)); simpl; [discriminate |].
  intros Hp. injection Hp as ->. reflexivity.
Qed.

End PresenceFacts.

(** C2 (code defect).  The storage block asks [cloud_has_folder] before it
    creates a folder; the Docker block of [main] does not.  The newest local
    folder [nightly-20240103] is already a folder of the Docker parent, and
    the run still issues a create request for that name and uploads its
    file: the claim wants no create and no upload request. *)
Theorem docker_block_ignores_existing_folder :
  let w := Sample.world Sample.three_nightly [] in
  let run := @main Sample.runtime Sample.docker_fs in
  fst (cloud_has_folder DOCKER_PARENT_FOLDER_ID "nightly-20240103" w) = Ok true /\
  fst (run w) = Ok tt /\
  issued run w
  = [EvLogin;
     EvCreate "nightly-20240103" DOCKER_PARENT_FOLDER_ID;
     EvUpload 100 "app.tar" 1;
     EvList DOCKER_PARENT_FOLDER_ID; EvDelete 1; EvDelete 2] /\
  map e_name (children DOCKER_PARENT_FOLDER_ID true (w_nodes (snd (run w))))
  = [Some "nightly-20240103"; Some "nightly-20240103"].
Proof. vm_compute. repeat split. Qed.

(** C4 (code defect).  The bitwarden loop asks [cloud_has_folder], which
    reads the folders of the listing; an uploaded export is a file of it.
    The export [export-2024-01-01.json] is a file of the bitwarden folder,
    the check answers that it is absent, and the run uploads it again: the
    claim wants no upload request. *)
Theorem bitwarden_reuploads_existing_file :
  let w := Sample.world Sample.bitwarden_nodes [] in
  let run := @upload_bitwarden_backups Sample.runtime Sample.bitwarden_fs in
  map e_name (children 50 false (w_nodes w)) = [Some "export-2024-01-01.json"] /\
  fst (cloud_has_folder 50 "export-2024-01-01.json" w) = Ok false /\
  fst (run w) = Ok tt /\
  issued run w
  = [EvList BITWARDEN_PARENT_FOLDER_ID; EvList 50;
     EvUpload 50 "export-2024-01-01.json" 1; EvList 50] /\
  map e_name (children 50 false (w_nodes (snd (run w))))
  = [Some "export-2024-01-01.json"; Some "export-2024-01-01.json"].
Proof. vm_compute. repeat split. Qed.

(** ** The scenarios of the specification *)

(** Three nightly folders on the remote, keep count 2: the sweep deletes the
    oldest one only. *)
Example three_nightly_keep_two :
  let w := Sample.world Sample.three_nightly [] in
  issued (cleanup_two_types DOCKER_PARENT_FOLDER_ID KEEP_NIGHTLY KEEP_BIWEEKLY) w
  = [EvList DOCKER_PARENT_FOLDER_ID; EvDelete 1].
Proof. reflexivity. Qed.

(** Two exports in the local bitwarden root, nothing on the remote: the run
    creates the folder, uploads both exports in the order of their names, and
    the sweep deletes nothing. *)
Example bitwarden_first_run :
  let fs := mkFS None None
              (Some [FsFile "export-2024-02-01.json"; FsFile "export-2024-01-01.json";
                     FsFile "notes.txt"]) in
  let w := Sample.world [] [] in
  issued (@upload_bitwarden_backups Sample.runtime fs) w
  = [EvList BITWARDEN_PARENT_FOLDER_ID;
     EvCreate "bitwarden-backups" BITWARDEN_PARENT_FOLDER_ID;
     EvList 100; EvUpload 100 "export-2024-01-01.json" 1;
     EvList 100; EvUpload 100 "export-2024-02-01.json" 1;
     EvList 100].
Proof. vm_compute. reflexivity. Qed.

(** ** The newest local folder *)

Section MaxFacts.
Context {A : Type} (key : A -> Z).

Lemma max_by_none (l : list A) : Py.max_by key l = None <-> l = [].
Proof.
  unfold Py.max_by. split.
  - destruct l as [| x t]; [reflexivity |]. simpl.
    destruct (Py.max_with _ t) as [m |]; [destruct (key m <=? key x) |]; discriminate.
  - intros ->. reflexivity.
Qed.

(** [max] gives the first of the elements with the largest key. *)
Lemma max_by_first_largest (l : list A) (m : A) :
  Py.max_by key l = Some m ->
  exists before after,
    l = before ++ m :: after /\
    (forall x, In x before -> key x < key m) /\
    (forall x, In x after -> key x <= key m).
Proof.
  unfold Py.max_by. revert m. induction l as [| x t IH]; intros m Hm; [discriminate |].
  simpl in Hm.
  destruct (Py.max_with (fun a b => key a <=? key b) t) as [m' |] eqn:Ht.
  - destruct (IH m' eq_refl) as (b & a & Hl & Hb & Ha).
    destruct (Z.leb_spec (key m') (key x)) as [Hle | Hgt]; injection Hm as <-.
    + exists [], t. split; [reflexivity |]. split; [intros y [] |].
      intros y Hy. rewrite Hl in Hy. apply in_app_or in Hy.
      destruct Hy as [Hy | [<- | Hy]].
      * specialize (Hb y Hy). lia.
      * exact Hle.
      * specialize (Ha y Hy). lia.
    + exists (x :: b), a. split; [simpl; now rewrite Hl |].
      split; [| exact Ha].
      intros y [<- | Hy]; [exact Hgt | now apply Hb].
  - injection Hm as <-.
    assert (t = []) as -> by (now apply max_by_none).
    exists [], []. split; [reflexivity |]. split; intros y [].
Qed.
End MaxFacts.

Lemma dirs_of_In (es : list fsnode) (d : ldir) :
  In d (dirs_of es) <-> In (FsDir (d_name d) (d_mtime d) (d_entries d)) es.
Proof.
  induction es as [| [n | n m c] t IH]; simpl.
  - tauto.
  - rewrite IH. split; [now right | intros [Habs | Hin]; [discriminate | exact Hin]].
  - rewrite IH. split.
    + intros [<- | Hin]; [now left | now right].
    + intros [Heq | Hin]; [left | now right].
      injection Heq as -> -> ->. now destruct d.
Qed.

(** X1.  [get_latest_folder_in] gives nothing exactly when the root does not
    exist or holds no directory.  Otherwise it gives a directory of the
    root whose modification time is the largest, the first such one in the
    order of iteration; files are never chosen. *)
Theorem get_latest_folder_in_newest (root : option (list fsnode)) :
  (get_latest_folder_in root = None <->
   root = None \/ exists es, root = Some es /\ dirs_of es = []) /\
  (forall d, get_latest_folder_in root = Some d ->
     exists es before after,
       root = Some es /\
       In (FsDir (d_name d) (d_mtime d) (d_entries d)) es /\
       dirs_of es = before ++ d :: after /\
       (forall x, In x before -> d_mtime x < d_mtime d) /\
       (forall x, In x after -> d_mtime x <= d_mtime d)).
Proof.
  unfold get_latest_folder_in. split.
  - destruct root as [es |].
    + rewrite max_by_none. split.
      * intros Hd. right. now exists es.
      * intros [Habs | (es' & Heq & Hd)]; [discriminate |]. now injection Heq as ->.
    + split; [now left | reflexivity].
  - intros d Hd. destruct root as [es |]; [| discriminate].
    destruct (max_by_first_largest d_mtime _ _ Hd) as (b & a & Hl & Hb & Ha).
    exists es, b, a. split; [reflexivity |].
    split; [| now repeat split].
    apply dirs_of_In. rewrite Hl. apply in_or_app. right. now left.
Qed.

(** ** Login and the main flow *)

Section MainFacts.
Context `{PyRuntime}.

Lemma login_world w : snd (login w) = log EvLogin w.
Proof.
  unfold login, call, bind, lift, raise, ret. cbv beta zeta.
  change (w_fault (log EvLogin w)) with (w_fault w).
  destruct (w_fault w ReqLogin); [reflexivity |].
  cbv beta iota zeta.
  change (w_login_reply (log EvLogin w)) with (w_login_reply w).
  destruct (dict_get (w_login_reply w) "data" (JDict [])) as [d | e]; [| reflexivity].
  destruct (dict_get d "validationkey" JNull) as [v | e]; [| reflexivity].
  destruct (truthy v); reflexivity.
Qed.

Lemma create_cloud_folder_fault folder_name parent_id w e :
  w_fault w (ReqCreate folder_name parent_id) = Some e ->
  create_cloud_folder folder_name parent_id w
  = (Raise e, log (EvCreate folder_name parent_id) w).
Proof.
  intros Hf. unfold create_cloud_folder, call, bind. cbv beta zeta.
  change (w_fault (log (EvCreate folder_name parent_id) w)) with (w_fault w).
  now rewrite Hf.
Qed.

(** X2.  [login] issues the login request and leaves the remote as it is.
    When the request fails its exception is the result.  Otherwise the
    result is the value under [data.validationkey] when Python counts it as
    true; when the [data] object or the key is missing, or the value counts
    as false (an empty string, for one), the result is a [RuntimeError]
    whose text carries the answer and the cookies. *)
Theorem login_key_or_error (w : World) :
  (forall e, w_fault w ReqLogin = Some e -> login w = (Raise e, log EvLogin w)) /\
  (w_fault w ReqLogin = None ->
   (forall d a v,
      w_login_reply w = JDict d -> assoc "data" d = Some (JDict a) ->
      assoc "validationkey" a = Some v -> truthy v = true ->
      login w = (Ok v, log EvLogin w)) /\
   (forall d,
      w_login_reply w = JDict d ->
      (assoc "data" d = None \/
       exists a, assoc "data" d = Some (JDict a) /\
         (assoc "validationkey" a = None \/
          exists v, assoc "validationkey" a = Some v /\ truthy v = false)) ->
      login w
      = (Raise (Exn RuntimeError
                  ("Login failed to return validationKey. Response: "
                   ++ repr_json (w_login_reply w)
                   ++ " Cookies: " ++ repr_json (w_cookies w))%string),
         log EvLogin w))).
Proof.
  split.
  - intros e He. unfold login, call, bind. cbv beta zeta.
    change (w_fault (log EvLogin w)) with (w_fault w). now rewrite He.
  - intros Hok. split.
    + intros d a v Hd Ha Hv Ht.
      unfold login, call, bind, lift, ret, dict_get. cbv beta zeta.
      change (w_fault (log EvLogin w)) with (w_fault w).
      rewrite Hok. cbv beta iota zeta.
      change (w_login_reply (log EvLogin w)) with (w_login_reply w).
      rewrite Hd, Ha, Hv, Ht. reflexivity.
    + intros d Hd Hmiss.
      unfold login, call, bind, lift, raise, dict_get. cbv beta zeta.
      change (w_fault (log EvLogin w)) with (w_fault w).
      rewrite Hok. cbv beta iota zeta.
      change (w_login_reply (log EvLogin w)) with (w_login_reply w).
      change (w_cookies (log EvLogin w)) with (w_cookies w).
      destruct (w_login_reply w) as [| | | | | d0]; try discriminate.
      injection Hd as ->.
      destruct Hmiss as [Hnone | (a & Ha & [Hnone | (v & Hv & Hf)])].
      * rewrite Hnone. reflexivity.
      * rewrite Ha, Hnone. reflexivity.
      * rewrite Ha, Hv, Hf. reflexivity.
Qed.

(** X3.  [main] goes no further than the login when the login fails, or
    when its key cannot be sliced for the progress line (a number, for one):
    the error is the result of the run and no other request is issued. *)
Theorem main_stops_after_login (fs : LocalFS) (w : World) :
  (forall e, fst (login w) = Raise e ->
     main fs w = (Raise e, log EvLogin w) /\ issued (main fs) w = [EvLogin]) /\
  (forall key e, fst (login w) = Ok key -> key_prefix key = Raise e ->
     main fs w = (Raise e, log EvLogin w) /\ issued (main fs) w = [EvLogin]).
Proof.
  assert (Hissued : forall r, main fs w = (r, log EvLogin w) -> issued (main fs) w = [EvLogin]).
  { intros r Hm. apply issued_from_trace. rewrite Hm. reflexivity. }
  pose proof (login_world w) as Hw.
  split.
  - intros e He.
    assert (Hm : main fs w = (Raise e, log EvLogin w)).
    { unfold main, bind. destruct (login w) as [r w1]. simpl in He, Hw. now subst. }
    split; [exact Hm | now apply (Hissued (Raise e))].
  - intros key e Hk He.
    assert (Hm : main fs w = (Raise e, log EvLogin w)).
    { unfold main, bind, lift. destruct (login w) as [r w1]. simpl in Hk, Hw. subst.
      now rewrite He. }
    split; [exact Hm | now apply (Hissued (Raise e))].
Qed.

(** X4.  With nothing to back up (no directory under the Docker root, no
    storage root, no bitwarden root) a run that logs in ends normally
    having issued the login request only. *)
Theorem main_without_local_data (fs : LocalFS) (w : World) (key : json) :
  get_latest_folder_in (fs_docker fs) = None ->
  fs_storage fs = None ->
  fs_bitwarden fs = None ->
  fst (login w) = Ok key ->
  key_prefix key = Ok tt ->
  main fs w = (Ok tt, log EvLogin w).
Proof.
  intros Hd Hs Hb Hk Hp. pose proof (login_world w) as Hw.
  unfold main, bind, lift, upload_docker_backup, upload_new_storage_backups,
    upload_bitwarden_backups.
  destruct (login w) as [r w1]. simpl in Hk, Hw. subst.
  rewrite Hp, Hd, Hs, Hb. reflexivity.
Qed.

(** X5.  The categories are not isolated from one another: when the create
    request of the Docker block fails, the run ends with that exception and
    neither the storage nor the bitwarden block issues a request. *)
Theorem main_docker_failure_ends_run (fs : LocalFS) (w : World) (key : json)
    (d : ldir) (e : exn) :
  get_latest_folder_in (fs_docker fs) = Some d ->
  fst (login w) = Ok key ->
  key_prefix key = Ok tt ->
  w_fault w (ReqCreate (d_name d) DOCKER_PARENT_FOLDER_ID) = Some e ->
  fst (main fs w) = Raise e /\
  issued (main fs) w = [EvLogin; EvCreate (d_name d) DOCKER_PARENT_FOLDER_ID].
Proof.
  intros Hd Hk Hp Hf. pose proof (login_world w) as Hw.
  assert (Hm : main fs w
               = (Raise e, log (EvCreate (d_name d) DOCKER_PARENT_FOLDER_ID)
                               (log EvLogin w))).
  { unfold main, bind, lift, upload_docker_backup.
    destruct (login w) as [r w1]. simpl in Hk, Hw. subst.
    rewrite Hp, Hd. unfold bind.
    rewrite (create_cloud_folder_fault _ _ (log EvLogin w) e Hf). reflexivity. }
  split; [now rewrite Hm |].
  apply issued_from_trace. rewrite Hm. simpl. now rewrite <- app_assoc.
Qed.

End MainFacts.

Lemma main_without_local_data_witness :
  @main Sample.runtime (mkFS (Some [FsFile "readme.txt"]) None None)
        (Sample.world Sample.three_nightly [])
  = (Ok tt, log EvLogin (Sample.world Sample.three_nightly [])).
Proof.
  apply (@main_without_local_data Sample.runtime
           (mkFS (Some [FsFile "readme.txt"]) None None)
           (Sample.world Sample.three_nightly []) (JStr "0123456789abcdef"));
    reflexivity.
Defined.

Lemma main_docker_failure_ends_run_witness :
  fst (@main Sample.runtime Sample.docker_fs SampleMore.world_failing_create)
  = Raise (Exn HTTPError "507 Insufficient Storage") /\
  issued (@main Sample.runtime Sample.docker_fs) SampleMore.world_failing_create
  = [EvLogin; EvCreate "nightly-20240103" DOCKER_PARENT_FOLDER_ID].
Proof.
  apply (@main_docker_failure_ends_run Sample.runtime Sample.docker_fs
           SampleMore.world_failing_create (JStr "0123456789abcdef")
           (mkDir "nightly-20240103" 30 [FsFile "app.tar"])
           (Exn HTTPError "507 Insufficient Storage"));
    reflexivity.
Defined.

(** ** Sweeps that go through *)

Lemma deletable_fault w1 w f :
  w_fault w1 = w_fault w -> deletable w1 f = deletable w f.
Proof. intros Hf. unfold deletable. now rewrite Hf. Qed.

Lemma deletable_all_fault w1 w l :
  w_fault w1 = w_fault w -> forallb (deletable w1) l = forallb (deletable w) l.
Proof.
  intros Hf. induction l as [| f t IH]; [reflexivity |].
  simpl. now rewrite IH, (deletable_fault w1 w f Hf).
Qed.

(** The loop over entries that can all be deleted: each is deleted, in
    order, and the loop goes on with what follows them. *)
Lemma delete_loop_prefix pre : forall rest w,
  forallb (deletable w) pre = true ->
  exists w',
    for_each (pre ++ rest) delete_old w = for_each rest delete_old w' /\
    w_trace w' = w_trace w ++ map EvDelete (ids_of pre) /\
    w_nodes w' = remove_ids (ids_of pre) (w_nodes w) /\
    w_fault w' = w_fault w.
Proof.
  induction pre as [| f t IH]; intros rest w Hall.
  - exists w. simpl. rewrite app_nil_r. repeat split.
  - simpl in Hall. apply andb_prop in Hall. destruct Hall as (Hf & Ht).
    unfold deletable in Hf.
    destruct (e_name f) as [nm |] eqn:Hn; [| discriminate].
    destruct (e_id f) as [i |] eqn:Hi; [| discriminate].
    destruct (w_fault w (ReqDelete i)) eqn:Hfault; [discriminate |].
    set (w1 := set_nodes (remove_id i (w_nodes w)) (log (EvDelete i) w)).
    destruct (IH rest w1) as (w' & Hrun & Htr & Hnodes & Hfl).
    { rewrite (deletable_all_fault w1 w t eq_refl). exact Ht. }
    exists w'. split; [| split; [| split]].
    + simpl app. simpl for_each. unfold bind at 1. rewrite delete_old_run, Hn, Hi, Hfault.
      exact Hrun.
    + rewrite Htr. simpl ids_of. rewrite Hi. subst w1. simpl.
      now rewrite <- app_assoc.
    + rewrite Hnodes. simpl ids_of. rewrite Hi. reflexivity.
    + rewrite Hfl. reflexivity.
Qed.

Lemma stale_sorted keep l :
  StronglySorted (fun a b => get_date a <= get_date b) (stale keep l).
Proof.
  pose proof (sorted_by_sorted get_date l) as Hs. fold (by_date l) in Hs.
  rewrite (stale_retained keep l) in Hs.
  induction (stale keep l) as [| x t IH]; [constructor |].
  simpl in Hs. inversion Hs as [| ? ? Hs' Hall]; subst.
  constructor; [now apply IH |].
  apply Forall_app in Hall. tauto.
Qed.

Lemma bucket_has_name prefix fs f a rest :
  prefix = String a rest -> In f (bucket prefix fs) -> e_name f <> None.
Proof.
  intros -> Hf Hnone. apply bucket_In in Hf. destruct Hf as (_ & Hp).
  unfold get_name in Hp. rewrite Hnone in Hp. discriminate.
Qed.

(** A sweep of two buckets over a listing that came through. *)
Lemma two_bucket_sweep_run parent (sel : list entry -> list entry) (m : M unit) w :
  (forall w0,
     m w0 = (folders <- list_child_folders parent ;;
             for_each (sel folders) delete_old) w0) ->
  w_fault w (ReqList parent) = None ->
  m w = for_each (sel (children parent true (w_nodes w))) delete_old
                 (log (EvList parent) w).
Proof.
  intros Hm Hl. rewrite Hm. unfold bind. rewrite list_child_folders_run, Hl. reflexivity.
Qed.

Lemma sweep_all_deleted parent (sel : list entry -> list entry) (m : M unit) w :
  (forall w0,
     m w0 = (folders <- list_child_folders parent ;;
             for_each (sel folders) delete_old) w0) ->
  w_fault w (ReqList parent) = None ->
  forallb (deletable w) (sel (children parent true (w_nodes w))) = true ->
  fst (m w) = Ok tt /\
  issued m w
  = EvList parent :: map EvDelete (ids_of (sel (children parent true (w_nodes w)))) /\
  w_nodes (snd (m w))
  = remove_ids (ids_of (sel (children parent true (w_nodes w)))) (w_nodes w).
Proof.
  intros Hm Hl Hall.
  pose proof (two_bucket_sweep_run parent sel m w Hm Hl) as Hrun.
  destruct (delete_loop_prefix (sel (children parent true (w_nodes w))) []
              (log (EvList parent) w) Hall) as (w' & Hloop & Htr & Hnodes & _).
  rewrite app_nil_r in Hloop.
  split; [| split].
  - rewrite Hrun, Hloop. reflexivity.
  - apply issued_from_trace. rewrite Hrun, Hloop. simpl. rewrite Htr. simpl.
    now rewrite <- app_assoc.
  - rewrite Hrun, Hloop. simpl. exact Hnodes.
Qed.

(** X6.  When the listing comes through and every stale entry can be
    deleted, a folder sweep ends normally and its delete requests are, in
    this order, the stale entries of its first bucket from the oldest on,
    then those of its second bucket from the oldest on; nothing else is
    requested, and exactly these ids leave the remote. *)
Theorem sweep_deletes_stale_oldest_first (parent ka kb : Z) (w : World) :
  w_fault w (ReqList parent) = None ->
  let folders := children parent true (w_nodes w) in
  (let picked := stale ka (bucket "nightly-" folders)
                 ++ stale kb (bucket "biweekly-" folders) in
   forallb (deletable w) picked = true ->
   fst (cleanup_two_types parent ka kb w) = Ok tt /\
   issued (cleanup_two_types parent ka kb) w
   = EvList parent :: map EvDelete (ids_of picked) /\
   w_nodes (snd (cleanup_two_types parent ka kb w))
   = remove_ids (ids_of picked) (w_nodes w))
  /\
  (let picked := stale ka (bucket "monthly-" folders)
                 ++ stale kb (bucket "snapshot-" folders) in
   forallb (deletable w) picked = true ->
   fst (cleanup_storage_types parent ka kb w) = Ok tt /\
   issued (cleanup_storage_types parent ka kb) w
   = EvList parent :: map EvDelete (ids_of picked) /\
   w_nodes (snd (cleanup_storage_types parent ka kb w))
   = remove_ids (ids_of picked) (w_nodes w))
  /\
  (forall prefix keep,
     StronglySorted (fun a b => get_date a <= get_date b)
                    (stale keep (bucket prefix folders))).
Proof.
  intros Hl folders. split; [| split].
  - intros picked Hall.
    apply (sweep_all_deleted parent
             (fun fs => stale ka (bucket "nightly-" fs) ++ stale kb (bucket "biweekly-" fs)));
      [apply cleanup_two_types_unfold | exact Hl | exact Hall].
  - intros picked Hall.
    apply (sweep_all_deleted parent
             (fun fs => stale ka (bucket "monthly-" fs) ++ stale kb (bucket "snapshot-" fs)));
      [apply cleanup_storage_types_unfold | exact Hl | exact Hall].
  - intros prefix keep. apply stale_sorted.
Qed.

Lemma sweep_deletes_stale_oldest_first_witness :
  issued (cleanup_two_types DOCKER_PARENT_FOLDER_ID 1 5)
         (Sample.world SampleMore.mixed_folders [])
  = [EvList DOCKER_PARENT_FOLDER_ID; EvDelete 12; EvDelete 11].
Proof.
  apply (proj1 (sweep_deletes_stale_oldest_first DOCKER_PARENT_FOLDER_ID 1 5
                  (Sample.world SampleMore.mixed_folders []) eq_refl));
    reflexivity.
Defined.

(** X7.  A stale entry without an [id] key ends a folder sweep with
    [KeyError]: the stale entries before it have been deleted, the ones
    after it and the second bucket are not looked at. *)
Theorem sweep_stops_at_entry_without_id (parent ka kb : Z) (w : World)
    (pre post : list entry) (f : entry) :
  w_fault w (ReqList parent) = None ->
  stale ka (bucket "nightly-" (children parent true (w_nodes w))) = pre ++ f :: post ->
  forallb (deletable w) pre = true ->
  e_id f = None ->
  fst (cleanup_two_types parent ka kb w) = Raise (Exn KeyError "'id'") /\
  issued (cleanup_two_types parent ka kb) w
  = EvList parent :: map EvDelete (ids_of pre).
Proof.
  intros Hl Hsplit Hpre Hid.
  assert (Hname : e_name f <> None).
  { apply (bucket_has_name "nightly-" (children parent true (w_nodes w)) f
             "n"%char "ightly-" eq_refl).
    apply (stale_In ka). rewrite Hsplit. apply in_or_app. right. now left. }
  pose proof (two_bucket_sweep_run parent _ _ w
                (cleanup_two_types_unfold parent ka kb) Hl) as Hrun.
  cbv beta in Hrun. rewrite Hsplit, <- app_assoc in Hrun.
  destruct (delete_loop_prefix pre
              ((f :: post) ++ stale kb (bucket "biweekly-" (children parent true (w_nodes w))))
              (log (EvList parent) w) Hpre) as (w' & Hloop & Htr & _ & _).
  rewrite Hloop in Hrun. simpl app in Hrun. simpl for_each in Hrun.
  unfold bind in Hrun at 1. rewrite delete_old_run, Hid in Hrun.
  destruct (e_name f) as [nm |]; [| contradiction].
  split; [now rewrite Hrun |].
  apply issued_from_trace. rewrite Hrun. simpl. rewrite Htr. simpl.
  now rewrite <- app_assoc.
Qed.

Lemma sweep_stops_at_entry_without_id_witness :
  fst (cleanup_two_types DOCKER_PARENT_FOLDER_ID 1 5
         (Sample.world SampleMore.nightly_without_id []))
  = Raise (Exn KeyError "'id'") /\
  issued (cleanup_two_types DOCKER_PARENT_FOLDER_ID 1 5)
         (Sample.world SampleMore.nightly_without_id [])
  = [EvList DOCKER_PARENT_FOLDER_ID; EvDelete 1].
Proof.
  apply (sweep_stops_at_entry_without_id DOCKER_PARENT_FOLDER_ID 1 5
           (Sample.world SampleMore.nightly_without_id [])
           [mkEntry (Some 1) (Some "nightly-20240101") (Some 1)] []
           (mkEntry None (Some "nightly-20240102") (Some 2)));
    reflexivity.
Defined.

(** X8.  When the listing request fails, each sweep and the presence check
    end with its exception, having issued that one request: nothing is
    deleted. *)
Theorem listing_failure_ends_sweep (parent ka kb : Z) (name : string)
    (w : World) (e : exn) :
  w_fault w (ReqList parent) = Some e ->
  cleanup_two_types parent ka kb w = (Raise e, log (EvList parent) w) /\
  cleanup_storage_types parent ka kb w = (Raise e, log (EvList parent) w) /\
  cleanup_bitwarden_backups parent ka w = (Raise e, log (EvList parent) w) /\
  cloud_has_folder parent name w = (Raise e, log (EvList parent) w).
Proof.
  intros Hl.
  unfold cleanup_two_types, cleanup_storage_types, cleanup_bitwarden_backups,
    cloud_has_folder, bind.
  rewrite list_child_folders_run, Hl. repeat split.
Qed.

Lemma listing_failure_ends_sweep_witness :
  cleanup_two_types DOCKER_PARENT_FOLDER_ID 2 5 SampleMore.world_failing_list
  = (Raise (Exn Timeout "Read timed out"),
     log (EvList DOCKER_PARENT_FOLDER_ID) SampleMore.world_failing_list).
Proof.
  apply (listing_failure_ends_sweep DOCKER_PARENT_FOLDER_ID 2 5 "nightly-20240103"
           SampleMore.world_failing_list (Exn Timeout "Read timed out")).
  reflexivity.
Defined.

(** X9.  A negative keep count makes the slice [sorted[:-keep]] a slice
    from the front: the sweep picks the [-keep] oldest entries of the
    bucket, or all of them when there are fewer. *)
Theorem negative_keep_picks_oldest (keep : Z) (l : list entry) :
  keep < 0 ->
  stale keep l = firstn (Z.to_nat (- keep)) (by_date l) /\
  Z.of_nat (List.length (stale keep l)) = Z.min (- keep) (Z.of_nat (List.length l)).
Proof.
  intros Hk.
  assert (Hs : stale keep l = firstn (Z.to_nat (- keep)) (by_date l)).
  { unfold stale, Py.drop_last, Py.slice_to.
    destruct (Z.ltb_spec (- keep) 0) as [Hlt | _]; [lia |].
    destruct (Z.le_ge_cases (- keep) (Z.of_nat (List.length (by_date l)))) as [Hle | Hge].
    - now rewrite Z.min_l by assumption.
    - rewrite Z.min_r by lia. rewrite Nat2Z.id.
      rewrite !firstn_all2; [reflexivity | lia | lia]. }
  split; [exact Hs |].
  rewrite Hs, length_firstn, by_date_length. lia.
Qed.

Lemma negative_keep_picks_oldest_witness :
  map e_id (stale (-1) (map n_entry Sample.three_nightly)) = [Some 1].
Proof.
  rewrite (proj1 (negative_keep_picks_oldest (-1) (map n_entry Sample.three_nightly)
                    ltac:(lia))).
  reflexivity.
Defined.

(** X10.  The bitwarden sweep looks at the first folder under its parent
    only.  Without any folder there it ends at once, whatever files the
    parent holds.  Otherwise it sweeps all the files of that first folder,
    whatever their names: when the two listings come through and the stale
    files can be deleted, its requests are the two listings and the deletes
    of the stale files, oldest first. *)
Theorem bitwarden_sweep_scope (parent keep : Z) (w : World) :
  w_fault w (ReqList parent) = None ->
  (children parent true (w_nodes w) = [] ->
   cleanup_bitwarden_backups parent keep w = (Ok tt, log (EvList parent) w)) /\
  (forall first others fid,
     children parent true (w_nodes w) = first :: others ->
     e_id first = Some fid ->
     w_fault w (ReqList fid) = None ->
     forallb (deletable w) (stale keep (children fid false (w_nodes w))) = true ->
     fst (cleanup_bitwarden_backups parent keep w) = Ok tt /\
     issued (cleanup_bitwarden_backups parent keep) w
     = [EvList parent; EvList fid]
       ++ map EvDelete (ids_of (stale keep (children fid false (w_nodes w))))).
Proof.
  intros Hl. split.
  - intros Hnone. unfold cleanup_bitwarden_backups, bind.
    rewrite list_child_folders_run, Hl, Hnone. reflexivity.
  - intros first others fid Hch Hfid Hl2 Hall.
    assert (Hrun : cleanup_bitwarden_backups parent keep w
                   = for_each (stale keep (children fid false (w_nodes w))) delete_old
                       (log (EvList fid) (log (EvList parent) w))).
    { unfold cleanup_bitwarden_backups, bind.
      rewrite list_child_folders_run, Hl, Hch. unfold lift, getitem_id. rewrite Hfid.
      rewrite list_request_run.
      change (w_fault (log (EvList parent) w)) with (w_fault w). rewrite Hl2.
      reflexivity. }
    destruct (delete_loop_prefix (stale keep (children fid false (w_nodes w))) []
                (log (EvList fid) (log (EvList parent) w)) Hall)
      as (w' & Hloop & Htr & _ & _).
    rewrite app_nil_r in Hloop. rewrite Hrun, Hloop. split; [reflexivity |].
    apply issued_from_trace. rewrite Hrun, Hloop. simpl. rewrite Htr. simpl.
    now rewrite <- !app_assoc.
Qed.

Lemma bitwarden_sweep_scope_witness :
  issued (cleanup_bitwarden_backups BITWARDEN_PARENT_FOLDER_ID 1)
         (Sample.world Sample.bitwarden_two [])
  = [EvList BITWARDEN_PARENT_FOLDER_ID; EvList 50; EvDelete 51].
Proof.
  apply (proj2 (bitwarden_sweep_scope BITWARDEN_PARENT_FOLDER_ID 1
                  (Sample.world Sample.bitwarden_two []) eq_refl)
           (mkEntry (Some 50) (Some "bitwarden-backups") (Some 1)) [] 50);
    reflexivity.
Defined.

(** ** Footprints: how they compose *)

Section FootprintFacts.
Context {A B : Type}.

Lemma only_issues_bind (m : M A) (k : A -> M B) (P : event -> Prop) :
  only_issues m P -> (forall a, only_issues (k a) P) -> only_issues (bind m k) P.
Proof.
  intros Hm Hk w. unfold bind.
  destruct (Hm w) as (evs & Htr & Hall).
  destruct (m w) as [[a | e] w1]; simpl in Htr.
  - destruct (Hk a w1) as (evs' & Htr' & Hall').
    exists (evs ++ evs'). split; [now rewrite Htr', Htr, app_assoc |].
    apply Forall_app. now split.
  - exists evs. now split.
Qed.

Lemma only_issues_weaken (m : M A) (P Q : event -> Prop) :
  (forall ev, P ev -> Q ev) -> only_issues m P -> only_issues m Q.
Proof.
  intros HPQ Hm w. destruct (Hm w) as (evs & Htr & Hall).
  exists evs. split; [exact Htr |]. eapply Forall_impl; eassumption.
Qed.

Lemma only_issues_silent (m : M A) (P : event -> Prop) :
  (forall w, w_trace (snd (m w)) = w_trace w) -> only_issues m P.
Proof.
  intros Hm w. exists []. rewrite app_nil_r. split; [apply Hm | constructor].
Qed.

Lemma only_issues_issued (m : M A) (P : event -> Prop) (w : World) :
  only_issues m P -> Forall P (issued m w).
Proof.
  intros Hm. destruct (Hm w) as (evs & Htr & Hall).
  now rewrite (issued_from_trace m w evs Htr).
Qed.

Lemma keeps_bind (m : M A) (k : A -> M B) (I : World -> Prop) :
  keeps m I -> (forall a, keeps (k a) I) -> keeps (bind m k) I.
Proof.
  intros Hm Hk w Hw. unfold bind. specialize (Hm w Hw).
  destruct (m w) as [[a | e] w1]; simpl in Hm; [now apply Hk | exact Hm].
Qed.
End FootprintFacts.

Lemma only_issues_for_each {A} (l : list A) (body : A -> M unit) (P : event -> Prop) :
  (forall x, In x l -> only_issues (body x) P) -> only_issues (for_each l body) P.
Proof.
  induction l as [| x t IH]; intros Hb.
  - apply only_issues_silent. reflexivity.
  - simpl. apply only_issues_bind.
    + apply Hb. now left.
    + intros _. apply IH. intros y Hy. apply Hb. now right.
Qed.

Lemma keeps_for_each {A} (l : list A) (body : A -> M unit) (I : World -> Prop) :
  (forall x, In x l -> keeps (body x) I) -> keeps (for_each l body) I.
Proof.
  induction l as [| x t IH]; intros Hb.
  - intros w Hw. exact Hw.
  - simpl. apply keeps_bind.
    + apply Hb. now left.
    + intros _. apply IH. intros y Hy. apply Hb. now right.
Qed.

Lemma only_issues_call (ev : event) (req : request) (P : event -> Prop) :
  P ev -> only_issues (call ev req) P.
Proof.
  intros Hev w. exists [ev]. split; [| apply Forall_cons; [exact Hev | apply Forall_nil]].
  unfold call. simpl. destruct (w_fault w req); reflexivity.
Qed.

Lemma only_issues_list_child_folders parent (P : event -> Prop) :
  P (EvList parent) -> only_issues (list_child_folders parent) P.
Proof.
  intros Hev w. exists [EvList parent].
  split; [| apply Forall_cons; [exact Hev | apply Forall_nil]].
  rewrite list_child_folders_run. destruct (w_fault w (ReqList parent)); reflexivity.
Qed.

Lemma only_issues_list_request parent (P : event -> Prop) :
  P (EvList parent) -> only_issues (list_request parent) P.
Proof.
  intros Hev w. exists [EvList parent].
  split; [| apply Forall_cons; [exact Hev | apply Forall_nil]].
  rewrite list_request_run. destruct (w_fault w (ReqList parent)); reflexivity.
Qed.

Lemma only_issues_delete_old f (P : event -> Prop) :
  (forall i, e_id f = Some i -> P (EvDelete i)) -> only_issues (delete_old f) P.
Proof.
  intros Hev w. rewrite delete_old_run.
  destruct (e_name f); [destruct (e_id f) as [i |] |].
  - exists [EvDelete i].
    split; [| apply Forall_cons; [now apply Hev | apply Forall_nil]].
    destruct (w_fault w (ReqDelete i)); reflexivity.
  - exists []. rewrite app_nil_r. split; [reflexivity | constructor].
  - exists []. rewrite app_nil_r. split; [reflexivity | constructor].
Qed.

Lemma keeps_list_child_folders parent (I : World -> Prop) :
  (forall ev w, I w -> I (log ev w)) -> keeps (list_child_folders parent) I.
Proof.
  intros Hlog w Hw. rewrite list_child_folders_run.
  destruct (w_fault w (ReqList parent)); now apply Hlog.
Qed.

(** ** What an upload touches *)

Lemma children_app parent kind ns ms :
  children parent kind (ns ++ ms) = children parent kind ns ++ children parent kind ms.
Proof. unfold children. now rewrite filter_app, map_app. Qed.

Lemma children_folders_of_files parent ns :
  Forall (fun n => n_is_folder n = false) ns -> children parent true ns = [].
Proof.
  unfold children. induction 1 as [| n t Hn _ IH]; [reflexivity |].
  simpl. rewrite Hn. simpl. rewrite andb_false_r. exact IH.
Qed.

Section UploadFootprint.
Variables (folder : Z) (path name : string).

Lemma service_upload_nodes a w :
  exists added,
    w_nodes (snd (service_upload folder name a w)) = w_nodes w ++ added /\
    Forall (fun n => n_parent n = folder /\ n_is_folder n = false /\
                     e_name (n_entry n) = Some name) added.
Proof.
  unfold service_upload. simpl.
  destruct (w_uploads w) as [| [e | resp] tl]; simpl;
    try (exists []; rewrite app_nil_r; split; [reflexivity | constructor]).
  - eexists. split; [reflexivity |].
    apply Forall_cons; [repeat split | apply Forall_nil].
  - destruct (resp_error resp); simpl.
    + exists []. rewrite app_nil_r. split; [reflexivity | constructor].
    + eexists. split; [reflexivity |].
      apply Forall_cons; [repeat split | apply Forall_nil].
Qed.

(** The loop of [upload_file] issues upload requests for its folder and
    file, numbered among its attempts, and pauses; it adds files of that
    name under that folder and changes nothing else of the remote tree. *)
Lemma upload_attempts_footprint attempts : forall last r w,
  exists evs added,
    w_trace (snd (upload_attempts folder path name attempts last r w))
      = w_trace w ++ evs /\
    Forall (fun ev => ev = EvSleep RETRY_DELAY \/
                      exists a, ev = EvUpload folder name a /\ In a attempts) evs /\
    w_nodes (snd (upload_attempts folder path name attempts last r w))
      = w_nodes w ++ added /\
    Forall (fun n => n_parent n = folder /\ n_is_folder n = false /\
                     e_name (n_entry n) = Some name) added.
Proof.
  induction attempts as [| a rest IH]; intros last r w.
  - exists [], []. simpl. rewrite !app_nil_r. repeat split; constructor.
  - rewrite upload_attempts_cons. cbv zeta.
    destruct (service_upload_nodes a w) as (added1 & Hn1 & Ha1).
    assert (Hone : exists evs added,
              w_trace (snd (service_upload folder name a w)) = w_trace w ++ evs /\
              Forall (fun ev => ev = EvSleep RETRY_DELAY \/
                                exists a', ev = EvUpload folder name a' /\
                                           In a' (a :: rest)) evs /\
              w_nodes (snd (service_upload folder name a w)) = w_nodes w ++ added /\
              Forall (fun n => n_parent n = folder /\ n_is_folder n = false /\
                               e_name (n_entry n) = Some name) added).
    { exists [EvUpload folder name a], added1.
      split; [apply service_upload_trace |].
      split.
      { apply Forall_cons; [| apply Forall_nil].
        right. exists a. split; [reflexivity | now left]. }
      split; assumption. }
    destruct (attempt_result (next_outcome w)) as [ack | e]; [exact Hone |].
    destruct (is_transport e); [| destruct (is_http_error e); exact Hone].
    destruct (IH (Some e)
                 (match next_outcome w with
                  | HttpResp resp => Some resp
                  | HttpRaise _ => r
                  end)
                 (log (EvSleep RETRY_DELAY) (snd (service_upload folder name a w))))
      as (evs & added2 & Htr & Hevs & Hn2 & Ha2).
    exists (EvUpload folder name a :: EvSleep RETRY_DELAY :: evs), (added1 ++ added2).
    split.
    { rewrite Htr. simpl. rewrite service_upload_trace, <- !app_assoc. reflexivity. }
    split.
    { apply Forall_cons; [right; exists a; split; [reflexivity | now left] |].
      apply Forall_cons; [now left |].
      eapply Forall_impl; [| exact Hevs].
      intros ev [-> | (a' & -> & Hin)]; [now left |].
      right. exists a'. split; [reflexivity | now right]. }
    split.
    { rewrite Hn2. simpl. rewrite Hn1, app_assoc. reflexivity. }
    apply Forall_app. now split.
Qed.

End UploadFootprint.

(** X11.  [upload_file] asks the service for nothing but uploads of its
    file into its folder, numbered 1 to 3, and pauses of [RETRY_DELAY]
    seconds; on the remote it adds files of that name under that folder and
    removes or renames nothing. *)
Theorem upload_file_footprint (folder : Z) (dir name : string) (w : World) :
  Forall (fun ev => ev = EvSleep RETRY_DELAY \/
                    exists a, ev = EvUpload folder name a /\ (1 <= a <= 3)%nat)
         (issued (upload_file folder dir name) w) /\
  exists added,
    w_nodes (snd (upload_file folder dir name w)) = w_nodes w ++ added /\
    Forall (fun n => n_parent n = folder /\ n_is_folder n = false /\
                     e_name (n_entry n) = Some name) added.
Proof.
  unfold upload_file.
  destruct (upload_attempts_footprint folder (dir ++ "/" ++ name)%string name
              (seq 1 MAX_UPLOAD_RETRIES) None None w)
    as (evs & added & Htr & Hevs & Hn & Ha).
  split.
  - rewrite (issued_from_trace _ w evs Htr).
    eapply Forall_impl; [| exact Hevs].
    intros ev [-> | (a & -> & Hin)]; [now left |].
    right. exists a. split; [reflexivity |].
    apply in_seq in Hin. unfold MAX_UPLOAD_RETRIES in Hin. lia.
  - exists added. now split.
Qed.

(** X12.  The first attempt that does not meet a transport failure ends
    [upload_file], on whichever of the three attempts it comes.  An
    acknowledged upload gives the acknowledgement.  An HTTP error gives a
    [RuntimeError] with the start of the body, or with [<no body>] when no
    response is at hand or its text cannot be read.  Any other exception
    (an answer that is not JSON, for one) leaves [upload_file] as it is,
    without a retry. *)
Theorem upload_file_ends_on_first_other_outcome (folder : Z) (dir name : string)
    (w : World) (before : list exn) (hr : http_result) (rest : list http_result) :
  w_uploads w = map HttpRaise before ++ hr :: rest ->
  forallb is_transport before = true ->
  (List.length before < MAX_UPLOAD_RETRIES)%nat ->
  retryable hr = false ->
  fst (upload_file folder dir name w)
  = match attempt_result hr with
    | Ok ack => Ok ack
    | Raise e =>
        if is_http_error e then
          Raise (Exn RuntimeError
                   ("HTTP error during upload: " ++ exn_str e ++ ". Body: "
                    ++ match hr with
                       | HttpResp resp =>
                           match resp_text resp with
                           | Some t => Py.str_prefix 1000 t
                           | None => "<no body>"
                           end
                       | HttpRaise _ => "<no body>"
                       end)%string)
        else Raise e
    end /\
  issued (upload_file folder dir name) w
  = flat_map (fun a => [EvUpload folder name a; EvSleep RETRY_DELAY])
             (seq 1 (List.length before))
    ++ [EvUpload folder name (S (List.length before))] /\
  w_uploads (snd (upload_file folder dir name w)) = rest.
Proof.
  intros Hplan Htr Hlen Hstop.
  destruct (upload_attempts_after_failures folder (dir ++ "/" ++ name)%string name
              before 1%nat MAX_UPLOAD_RETRIES None None w (hr :: rest)
              Hplan Htr ltac:(lia))
    as (w' & Hrun & Hrest & Htrace).
  unfold issued, upload_file. rewrite Hrun.
  destruct (MAX_UPLOAD_RETRIES - List.length before)%nat as [| k] eqn:Hk; [lia |].
  simpl seq. rewrite upload_attempts_cons. cbv zeta.
  rewrite next_outcome_nth, Hrest. simpl nth.
  unfold retryable in Hstop.
  assert (Hshape : forall (res : result json) (x : result json * World),
            fst x = res -> snd x = snd (service_upload folder name
                                          (1 + List.length before) w') ->
            fst x = res /\
            skipn (List.length (w_trace w)) (w_trace (snd x))
            = flat_map (fun a => [EvUpload folder name a; EvSleep RETRY_DELAY])
                       (seq 1 (List.length before))
              ++ [EvUpload folder name (S (List.length before))] /\
            w_uploads (snd x) = rest).
  { intros res x Hf Hs. split; [exact Hf |]. rewrite Hs.
    rewrite service_upload_trace, service_upload_plan, Hrest, Htrace.
    split; [rewrite <- app_assoc; apply skipn_length_app | reflexivity]. }
  destruct (attempt_result hr) as [ack | e] eqn:Hres.
  - now apply Hshape.
  - rewrite Hstop. destruct (is_http_error e).
    + apply Hshape; [| reflexivity]. simpl. unfold body_text.
      destruct hr as [e' | resp]; reflexivity.
    + now apply Hshape.
Qed.

Lemma upload_file_ends_on_first_other_outcome_witness :
  fst (upload_file 7 "/backups/bitwarden" "export.json"
         (Sample.world [] [HttpRaise Sample.timed_out; HttpResp SampleMore.not_json]))
  = Raise (Exn JSONDecodeError "Expecting value: line 1 column 1 (char 0)").
Proof.
  apply (upload_file_ends_on_first_other_outcome 7 "/backups/bitwarden" "export.json"
           (Sample.world [] [HttpRaise Sample.timed_out; HttpResp SampleMore.not_json])
           [Sample.timed_out] (HttpResp SampleMore.not_json) []);
    [reflexivity | reflexivity | unfold MAX_UPLOAD_RETRIES; simpl; lia | reflexivity].
Defined.

(** ** The order of the parts of a set *)

Lemma string_leb_trans (a b c : string) :
  String.leb a b = true -> String.leb b c = true -> String.leb a c = true.
Proof.
  unfold String.leb. revert b c.
  induction a as [| x a IH]; intros [| y b] [| z c]; simpl;
    try (intros; reflexivity); try (intros; discriminate).
  unfold Ascii.compare.
  destruct (N.compare_spec (N_of_ascii x) (N_of_ascii y));
    destruct (N.compare_spec (N_of_ascii y) (N_of_ascii z));
    destruct (N.compare_spec (N_of_ascii x) (N_of_ascii z));
    try lia; try (intros; reflexivity); try (intros; discriminate).
  apply IH.
Qed.

Section SortedWithFacts.
Context {A : Type} (le : A -> A -> bool).
Hypothesis le_total : forall x y, le x y = true \/ le y x = true.
Hypothesis le_trans : forall x y z, le x y = true -> le y z = true -> le x z = true.

Lemma insert_sorted_with_perm x l : Permutation (Py.insert_sorted le x l) (x :: l).
Proof.
  induction l as [| y t IH]; simpl.
  - apply Permutation_refl.
  - destruct (le x y).
    + apply Permutation_refl.
    + eapply perm_trans; [apply perm_skip, IH | apply perm_swap].
Qed.

Lemma sorted_with_perm l : Permutation (Py.sorted_with le l) l.
Proof.
  unfold Py.sorted_with. induction l as [| x t IH]; simpl.
  - apply perm_nil.
  - eapply perm_trans; [apply insert_sorted_with_perm | apply perm_skip, IH].
Qed.

Lemma insert_sorted_with_sorted x l :
  StronglySorted (fun a b => le a b = true) l ->
  StronglySorted (fun a b => le a b = true) (Py.insert_sorted le x l).
Proof.
  induction 1 as [| y t Hs IH Hall]; simpl.
  - constructor; constructor.
  - destruct (le x y) eqn:Hxy.
    + constructor; [constructor; assumption |].
      constructor; [exact Hxy |].
      eapply Forall_impl; [| exact Hall].
      intros z Hz. simpl in *. now apply (le_trans x y z).
    + constructor; [exact IH |].
      eapply Permutation_Forall; [apply Permutation_sym, insert_sorted_with_perm |].
      constructor; [| exact Hall].
      destruct (le_total x y) as [Habs | Hyx]; [congruence | exact Hyx].
Qed.

Lemma sorted_with_sorted l :
  StronglySorted (fun a b => le a b = true) (Py.sorted_with le l).
Proof.
  unfold Py.sorted_with. induction l as [| x t IH]; simpl.
  - constructor.
  - apply insert_sorted_with_sorted, IH.
Qed.
End SortedWithFacts.

Lemma strongly_sorted_filter {A} (R : A -> A -> Prop) (g : A -> bool) (l : list A) :
  StronglySorted R l -> StronglySorted R (filter g l).
Proof.
  induction 1 as [| x t Hs IH Hall]; simpl; [constructor |].
  destruct (g x); [| exact IH].
  constructor; [exact IH |].
  rewrite Forall_forall in *. intros y Hy. apply filter_In in Hy. now apply Hall.
Qed.

Lemma strongly_sorted_map {A B} (f : A -> B) (R : B -> B -> Prop) (l : list A) :
  StronglySorted (fun a b => R (f a) (f b)) l -> StronglySorted R (map f l).
Proof.
  induction 1 as [| x t Hs IH Hall]; simpl; constructor; [exact IH |].
  rewrite Forall_forall in *. intros y Hy.
  apply in_map_iff in Hy. destruct Hy as (z & <- & Hz). now apply Hall.
Qed.

Lemma sorted_paths_perm (l : list fsnode) : Permutation (sorted_paths l) l.
Proof. apply sorted_with_perm. Qed.

Lemma file_names_In (entries : list fsnode) (n : string) :
  In n (file_names entries) <-> In (FsFile n) entries.
Proof.
  unfold file_names. rewrite in_map_iff. split.
  - intros (f & Hn & Hf). apply filter_In in Hf. destruct Hf as (Hin & Hfile).
    destruct f as [m | m t c]; [| discriminate]. simpl in Hn. subst m.
    eapply Permutation_in; [apply sorted_paths_perm | exact Hin].
  - intros Hin. exists (FsFile n). split; [reflexivity |].
    apply filter_In. split; [| reflexivity].
    eapply Permutation_in; [apply Permutation_sym, sorted_paths_perm | exact Hin].
Qed.

Lemma file_names_sorted (entries : list fsnode) :
  StronglySorted (fun a b => String.leb a b = true) (file_names entries).
Proof.
  unfold file_names, sorted_paths.
  apply strongly_sorted_map, strongly_sorted_filter.
  apply (sorted_with_sorted (fun a b => String.leb (fs_name a) (fs_name b))).
  - intros x y. apply String.leb_total.
  - intros x y z. apply string_leb_trans.
Qed.

(** An upload that is acknowledged at once. *)
Lemma upload_file_acked folder dir name w hr ack :
  next_outcome w = hr -> attempt_result hr = Ok ack ->
  fst (upload_file folder dir name w) = Ok ack /\
  w_trace (snd (upload_file folder dir name w))
  = w_trace w ++ [EvUpload folder name 1] /\
  w_uploads (snd (upload_file folder dir name w)) = tl (w_uploads w).
Proof.
  intros Hn Hres. unfold upload_file. simpl seq.
  rewrite upload_attempts_cons. cbv zeta. rewrite Hn, Hres. simpl.
  split; [reflexivity |].
  split; [apply service_upload_trace | apply service_upload_plan].
Qed.

Lemma acked_next_outcome w :
  Forall (fun hr => exists ack, attempt_result hr = Ok ack) (w_uploads w) ->
  exists ack, attempt_result (next_outcome w) = Ok ack.
Proof.
  unfold next_outcome. intros Hall.
  destruct (w_uploads w) as [| hr tl]; [now exists (JDict []) |].
  now inversion Hall.
Qed.

Lemma acked_tl (plan : list http_result) :
  Forall (fun hr => exists ack, attempt_result hr = Ok ack) plan ->
  Forall (fun hr => exists ack, attempt_result hr = Ok ack) (tl plan).
Proof. intros Hall. destruct plan; [constructor | now inversion Hall]. Qed.

Lemma upload_loop_all_acked cloud_folder_id dir (l : list fsnode) : forall w,
  Forall (fun hr => exists ack, attempt_result hr = Ok ack) (w_uploads w) ->
  exists w',
    for_each_if l is_file
      (fun part => _ <- upload_file cloud_folder_id dir (fs_name part) ;; ret tt) w
    = (Ok tt, w') /\
    w_trace w'
    = w_trace w ++ map (fun n => EvUpload cloud_folder_id n 1)
                       (map fs_name (filter is_file l)) /\
    Forall (fun hr => exists ack, attempt_result hr = Ok ack) (w_uploads w').
Proof.
  unfold for_each_if.
  induction l as [| f t IH]; intros w Hall.
  - exists w. simpl. rewrite app_nil_r. repeat split. exact Hall.
  - simpl for_each. unfold bind at 1.
    destruct (is_file f) eqn:Hfile.
    + destruct (acked_next_outcome w Hall) as (ack & Hack).
      destruct (upload_file_acked cloud_folder_id dir (fs_name f) w (next_outcome w) ack
                  eq_refl Hack)
        as (Hres & Htr & Hplan).
      unfold bind at 1.
      destruct (upload_file cloud_folder_id dir (fs_name f) w) as [r w1].
      simpl in Hres, Htr, Hplan. subst r. unfold ret at 1.
      destruct (IH w1) as (w' & Hrun & Htr' & Hall').
      { rewrite Hplan. now apply acked_tl. }
      exists w'. split; [exact Hrun |]. split; [| exact Hall'].
      rewrite Htr', Htr. simpl. rewrite Hfile. simpl. now rewrite <- app_assoc.
    + unfold ret at 1. destruct (IH w Hall) as (w' & Hrun & Htr' & Hall').
      exists w'. split; [exact Hrun |]. split; [| exact Hall'].
      rewrite Htr'. simpl. now rewrite Hfile.
Qed.

(** X13.  When every upload is acknowledged at its first attempt,
    [upload_parts] uploads each file of the set once, in ascending order of
    the names, and nothing else: the directories of the set are skipped. *)
Theorem upload_parts_in_name_order (cloud_folder_id : Z) (dir : string)
    (entries : list fsnode) (w : World) :
  Forall (fun hr => exists ack, attempt_result hr = Ok ack) (w_uploads w) ->
  fst (upload_parts cloud_folder_id dir entries w) = Ok tt /\
  issued (upload_parts cloud_folder_id dir entries) w
  = map (fun n => EvUpload cloud_folder_id n 1) (file_names entries) /\
  (forall n, In n (file_names entries) <-> In (FsFile n) entries) /\
  StronglySorted (fun a b => String.leb a b = true) (file_names entries).
Proof.
  intros Hall.
  destruct (upload_loop_all_acked cloud_folder_id dir (sorted_paths entries) w Hall)
    as (w' & Hrun & Htr & _).
  unfold upload_parts.
  split; [now rewrite Hrun |].
  split; [apply issued_from_trace; rewrite Hrun; exact Htr |].
  split; [apply file_names_In | apply file_names_sorted].
Qed.

Lemma upload_parts_in_name_order_witness :
  issued (upload_parts 100 "/backups/docker-tar/nightly-20240103"
            [FsFile "db.tar"; FsDir "tmp" 3 [FsFile "x"]; FsFile "app.tar"])
         (Sample.world [] [HttpResp Sample.acked])
  = [EvUpload 100 "app.tar" 1; EvUpload 100 "db.tar" 1].
Proof.
  apply (upload_parts_in_name_order 100 "/backups/docker-tar/nightly-20240103"
           [FsFile "db.tar"; FsDir "tmp" 3 [FsFile "x"]; FsFile "app.tar"]
           (Sample.world [] [HttpResp Sample.acked])).
  apply Forall_cons; [| apply Forall_nil].
  exists (JDict [("success", JBool true)]). reflexivity.
Defined.

(** ** The presence check *)

(** X14.  When the listing comes through, [cloud_has_folder] issues that one
    request, leaves the remote as it is, and answers true exactly when a
    folder under the parent has the very name asked for.  Files under the
    parent and entries without a name never count. *)
Theorem cloud_has_folder_exact_folder_name (parent : Z) (name : string) (w : World) :
  w_fault w (ReqList parent) = None ->
  exists b,
    cloud_has_folder parent name w = (Ok b, log (EvList parent) w) /\
    (b = true <->
     exists f, In f (children parent true (w_nodes w)) /\ e_name f = Some name).
Proof.
  intros Hl. rewrite cloud_has_folder_run, Hl.
  eexists. split; [reflexivity |].
  rewrite existsb_exists. split.
  - intros (f & Hin & Hn). exists f. split; [exact Hin |].
    destruct (e_name f) as [n |]; [| discriminate].
    apply String.eqb_eq in Hn. now subst n.
  - intros (f & Hin & Hn). exists f. split; [exact Hin |].
    rewrite Hn. apply String.eqb_refl.
Qed.

Lemma cloud_has_folder_exact_folder_name_witness :
  exists b,
    cloud_has_folder 50 "export-2024-01-01.json" (Sample.world Sample.bitwarden_nodes [])
    = (Ok b, log (EvList 50) (Sample.world Sample.bitwarden_nodes [])) /\
    (b = true <->
     exists f, In f (children 50 true (w_nodes (Sample.world Sample.bitwarden_nodes [])))
               /\ e_name f = Some "export-2024-01-01.json").
Proof.
  apply (cloud_has_folder_exact_folder_name 50 "export-2024-01-01.json"
           (Sample.world Sample.bitwarden_nodes [])).
  reflexivity.
Defined.

(** ** Footprints of the script's calls *)

Lemma only_issues_cloud_has_folder parent name (P : event -> Prop) :
  P (EvList parent) -> only_issues (cloud_has_folder parent name) P.
Proof.
  intros Hev w. exists [EvList parent].
  split; [| apply Forall_cons; [exact Hev | apply Forall_nil]].
  rewrite cloud_has_folder_run. destruct (w_fault w (ReqList parent)); reflexivity.
Qed.

Lemma only_issues_upload_file folder dir name (P : event -> Prop) :
  P (EvSleep RETRY_DELAY) -> (forall a, P (EvUpload folder name a)) ->
  only_issues (upload_file folder dir name) P.
Proof.
  intros Hs Hu w. unfold upload_file.
  destruct (upload_attempts_footprint folder (dir ++ "/" ++ name)%string name
              (seq 1 MAX_UPLOAD_RETRIES) None None w)
    as (evs & added & Htr & Hevs & _ & _).
  exists evs. split; [exact Htr |].
  eapply Forall_impl; [| exact Hevs].
  intros ev [-> | (a & -> & _)]; [exact Hs | apply Hu].
Qed.

Lemma only_issues_cleanup_bitwarden parent keep (P : event -> Prop) :
  (forall p, P (EvList p)) -> (forall i, P (EvDelete i)) ->
  only_issues (cleanup_bitwarden_backups parent keep) P.
Proof.
  intros Hl Hd. unfold cleanup_bitwarden_backups.
  apply only_issues_bind; [now apply only_issues_list_child_folders |].
  intros [| first others]; [apply only_issues_silent; reflexivity |].
  apply only_issues_bind; [apply only_issues_silent; reflexivity |].
  intros fid. apply only_issues_bind; [now apply only_issues_list_request |].
  intros l. apply only_issues_for_each. intros f _.
  apply only_issues_delete_old. intros i _. apply Hd.
Qed.

Lemma keeps_cloud_has_folder parent name (I : World -> Prop) :
  (forall ev w, I w -> I (log ev w)) -> keeps (cloud_has_folder parent name) I.
Proof.
  intros Hlog w Hw. rewrite cloud_has_folder_run.
  destruct (w_fault w (ReqList parent)); now apply Hlog.
Qed.

Lemma keeps_upload_file_folders folder dir name parent (L : list entry) :
  keeps (upload_file folder dir name)
        (fun w => children parent true (w_nodes w) = L).
Proof.
  intros w Hw. unfold upload_file.
  destruct (upload_attempts_footprint folder (dir ++ "/" ++ name)%string name
              (seq 1 MAX_UPLOAD_RETRIES) None None w)
    as (evs & added & _ & _ & Hn & Ha).
  rewrite Hn, children_app, Hw, children_folders_of_files, app_nil_r; [reflexivity |].
  eapply Forall_impl; [| exact Ha]. intros n (_ & Hf & _). exact Hf.
Qed.

Lemma issued_after_list {B} parent (k : list entry -> M B) (w : World)
    (P : event -> Prop) :
  P (EvList parent) ->
  (w_fault w (ReqList parent) = None ->
   exists evs,
     w_trace (snd (k (children parent true (w_nodes w)) (log (EvList parent) w)))
     = w_trace (log (EvList parent) w) ++ evs /\ Forall P evs) ->
  Forall P (issued (bind (list_child_folders parent) k) w).
Proof.
  intros Hev Hk. unfold issued, bind. rewrite list_child_folders_run.
  destruct (w_fault w (ReqList parent)) as [e |].
  - simpl. rewrite skipn_length_app. apply Forall_cons; [exact Hev | apply Forall_nil].
  - destruct (Hk eq_refl) as (evs & Htr & Hall).
    rewrite Htr. simpl. rewrite <- app_assoc, skipn_length_app.
    apply Forall_cons; assumption.
Qed.

Lemma children_single parent kind (n : node) :
  children parent kind [n]
  = if (n_parent n =? parent) && Bool.eqb (n_is_folder n) kind
    then [n_entry n] else [].
Proof.
  unfold children. simpl.
  destruct ((n_parent n =? parent) && Bool.eqb (n_is_folder n) kind); reflexivity.
Qed.

Section BitwardenFlow.
Context `{PyRuntime}.

Lemma only_issues_create folder_name parent_id (P : event -> Prop) :
  P (EvCreate folder_name parent_id) ->
  only_issues (create_cloud_folder folder_name parent_id) P.
Proof.
  intros Hev w. exists [EvCreate folder_name parent_id].
  split; [| apply Forall_cons; [exact Hev | apply Forall_nil]].
  destruct (w_fault w (ReqCreate folder_name parent_id)) as [e |] eqn:Hf.
  - now rewrite (create_cloud_folder_fault _ _ w e Hf).
  - now rewrite (create_cloud_folder_run _ _ w Hf).
Qed.

(** The loop of [upload_bitwarden_backups] over the local files. *)
Lemma bitwarden_loop_footprint cloud_folder_id (root : list fsnode) (P : event -> Prop) :
  (forall p, P (EvList p)) -> P (EvSleep RETRY_DELAY) ->
  (forall n a, In (FsFile n) root -> suffix_is_json n = true ->
               P (EvUpload cloud_folder_id n a)) ->
  only_issues
    (for_each_if (sorted_paths root)
       (fun f => is_file f && suffix_is_json (fs_name f))
       (fun f =>
          present <- cloud_has_folder cloud_folder_id (fs_name f) ;;
          if present then ret tt
          else _ <- upload_file cloud_folder_id LOCAL_BITWARDEN_ROOT (fs_name f) ;; ret tt))
    P.
Proof.
  intros Hl Hs Hu. unfold for_each_if. apply only_issues_for_each.
  intros f Hf.
  destruct (is_file f && suffix_is_json (fs_name f)) eqn:Hc;
    [| apply only_issues_silent; reflexivity].
  apply andb_prop in Hc. destruct Hc as (Hfile & Hjson).
  destruct f as [n | n m c]; [| discriminate]. simpl in *.
  apply only_issues_bind; [now apply only_issues_cloud_has_folder |].
  intros [|]; [apply only_issues_silent; reflexivity |].
  apply only_issues_bind; [| intros _; apply only_issues_silent; reflexivity].
  apply only_issues_upload_file; [exact Hs |].
  intros a. apply Hu; [| exact Hjson].
  eapply Permutation_in; [apply sorted_paths_perm | exact Hf].
Qed.

Lemma bitwarden_loop_keeps_folders cloud_folder_id (root : list fsnode) parent
    (L : list entry) :
  keeps
    (for_each_if (sorted_paths root)
       (fun f => is_file f && suffix_is_json (fs_name f))
       (fun f =>
          present <- cloud_has_folder cloud_folder_id (fs_name f) ;;
          if present then ret tt
          else _ <- upload_file cloud_folder_id LOCAL_BITWARDEN_ROOT (fs_name f) ;; ret tt))
    (fun w => children parent true (w_nodes w) = L).
Proof.
  unfold for_each_if. apply keeps_for_each. intros f _.
  destruct (is_file f && suffix_is_json (fs_name f)); [| intros w Hw; exact Hw].
  apply keeps_bind; [apply keeps_cloud_has_folder; intros ev w Hw; exact Hw |].
  intros [|]; [intros w Hw; exact Hw |].
  apply keeps_bind; [apply keeps_upload_file_folders | intros _ w Hw; exact Hw].
Qed.

(** X15.  Whatever the remote holds and however the service answers,
    [upload_bitwarden_backups] uploads nothing but files of the local root
    whose suffix is [.json], creates no folder but [bitwarden-backups] under
    the bitwarden parent, and that only when the parent lists no folder; it
    never logs in again. *)
Theorem bitwarden_uploads_only_json_exports (fs : LocalFS) (root : list fsnode)
    (w : World) :
  fs_bitwarden fs = Some root ->
  Forall (fun ev =>
            match ev with
            | EvUpload _ n _ => In (FsFile n) root /\ suffix_is_json n = true
            | EvCreate n p =>
                n = "bitwarden-backups" /\ p = BITWARDEN_PARENT_FOLDER_ID /\
                children BITWARDEN_PARENT_FOLDER_ID true (w_nodes w) = []
            | EvLogin => False
            | _ => True
            end)
         (issued (upload_bitwarden_backups fs) w).
Proof.
  intros Hroot. unfold upload_bitwarden_backups. rewrite Hroot.
  set (P := fun ev : event =>
              match ev with
              | EvUpload _ n _ => In (FsFile n) root /\ suffix_is_json n = true
              | EvCreate n p =>
                  n = "bitwarden-backups" /\ p = BITWARDEN_PARENT_FOLDER_ID /\
                  children BITWARDEN_PARENT_FOLDER_ID true (w_nodes w) = []
              | EvLogin => False
              | _ => True
              end).
  apply issued_after_list; [exact I |].
  intros _.
  assert (Htail : forall fid,
            only_issues
              (for_each_if (sorted_paths root)
                 (fun f => is_file f && suffix_is_json (fs_name f))
                 (fun f =>
                    present <- cloud_has_folder fid (fs_name f) ;;
                    if present then ret tt
                    else _ <- upload_file fid LOCAL_BITWARDEN_ROOT (fs_name f) ;; ret tt) ;;
               cleanup_bitwarden_backups fid KEEP_BITWARDEN) P).
  { intros fid. apply only_issues_bind.
    - apply bitwarden_loop_footprint; [intros p; exact I | exact I |].
      intros n a Hin Hj. split; assumption.
    - intros _. apply only_issues_cleanup_bitwarden; intros; exact I. }
  apply only_issues_bind; [| exact Htail].
  destruct (children BITWARDEN_PARENT_FOLDER_ID true (w_nodes w)) as [| first others] eqn:Hch.
  - apply only_issues_create. repeat split.
  - apply only_issues_silent. reflexivity.
Qed.

(** What follows the choice of the upload folder [fid], from a world where
    [fid] holds no folder: nothing is deleted. *)
Lemma bitwarden_tail_never_deletes fid (root : list fsnode) (w1 : World) :
  children fid true (w_nodes w1) = [] ->
  exists evs,
    w_trace
      (snd ((for_each_if (sorted_paths root)
               (fun f => is_file f && suffix_is_json (fs_name f))
               (fun f =>
                  present <- cloud_has_folder fid (fs_name f) ;;
                  if present then ret tt
                  else _ <- upload_file fid LOCAL_BITWARDEN_ROOT (fs_name f) ;; ret tt) ;;
             cleanup_bitwarden_backups fid KEEP_BITWARDEN) w1))
    = w_trace w1 ++ evs /\
    Forall (fun ev => is_delete ev = false) evs.
Proof.
  intros Hnone.
  pose proof (bitwarden_loop_footprint fid root (fun ev => is_delete ev = false)
                (fun _ => eq_refl) eq_refl (fun _ _ _ _ => eq_refl) w1)
    as (evs & Htr & Hall).
  pose proof (bitwarden_loop_keeps_folders fid root fid [] w1 Hnone) as Hkeep.
  unfold bind at 1.
  destruct (for_each_if (sorted_paths root) _ _ w1) as [[[] | e] w2];
    simpl in Htr, Hkeep.
  - unfold cleanup_bitwarden_backups, bind. rewrite list_child_folders_run.
    exists (evs ++ [EvList fid]).
    split; [| apply Forall_app; split;
              [exact Hall | apply Forall_cons; [reflexivity | apply Forall_nil]]].
    destruct (w_fault w2 (ReqList fid)).
    + simpl. now rewrite Htr, app_assoc.
    + rewrite Hkeep. simpl. now rewrite Htr, app_assoc.
  - exists evs. split; assumption.
Qed.

(** X16.  When the folder that [upload_bitwarden_backups] takes as its
    upload target holds no sub-folder, the run requests no deletion,
    however many exports that folder holds: the sweep is handed the target
    folder as the parent to list, finds no folder under it and ends. *)
Theorem bitwarden_run_never_deletes (fs : LocalFS) (root : list fsnode) (w : World) :
  fs_bitwarden fs = Some root ->
  (forall first others fid,
     children BITWARDEN_PARENT_FOLDER_ID true (w_nodes w) = first :: others ->
     e_id first = Some fid ->
     children fid true (w_nodes w) = []) ->
  (children BITWARDEN_PARENT_FOLDER_ID true (w_nodes w) = [] ->
   forall fid,
     folder_id_of_response (w_create_reply w (w_fresh w)) = Ok fid ->
     fid <> BITWARDEN_PARENT_FOLDER_ID /\ children fid true (w_nodes w) = []) ->
  Forall (fun ev => is_delete ev = false) (issued (upload_bitwarden_backups fs) w).
Proof.
  intros Hroot Hexisting Hcreated.
  unfold upload_bitwarden_backups. rewrite Hroot.
  apply issued_after_list; [reflexivity |].
  intros _. set (w0 := log (EvList BITWARDEN_PARENT_FOLDER_ID) w).
  destruct (children BITWARDEN_PARENT_FOLDER_ID true (w_nodes w)) as [| first others] eqn:Hch.
  - (* the folder is created *)
    unfold bind at 1.
    destruct (w_fault w0 (ReqCreate "bitwarden-backups" BITWARDEN_PARENT_FOLDER_ID))
      as [e |] eqn:Hf.
    + rewrite (create_cloud_folder_fault _ _ w0 e Hf).
      exists [EvCreate "bitwarden-backups" BITWARDEN_PARENT_FOLDER_ID].
      split; [reflexivity | apply Forall_cons; [reflexivity | apply Forall_nil]].
    + rewrite (create_cloud_folder_run _ _ w0 Hf).
      change (w_create_reply w0 (w_fresh w0)) with (w_create_reply w (w_fresh w)).
      destruct (folder_id_of_response (w_create_reply w (w_fresh w))) as [fid | e] eqn:Hid.
      * destruct (Hcreated eq_refl fid eq_refl) as (Hne & Hnone).
        set (w1 := add_node BITWARDEN_PARENT_FOLDER_ID true "bitwarden-backups"
                     (log (EvCreate "bitwarden-backups" BITWARDEN_PARENT_FOLDER_ID) w0)).
        destruct (bitwarden_tail_never_deletes fid root w1) as (evs & Htr & Hall).
        { subst w1 w0. unfold add_node, log. cbn [w_nodes].
          rewrite children_app, Hnone, children_single.
          cbn [n_parent n_is_folder n_entry].
          destruct (Z.eqb_spec BITWARDEN_PARENT_FOLDER_ID fid) as [Heq | _];
            [congruence | reflexivity]. }
        exists (EvCreate "bitwarden-backups" BITWARDEN_PARENT_FOLDER_ID :: evs).
        split; [| apply Forall_cons; [reflexivity | exact Hall]].
        rewrite Htr. subst w1. simpl. now rewrite <- app_assoc.
      * exists [EvCreate "bitwarden-backups" BITWARDEN_PARENT_FOLDER_ID].
        split; [reflexivity | apply Forall_cons; [reflexivity | apply Forall_nil]].
  - (* the first folder listed is taken *)
    unfold bind at 1, lift, getitem_id.
    destruct (e_id first) as [fid |] eqn:Hfid.
    + apply (bitwarden_tail_never_deletes fid root w0).
      exact (Hexisting first others fid eq_refl Hfid).
    + exists []. rewrite app_nil_r. split; [reflexivity | constructor].
Qed.

End BitwardenFlow.

Lemma bitwarden_uploads_only_json_exports_witness :
  Forall (fun ev =>
            match ev with
            | EvUpload _ n _ =>
                In (FsFile n) [FsFile "notes.txt"; FsFile "export-2024-02-01.json"] /\
                suffix_is_json n = true
            | EvCreate n p =>
                n = "bitwarden-backups" /\ p = BITWARDEN_PARENT_FOLDER_ID /\
                children BITWARDEN_PARENT_FOLDER_ID true
                         (w_nodes (Sample.world Sample.bitwarden_nodes [])) = []
            | EvLogin => False
            | _ => True
            end)
         (issued (@upload_bitwarden_backups Sample.runtime
                    (mkFS None None
                          (Some [FsFile "notes.txt"; FsFile "export-2024-02-01.json"])))
                 (Sample.world Sample.bitwarden_nodes [])).
Proof.
  apply (@bitwarden_uploads_only_json_exports Sample.runtime
           (mkFS None None (Some [FsFile "notes.txt"; FsFile "export-2024-02-01.json"]))
           [FsFile "notes.txt"; FsFile "export-2024-02-01.json"]
           (Sample.world Sample.bitwarden_nodes [])).
  reflexivity.
Defined.

Lemma bitwarden_run_never_deletes_witness :
  Forall (fun ev => is_delete ev = false)
         (issued (@upload_bitwarden_backups Sample.runtime Sample.bitwarden_fs)
                 (Sample.world SampleMore.bitwarden_twelve [])).
Proof.
  apply (@bitwarden_run_never_deletes Sample.runtime Sample.bitwarden_fs
           [FsFile "export-2024-01-01.json"]
           (Sample.world SampleMore.bitwarden_twelve [])).
  - reflexivity.
  - intros first others fid Hch Hid. vm_compute in Hch.
    injection Hch as <- _. injection Hid as <-. reflexivity.
  - intros Hch. vm_compute in Hch. discriminate.
Defined.

(** ** Sets that are on the remote, and sets that are new *)

Lemma cloud_has_folder_same parent name w' w :
  w_nodes w' = w_nodes w -> w_fault w' = w_fault w ->
  fst (cloud_has_folder parent name w') = fst (cloud_has_folder parent name w).
Proof.
  intros Hn Hf. rewrite !cloud_has_folder_run, Hn, Hf.
  destruct (w_fault w (ReqList parent)); reflexivity.
Qed.

Lemma keeps_upload_parts_folders cloud_folder_id dir entries parent (L : list entry) :
  keeps (upload_parts cloud_folder_id dir entries)
        (fun w => children parent true (w_nodes w) = L).
Proof.
  unfold upload_parts, for_each_if. apply keeps_for_each. intros f _.
  destruct (is_file f); [| intros w Hw; exact Hw].
  apply keeps_bind; [apply keeps_upload_file_folders | intros _ w Hw; exact Hw].
Qed.

Section SetFacts.
Context `{PyRuntime}.

Lemma storage_set_skipped dir (latest : option ldir) w :
  (forall d, latest = Some d ->
             fst (cloud_has_folder STORAGE_PARENT_FOLDER_ID (d_name d) w) = Ok true) ->
  exists w' evs,
    upload_storage_set dir latest w = (Ok tt, w') /\
    w_nodes w' = w_nodes w /\ w_fault w' = w_fault w /\
    w_trace w' = w_trace w ++ evs /\
    Forall (fun ev => ev = EvList STORAGE_PARENT_FOLDER_ID) evs.
Proof.
  intros Hp. destruct latest as [d |].
  - exists (log (EvList STORAGE_PARENT_FOLDER_ID) w), [EvList STORAGE_PARENT_FOLDER_ID].
    split; [apply storage_set_present_is_noop, Hp; reflexivity |].
    repeat split. apply Forall_cons; [reflexivity | apply Forall_nil].
  - exists w, []. simpl. rewrite app_nil_r. repeat split. constructor.
Qed.

(** X17.  When the newest snapshot and the newest monthly export, as far as
    they exist, are both folders of the storage parent already,
    [upload_new_storage_backups] ends normally having issued listing
    requests only: nothing is created, uploaded or deleted, and the remote
    is as before. *)
Theorem storage_run_skips_present_sets (fs : LocalFS) (root : list fsnode)
    (latest_monthly : option ldir) (w : World) :
  fs_storage fs = Some root ->
  latest_monthly_in root = Ok latest_monthly ->
  (forall d, latest_snapshot_in root = Some d ->
             fst (cloud_has_folder STORAGE_PARENT_FOLDER_ID (d_name d) w) = Ok true) ->
  (forall d, latest_monthly = Some d ->
             fst (cloud_has_folder STORAGE_PARENT_FOLDER_ID (d_name d) w) = Ok true) ->
  fst (upload_new_storage_backups fs w) = Ok tt /\
  Forall (fun ev => ev = EvList STORAGE_PARENT_FOLDER_ID)
         (issued (upload_new_storage_backups fs) w) /\
  w_nodes (snd (upload_new_storage_backups fs w)) = w_nodes w.
Proof.
  intros Hroot Hlm Hsnap Hmon.
  destruct (storage_set_skipped LOCAL_STORAGE_ROOT (latest_snapshot_in root) w Hsnap)
    as (w1 & evs1 & Hrun1 & Hn1 & Hf1 & Htr1 & Hall1).
  destruct (storage_set_skipped (LOCAL_STORAGE_ROOT ++ "/monthly")%string latest_monthly w1)
    as (w2 & evs2 & Hrun2 & Hn2 & Hf2 & Htr2 & Hall2).
  { intros d Hd. rewrite (cloud_has_folder_same _ _ w1 w Hn1 Hf1). now apply Hmon. }
  assert (Hrun : upload_new_storage_backups fs w = (Ok tt, w2)).
  { unfold upload_new_storage_backups. rewrite Hroot.
    unfold bind at 1, lift. rewrite Hlm. unfold bind. rewrite Hrun1. exact Hrun2. }
  split; [now rewrite Hrun |]. split.
  - rewrite (issued_from_trace _ w (evs1 ++ evs2)).
    + apply Forall_app. now split.
    + rewrite Hrun. simpl. now rewrite Htr2, Htr1, app_assoc.
  - rewrite Hrun. simpl. now rewrite Hn2.
Qed.

(** The block shared by the Docker and the storage uploads, once the folder
    is to be created: create, upload the parts, sweep. *)
Lemma create_upload_sweep parent dir (d : ldir) (sweep : M unit) (w : World) (fid : Z) :
  w_fault w (ReqCreate (d_name d) parent) = None ->
  folder_id_of_response (w_create_reply w (w_fresh w)) = Ok fid ->
  Forall (fun hr => exists ack, attempt_result hr = Ok ack) (w_uploads w) ->
  exists w',
    (cloud_folder_id <- create_cloud_folder (d_name d) parent ;;
     upload_parts cloud_folder_id dir (d_entries d) ;;
     sweep) w = sweep w' /\
    w_trace w'
    = w_trace w ++ EvCreate (d_name d) parent
                   :: map (fun n => EvUpload fid n 1) (file_names (d_entries d)) /\
    children parent true (w_nodes w')
    = children parent true (w_nodes w)
      ++ [mkEntry (Some (w_fresh w)) (Some (d_name d)) (Some (w_clock w))].
Proof.
  intros Hf Hid Hall.
  set (w1 := add_node parent true (d_name d) (log (EvCreate (d_name d) parent) w)).
  destruct (upload_loop_all_acked fid dir (sorted_paths (d_entries d)) w1 Hall)
    as (w' & Hrun & Htr & _).
  fold (upload_parts fid dir (d_entries d)) in Hrun.
  exists w'. split; [| split].
  - unfold bind at 1. rewrite (create_cloud_folder_run _ _ w Hf), Hid.
    unfold lift, bind. fold w1. rewrite Hrun. reflexivity.
  - rewrite Htr. subst w1. simpl. now rewrite <- app_assoc.
  - pose proof (keeps_upload_parts_folders fid dir (d_entries d) parent
                  (children parent true (w_nodes w1)) w1 eq_refl) as Hkeep.
    rewrite Hrun in Hkeep. simpl in Hkeep. rewrite Hkeep.
    subst w1. unfold add_node, log. cbn [w_nodes w_fresh w_clock].
    rewrite children_app, children_single. cbn [n_parent n_is_folder n_entry].
    now rewrite Z.eqb_refl.
Qed.

(** X18.  A set that is uploaded goes through three steps in this order:
    the folder is created under the parent, the files of the set are
    uploaded into the folder the create answer names, in the order of their
    names, and then the sweep of that parent runs, on a listing that has the
    new folder as its last entry.  The Docker block does so for every newest
    local folder; the storage block does so when no remote folder has the
    name of the set. *)
Theorem new_set_is_created_uploaded_swept (dir : string) (d : ldir) (w : World) (fid : Z) :
  folder_id_of_response (w_create_reply w (w_fresh w)) = Ok fid ->
  Forall (fun hr => exists ack, attempt_result hr = Ok ack) (w_uploads w) ->
  (w_fault w (ReqCreate (d_name d) DOCKER_PARENT_FOLDER_ID) = None ->
   exists w',
     upload_docker_backup (Some d) w
     = cleanup_two_types DOCKER_PARENT_FOLDER_ID KEEP_NIGHTLY KEEP_BIWEEKLY w' /\
     w_trace w'
     = w_trace w ++ EvCreate (d_name d) DOCKER_PARENT_FOLDER_ID
                    :: map (fun n => EvUpload fid n 1) (file_names (d_entries d)) /\
     children DOCKER_PARENT_FOLDER_ID true (w_nodes w')
     = children DOCKER_PARENT_FOLDER_ID true (w_nodes w)
       ++ [mkEntry (Some (w_fresh w)) (Some (d_name d)) (Some (w_clock w))])
  /\
  (w_fault w (ReqCreate (d_name d) STORAGE_PARENT_FOLDER_ID) = None ->
   cloud_has_folder STORAGE_PARENT_FOLDER_ID (d_name d) w
   = (Ok false, log (EvList STORAGE_PARENT_FOLDER_ID) w) ->
   exists w',
     upload_storage_set dir (Some d) w
     = cleanup_storage_types STORAGE_PARENT_FOLDER_ID KEEP_MONTHLY KEEP_SNAPSHOT w' /\
     w_trace w'
     = w_trace w ++ EvList STORAGE_PARENT_FOLDER_ID
                    :: EvCreate (d_name d) STORAGE_PARENT_FOLDER_ID
                    :: map (fun n => EvUpload fid n 1) (file_names (d_entries d)) /\
     children STORAGE_PARENT_FOLDER_ID true (w_nodes w')
     = children STORAGE_PARENT_FOLDER_ID true (w_nodes w)
       ++ [mkEntry (Some (w_fresh w)) (Some (d_name d)) (Some (w_clock w))]).
Proof.
  intros Hid Hall. split.
  - intros Hf. unfold upload_docker_backup.
    apply (create_upload_sweep DOCKER_PARENT_FOLDER_ID _ d _ w fid Hf Hid Hall).
  - intros Hf Habsent. unfold upload_storage_set. unfold bind at 1. rewrite Habsent.
    destruct (create_upload_sweep STORAGE_PARENT_FOLDER_ID
                (dir ++ "/" ++ d_name d)%string d
                (cleanup_storage_types STORAGE_PARENT_FOLDER_ID KEEP_MONTHLY KEEP_SNAPSHOT)
                (log (EvList STORAGE_PARENT_FOLDER_ID) w) fid Hf Hid Hall)
      as (w' & Hrun & Htr & Hch).
    exists w'. split; [exact Hrun |]. split; [| exact Hch].
    rewrite Htr. simpl. now rewrite <- app_assoc.
Qed.

End SetFacts.

Lemma storage_run_skips_present_sets_witness :
  fst (@upload_new_storage_backups Sample.runtime SampleMore.storage_fs
         (Sample.world SampleMore.storage_nodes []))
  = Ok tt /\
  Forall (fun ev => ev = EvList STORAGE_PARENT_FOLDER_ID)
         (issued (@upload_new_storage_backups Sample.runtime SampleMore.storage_fs)
                 (Sample.world SampleMore.storage_nodes [])) /\
  w_nodes (snd (@upload_new_storage_backups Sample.runtime SampleMore.storage_fs
                  (Sample.world SampleMore.storage_nodes [])))
  = SampleMore.storage_nodes.
Proof.
  apply (@storage_run_skips_present_sets Sample.runtime SampleMore.storage_fs
           [FsDir "monthly" 5 [FsDir "monthly-2024-01" 7 [FsFile "export.tar"]];
            FsDir "snapshot-2024-01-15" 9 [FsFile "snap.tar"];
            FsDir "snapshot-2024-01-08" 8 [FsFile "snap.tar"]]
           (Some (mkDir "monthly-2024-01" 7 [FsFile "export.tar"]))
           (Sample.world SampleMore.storage_nodes [])).
  - reflexivity.
  - reflexivity.
  - intros d Hd. vm_compute in Hd. injection Hd as <-. reflexivity.
  - intros d Hd. injection Hd as <-. reflexivity.
Defined.

Lemma new_set_is_created_uploaded_swept_witness :
  exists w',
    @upload_docker_backup Sample.runtime
      (Some (mkDir "nightly-20240104" 40 [FsFile "db.tar"; FsFile "app.tar"]))
      (Sample.world Sample.three_nightly [])
    = cleanup_two_types DOCKER_PARENT_FOLDER_ID KEEP_NIGHTLY KEEP_BIWEEKLY w' /\
    w_trace w'
    = [EvCreate "nightly-20240104" DOCKER_PARENT_FOLDER_ID;
       EvUpload 100 "app.tar" 1; EvUpload 100 "db.tar" 1] /\
    map e_name (children DOCKER_PARENT_FOLDER_ID true (w_nodes w'))
    = [Some "nightly-20240101"; Some "nightly-20240102"; Some "nightly-20240103";
       Some "nightly-20240104"].
Proof.
  destruct (proj1 (@new_set_is_created_uploaded_swept Sample.runtime
                     "/backups/storage-exports"
                     (mkDir "nightly-20240104" 40 [FsFile "db.tar"; FsFile "app.tar"])
                     (Sample.world Sample.three_nightly []) 100
                     eq_refl (Forall_nil _)) eq_refl)
    as (w' & Hrun & Htr & Hch).
  exists w'. split; [exact Hrun |]. split.
  - rewrite Htr. reflexivity.
  - rewrite Hch. reflexivity.
Defined.

(** ** The [.json] suffix *)

Lemma str_length_app (a b : string) :
  String.length (a ++ b) = (String.length a + String.length b)%nat.
Proof. induction a as [| c a IH]; simpl; [reflexivity | now rewrite IH]. Qed.

Lemma substring_whole (p : string) : String.substring 0 (String.length p) p = p.
Proof. induction p as [| c p IH]; simpl; [reflexivity | now rewrite IH]. Qed.

Lemma substring_after (pre p : string) (m : nat) :
  String.substring (String.length pre) m (pre ++ p) = String.substring 0 m p.
Proof. induction pre as [| c pre IH]; simpl; [reflexivity | exact IH]. Qed.

Lemma substring_split (s : string) : forall k,
  (k <= String.length s)%nat ->
  s = (String.substring 0 k s ++ String.substring k (String.length s - k) s)%string.
Proof.
  induction s as [| c s IH]; intros k Hk.
  - simpl in Hk. assert (k = 0)%nat as -> by lia. reflexivity.
  - destruct k as [| k].
    + simpl. now rewrite substring_whole.
    + simpl in Hk. simpl. f_equal. apply IH. lia.
Qed.

Lemma endswith_iff (s p : string) :
  Py.endswith s p = true <-> exists pre, s = (pre ++ p)%string.
Proof.
  unfold Py.endswith. split.
  - intros Hc. apply andb_prop in Hc. destruct Hc as (Hlen & Heq).
    apply Nat.leb_le in Hlen. apply String.eqb_eq in Heq.
    exists (String.substring 0 (String.length s - String.length p) s).
    pose proof (substring_split s (String.length s - String.length p) ltac:(lia))
      as Hsplit.
    replace (String.length s - (String.length s - String.length p))%nat
      with (String.length p) in Hsplit by lia.
    rewrite Heq in Hsplit. exact Hsplit.
  - intros (pre & ->). rewrite str_length_app.
    apply andb_true_intro. split; [apply Nat.leb_le; lia |].
    replace (String.length pre + String.length p - String.length p)%nat
      with (String.length pre) by lia.
    rewrite substring_after, substring_whole. apply String.eqb_refl.
Qed.

(** X19.  A local file is a bitwarden export for the script exactly when its
    name is a non-empty stem followed by [.json], in lower case: a file
    named [.json] alone and a file named [export.JSON] are not. *)
Theorem suffix_is_json_stem (name : string) :
  (suffix_is_json name = true <->
   exists stem, stem <> EmptyString /\ name = (stem ++ ".json")%string) /\
  suffix_is_json ".json" = false /\
  suffix_is_json "export.JSON" = false.
Proof.
  split; [| split; reflexivity].
  unfold suffix_is_json. split.
  - intros Hc. apply andb_prop in Hc. destruct Hc as (Hend & Hlen).
    apply endswith_iff in Hend. destruct Hend as (stem & ->).
    exists stem. split; [| reflexivity].
    intros ->. simpl in Hlen. discriminate.
  - intros (stem & Hne & ->). apply andb_true_intro. split.
    + apply endswith_iff. now exists stem.
    + rewrite str_length_app. apply Nat.ltb_lt.
      destruct stem; [contradiction | simpl; lia].
Qed.

(** ** The date order *)

(** X20.  The order in which a sweep meets the entries of a bucket holds
    the same entries as the bucket, in ascending date, and entries of the
    same date (entries without a date among those of date 0) stay in the
    order of the listing. *)
Theorem by_date_is_stable_sort (l : list entry) :
  Permutation (by_date l) l /\
  StronglySorted (fun a b => get_date a <= get_date b) (by_date l) /\
  (forall d, filter (fun f => get_date f =? d) (by_date l)
             = filter (fun f => get_date f =? d) l).
Proof.
  split; [apply by_date_perm |].
  split; [apply sorted_by_sorted |].
  intros d. apply sorted_by_stable.
Qed.

(** ** Answers to a create request that are not of the two shapes *)

Section OddAnswers.
Context `{PyRuntime}.

(** X21.  [create_cloud_folder] does not fall back to the top-level id when
    the answer has a [data] or [data.folder] value that is not an object
    ([null], for one): the lookup raises [AttributeError], and so does an
    answer that is not an object itself.  An id given as a non-empty string
    goes through [int]: its value is returned, or [int] raises
    [ValueError]. *)
Theorem folder_id_of_response_odd_answers (data : json) :
  ((forall d, data <> JDict d) ->
   exists msg, folder_id_of_response data = Raise (Exn AttributeError msg)) /\
  (forall d v, data = JDict d -> assoc "data" d = Some v ->
     (forall a, v <> JDict a) ->
     exists msg, folder_id_of_response data = Raise (Exn AttributeError msg)) /\
  (forall d a v, data = JDict d -> assoc "data" d = Some (JDict a) ->
     assoc "folder" a = Some v -> (forall f, v <> JDict f) ->
     exists msg, folder_id_of_response data = Raise (Exn AttributeError msg)) /\
  (forall d s, data = JDict d -> assoc "data" d = None ->
     assoc "id" d = Some (JStr s) -> s <> EmptyString ->
     match int_of_str s with
     | Some z => folder_id_of_response data = Ok z
     | None => exists msg, folder_id_of_response data = Raise (Exn ValueError msg)
     end).
Proof.
  split; [| split; [| split]].
  - intros Hnot. unfold folder_id_of_response, dict_get.
    destruct data as [| | | | | d]; try (eexists; reflexivity).
    now destruct (Hnot d).
  - intros d v -> Hd Hnot. unfold folder_id_of_response, dict_get. rewrite Hd.
    destruct v as [| | | | | a]; try (eexists; reflexivity).
    now destruct (Hnot a).
  - intros d a v -> Hd Hf Hnot. unfold folder_id_of_response, dict_get.
    rewrite Hd, Hf.
    destruct v as [| | | | | f]; try (eexists; reflexivity).
    now destruct (Hnot f).
  - intros d s -> Hd Hi Hs. unfold folder_id_of_response, dict_get.
    rewrite Hd. cbn [assoc]. rewrite Hi.
    assert (Ht : truthy (JStr s) = true).
    { simpl. destruct (String.eqb_spec s EmptyString); [contradiction | reflexivity]. }
    change (truthy JNull) with false. cbv beta iota. rewrite Ht. simpl.
    destruct (int_of_str s); [reflexivity | eexists; reflexivity].
Qed.

End OddAnswers.

(** ** What a sweep leaves on the remote *)

Lemma ids_of_app (a b : list entry) : ids_of (a ++ b) = ids_of a ++ ids_of b.
Proof.
  induction a as [| f t IH]; [reflexivity |].
  simpl. destruct (e_id f); simpl; now rewrite IH.
Qed.

Lemma ids_of_In (l : list entry) (i : Z) :
  In i (ids_of l) <-> exists f, In f l /\ e_id f = Some i.
Proof.
  induction l as [| f t IH]; simpl.
  - split; [intros [] | intros (f & [] & _)].
  - destruct (e_id f) as [j |] eqn:Hj; simpl; rewrite ?IH; split.
    + intros [<- | (g & Hg & Hi)]; [exists f; auto | exists g; auto].
    + intros (g & [<- | Hg] & Hi); [left; congruence | right; exists g; auto].
    + intros (g & Hg & Hi). exists g; auto.
    + intros (g & [<- | Hg] & Hi); [congruence | exists g; auto].
Qed.

Lemma ids_of_perm (l l' : list entry) :
  Permutation l l' -> Permutation (ids_of l) (ids_of l').
Proof.
  induction 1 as [| x l l' _ IH | x y l | l l' l'' _ IH1 _ IH2]; simpl.
  - apply perm_nil.
  - destruct (e_id x); [now apply perm_skip | exact IH].
  - destruct (e_id x), (e_id y); try apply Permutation_refl. apply perm_swap.
  - eapply perm_trans; eassumption.
Qed.

Lemma ids_of_filter_nodup (g : entry -> bool) (l : list entry) :
  NoDup (ids_of l) -> NoDup (ids_of (filter g l)).
Proof.
  induction l as [| f t IH]; intros Hnd; [constructor |].
  simpl in *. destruct (e_id f) as [i |] eqn:Hi.
  - inversion Hnd as [| ? ? Hnotin Hnd']; subst.
    destruct (g f); [| now apply IH].
    simpl. rewrite Hi. constructor; [| now apply IH].
    intros Hin. apply Hnotin. apply ids_of_In in Hin. destruct Hin as (h & Hh & Hid).
    apply ids_of_In. exists h. split; [| exact Hid].
    apply filter_In in Hh. tauto.
  - destruct (g f); [| now apply IH]. simpl. rewrite Hi. now apply IH.
Qed.

Lemma distinct_ids_nodup (ns : list node) :
  distinct_ids ns = true -> NoDup (ids_of (map n_entry ns)).
Proof.
  induction ns as [| n t IH]; intros Hd; [constructor |].
  simpl in Hd. apply andb_prop in Hd. destruct Hd as (Hfresh & Hd).
  apply negb_true_iff in Hfresh. simpl.
  destruct (e_id (n_entry n)) as [i |] eqn:Hi; [| now apply IH].
  constructor; [| now apply IH].
  intros Hin. apply ids_of_In in Hin. destruct Hin as (f & Hf & Hid).
  apply in_map_iff in Hf. destruct Hf as (m & <- & Hm).
  assert (Hex : existsb (same_id n) t = true).
  { apply existsb_exists. exists m. split; [exact Hm |].
    unfold same_id. rewrite Hi, Hid. apply Z.eqb_refl. }
  congruence.
Qed.

Lemma children_ids_nodup parent kind (ns : list node) :
  distinct_ids ns = true -> NoDup (ids_of (children parent kind ns)).
Proof.
  intros Hd. apply distinct_ids_nodup in Hd. unfold children.
  induction ns as [| n t IH]; [constructor |].
  simpl in Hd. simpl.
  destruct ((n_parent n =? parent) && Bool.eqb (n_is_folder n) kind).
  - simpl. destruct (e_id (n_entry n)) as [i |] eqn:Hi.
    + inversion Hd as [| ? ? Hnotin Hd']; subst.
      constructor; [| now apply IH].
      intros Hin. apply Hnotin. apply ids_of_In in Hin. destruct Hin as (f & Hf & Hid).
      apply ids_of_In. exists f. split; [| exact Hid].
      apply in_map_iff in Hf. destruct Hf as (m & <- & Hm).
      apply in_map. apply filter_In in Hm. tauto.
    + now apply IH.
  - destruct (e_id (n_entry n)); [inversion Hd; subst |]; now apply IH.
Qed.

Lemma filter_perm {A} (g : A -> bool) (l l' : list A) :
  Permutation l l' -> Permutation (filter g l) (filter g l').
Proof.
  induction 1 as [| x l l' _ IH | x y l | l l' l'' _ IH1 _ IH2]; simpl.
  - apply perm_nil.
  - destruct (g x); [now apply perm_skip | exact IH].
  - destruct (g x), (g y); try apply Permutation_refl. apply perm_swap.
  - eapply perm_trans; eassumption.
Qed.

Lemma filter_all {A} (g : A -> bool) (l : list A) :
  (forall x, In x l -> g x = true) -> filter g l = l.
Proof.
  induction l as [| x t IH]; intros Hall; [reflexivity |].
  simpl. rewrite (Hall x (or_introl eq_refl)). f_equal. apply IH.
  intros y Hy. apply Hall. now right.
Qed.

Lemma survives_false_id (ids : list Z) (f : entry) :
  survives ids f = false -> exists i, In i ids /\ e_id f = Some i.
Proof.
  unfold survives. intros Hs. apply negb_false_iff, existsb_exists in Hs.
  destruct Hs as (i & Hi & Hhas). exists i. split; [exact Hi |].
  unfold has_id in Hhas. destruct (e_id f) as [j |]; [| discriminate].
  apply Z.eqb_eq in Hhas. now subst.
Qed.

Lemma deletable_survives_false (w : World) (l : list entry) (ids : list Z) (f : entry) :
  forallb (deletable w) l = true -> In f l ->
  (forall i, In i (ids_of l) -> In i ids) -> survives ids f = false.
Proof.
  intros Hall Hf Hsub. rewrite forallb_forall in Hall. specialize (Hall f Hf).
  unfold deletable in Hall.
  destruct (e_name f); [| discriminate].
  destruct (e_id f) as [i |] eqn:Hi; [| discriminate].
  unfold survives. apply negb_false_iff, existsb_exists.
  exists i. split.
  - apply Hsub, ids_of_In. now exists f.
  - unfold has_id. rewrite Hi. apply Z.eqb_refl.
Qed.

Lemma retained_in_bucket keep l f : In f (retained keep l) -> In f l.
Proof.
  intros Hf. apply (sorted_by_In get_date). fold (by_date l).
  rewrite (stale_retained keep l). apply in_or_app. now right.
Qed.

Lemma same_id_same_entry (folders : list entry) (r g : entry) (i : Z) :
  NoDup (ids_of folders) -> In r folders -> In g folders ->
  e_id r = Some i -> e_id g = Some i -> r = g.
Proof.
  intros Hnd Hrin Hgin Hid Hgid.
  induction folders as [| f t IH]; [contradiction |].
  simpl in Hnd.
  destruct Hrin as [<- | Hrin], Hgin as [<- | Hgin].
  - reflexivity.
  - rewrite Hid in Hnd. inversion Hnd as [| ? ? Hnotin _]; subst.
    exfalso. apply Hnotin, ids_of_In. now exists g.
  - rewrite Hgid in Hnd. inversion Hnd as [| ? ? Hnotin _]; subst.
    exfalso. apply Hnotin, ids_of_In. now exists r.
  - apply IH; try assumption.
    destruct (e_id f); [now inversion Hnd | exact Hnd].
Qed.

(** One bucket after the deletion of the stale entries of two buckets. *)
Lemma bucket_after_sweep (p q : string) (kp kq : Z) (folders : list entry)
    (w : World) (ids : list Z) :
  In p category_prefixes -> In q category_prefixes -> p <> q ->
  NoDup (ids_of folders) ->
  forallb (deletable w) (stale kp (bucket p folders)) = true ->
  (forall i, In i ids <->
             In i (ids_of (stale kp (bucket p folders))) \/
             In i (ids_of (stale kq (bucket q folders)))) ->
  Permutation (filter (survives ids) (bucket p folders)) (retained kp (bucket p folders)).
Proof.
  intros Hp Hq Hpq Hnd Hall Hids.
  eapply perm_trans.
  { apply filter_perm, Permutation_sym, by_date_perm. }
  rewrite (stale_retained kp (bucket p folders)), filter_app.
  rewrite (filter_none _ (stale kp (bucket p folders))).
  2:{ intros f Hf. apply (deletable_survives_false w (stale kp (bucket p folders)));
        try assumption.
      intros i Hi. apply Hids. now left. }
  simpl. rewrite filter_all; [apply Permutation_refl |].
  intros r Hr. destruct (survives ids r) eqn:Hs; [reflexivity | exfalso].
  apply survives_false_id in Hs. destruct Hs as (i & Hi & Hid).
  apply Hids in Hi. destruct Hi as [Hi | Hi].
  - (* the id of a stale entry of the same bucket *)
    assert (Hnd' : NoDup (ids_of (stale kp (bucket p folders))
                          ++ ids_of (retained kp (bucket p folders)))).
    { rewrite <- ids_of_app, <- stale_retained.
      eapply Permutation_NoDup;
        [apply Permutation_sym, ids_of_perm, by_date_perm |].
      unfold bucket. now apply ids_of_filter_nodup. }
    apply in_split in Hi. destruct Hi as (a & b & Hab). rewrite Hab in Hnd'.
    rewrite <- app_assoc in Hnd'. simpl in Hnd'. apply NoDup_remove_2 in Hnd'.
    apply Hnd'. apply in_or_app. right. apply in_or_app. right.
    apply ids_of_In. now exists r.
  - (* the id of a stale entry of the other bucket *)
    apply ids_of_In in Hi. destruct Hi as (g & Hg & Hgid).
    apply stale_In, bucket_In in Hg. destruct Hg as (Hgin & Hgq).
    apply retained_in_bucket in Hr. apply bucket_In in Hr. destruct Hr as (Hrin & Hrp).
    assert (Heq : r = g) by (now apply (same_id_same_entry folders r g i)).
    subst g. apply Hpq.
    now apply (category_prefixes_exclusive (get_name r)).
Qed.

(** A sweep of the buckets [p] and [q] that goes through. *)
Lemma two_buckets_left (p q : string) (parent kp kq : Z) (m : M unit) (w : World) :
  In p category_prefixes -> In q category_prefixes -> p <> q ->
  (forall w0,
     m w0 = (folders <- list_child_folders parent ;;
             for_each (stale kp (bucket p folders) ++ stale kq (bucket q folders))
                      delete_old) w0) ->
  w_fault w (ReqList parent) = None ->
  distinct_ids (w_nodes w) = true ->
  forallb (deletable w)
          (stale kp (bucket p (children parent true (w_nodes w)))
           ++ stale kq (bucket q (children parent true (w_nodes w)))) = true ->
  Permutation (bucket p (children parent true (w_nodes (snd (m w)))))
              (retained kp (bucket p (children parent true (w_nodes w)))) /\
  Permutation (bucket q (children parent true (w_nodes (snd (m w)))))
              (retained kq (bucket q (children parent true (w_nodes w)))) /\
  (forall f, In f (children parent true (w_nodes w)) ->
             Py.startswith (get_name f) p = false ->
             Py.startswith (get_name f) q = false ->
             In f (children parent true (w_nodes (snd (m w))))).
Proof.
  intros Hp Hq Hpq Hm Hl Hdist Hall.
  set (folders := children parent true (w_nodes w)) in *.
  destruct (sweep_all_deleted parent
              (fun fs => stale kp (bucket p fs) ++ stale kq (bucket q fs)) m w Hm Hl Hall)
    as (_ & _ & Hnodes).
  fold folders in Hnodes.
  rewrite Hnodes, children_remove_ids. fold folders.
  rewrite ids_of_app.
  assert (Hnd : NoDup (ids_of folders)) by (now apply children_ids_nodup).
  rewrite forallb_app in Hall. apply andb_prop in Hall. destruct Hall as (Hallp & Hallq).
  split; [| split].
  - rewrite bucket_filter.
    apply (bucket_after_sweep p q kp kq folders w); try assumption.
    intros i. rewrite in_app_iff. tauto.
  - rewrite bucket_filter.
    apply (bucket_after_sweep q p kq kp folders w); try assumption.
    + intros Heq. now apply Hpq.
    + intros i. rewrite in_app_iff. tauto.
  - intros f Hf Hnp Hnq. apply filter_In. split; [exact Hf |].
    destruct (survives _ f) eqn:Hs; [reflexivity | exfalso].
    apply survives_false_id in Hs. destruct Hs as (i & Hi & Hid).
    apply in_app_or in Hi.
    assert (Hg : exists g pre, In g (bucket pre folders) /\ e_id g = Some i /\
                               (pre = p \/ pre = q)).
    { destruct Hi as [Hi | Hi]; apply ids_of_In in Hi; destruct Hi as (g & Hg & Hgid);
        apply stale_In in Hg; [exists g, p | exists g, q]; auto. }
    destruct Hg as (g & pre & Hg & Hgid & Hpre).
    apply bucket_In in Hg. destruct Hg as (Hgin & Hgpre).
    assert (Heq : f = g) by (now apply (same_id_same_entry folders f g i)).
    subst g. destruct Hpre as [-> | ->]; congruence.
Qed.

(** X22.  A folder sweep that goes through, on a remote whose ids are
    distinct, leaves under the parent exactly the entries its policy
    retains: of each of its two buckets the entries that are not stale, and
    every folder whose name carries neither prefix. *)
Theorem sweep_leaves_retained (parent ka kb : Z) (w : World) :
  w_fault w (ReqList parent) = None ->
  distinct_ids (w_nodes w) = true ->
  let folders := children parent true (w_nodes w) in
  (forallb (deletable w)
           (stale ka (bucket "nightly-" folders)
            ++ stale kb (bucket "biweekly-" folders)) = true ->
   let after := children parent true
                         (w_nodes (snd (cleanup_two_types parent ka kb w))) in
   Permutation (bucket "nightly-" after) (retained ka (bucket "nightly-" folders)) /\
   Permutation (bucket "biweekly-" after) (retained kb (bucket "biweekly-" folders)) /\
   (forall f, In f folders ->
              Py.startswith (get_name f) "nightly-" = false ->
              Py.startswith (get_name f) "biweekly-" = false ->
              In f after))
  /\
  (forallb (deletable w)
           (stale ka (bucket "monthly-" folders)
            ++ stale kb (bucket "snapshot-" folders)) = true ->
   let after := children parent true
                         (w_nodes (snd (cleanup_storage_types parent ka kb w))) in
   Permutation (bucket "monthly-" after) (retained ka (bucket "monthly-" folders)) /\
   Permutation (bucket "snapshot-" after) (retained kb (bucket "snapshot-" folders)) /\
   (forall f, In f folders ->
              Py.startswith (get_name f) "monthly-" = false ->
              Py.startswith (get_name f) "snapshot-" = false ->
              In f after)).
Proof.
  intros Hl Hdist folders. split; intros Hall after.
  - apply (two_buckets_left "nightly-" "biweekly-" parent ka kb); try assumption.
    + simpl; tauto.
    + simpl; tauto.
    + discriminate.
    + apply cleanup_two_types_unfold.
  - apply (two_buckets_left "monthly-" "snapshot-" parent ka kb); try assumption.
    + simpl; tauto.
    + simpl; tauto.
    + discriminate.
    + apply cleanup_storage_types_unfold.
Qed.

Lemma sweep_leaves_retained_witness :
  map e_id
      (children DOCKER_PARENT_FOLDER_ID true
         (w_nodes (snd (cleanup_two_types DOCKER_PARENT_FOLDER_ID 1 5
                          (Sample.world SampleMore.mixed_folders [])))))
  = [Some 10; Some 13; Some 14; Some 15; Some 16; Some 17; Some 18] /\
  Permutation
    (bucket "nightly-"
       (children DOCKER_PARENT_FOLDER_ID true
          (w_nodes (snd (cleanup_two_types DOCKER_PARENT_FOLDER_ID 1 5
                           (Sample.world SampleMore.mixed_folders []))))))
    (retained 1 (bucket "nightly-"
                   (children DOCKER_PARENT_FOLDER_ID true SampleMore.mixed_folders))).
Proof.
  split; [reflexivity |].
  apply (proj1 (sweep_leaves_retained DOCKER_PARENT_FOLDER_ID 1 5
                  (Sample.world SampleMore.mixed_folders []) eq_refl eq_refl)).
  reflexivity.
Defined.

(** ** Entries without a date *)













(** ** Runs on sample data *)

Lemma get_latest_folder_in_newest_witness :
  get_latest_folder_in
    (Some [FsFile "notes.txt"; FsDir "nightly-a" 7 []; FsDir "nightly-b" 9 [];
           FsDir "nightly-c" 9 []])
  = Some (mkDir "nightly-b" 9 []) /\
  exists es before after,
    Some [FsFile "notes.txt"; FsDir "nightly-a" 7 []; FsDir "nightly-b" 9 [];
          FsDir "nightly-c" 9 []] = Some es /\
    In (FsDir "nightly-b" 9 []) es /\
    dirs_of es = before ++ mkDir "nightly-b" 9 [] :: after /\
    (forall x, In x before -> d_mtime x < 9) /\
    (forall x, In x after -> d_mtime x <= 9).
Proof.
  split; [reflexivity |].
  apply (proj2 (get_latest_folder_in_newest
                  (Some [FsFile "notes.txt"; FsDir "nightly-a" 7 [];
                         FsDir "nightly-b" 9 []; FsDir "nightly-c" 9 []]))
           (mkDir "nightly-b" 9 [])).
  reflexivity.
Defined.

Lemma login_key_or_error_witness :
  @login Sample.runtime (Sample.world [] [])
  = (Ok (JStr "0123456789abcdef"), log EvLogin (Sample.world [] [])) /\
  @login Sample.runtime SampleMore.world_without_key
  = (Raise (Exn RuntimeError
              "Login failed to return validationKey. Response: <data> Cookies: <data>"),
     log EvLogin SampleMore.world_without_key).
Proof.
  split.
  - apply (proj1 (proj2 (@login_key_or_error Sample.runtime (Sample.world [] []))
                    eq_refl)
             [("data", JDict [("validationkey", JStr "0123456789abcdef")])]
             [("validationkey", JStr "0123456789abcdef")]
             (JStr "0123456789abcdef"));
      reflexivity.
  - apply (proj2 (proj2 (@login_key_or_error Sample.runtime SampleMore.world_without_key)
                    eq_refl)
             [("data", JDict [("validationkey", JStr EmptyString)])]);
      [reflexivity |].
    right. exists [("validationkey", JStr EmptyString)].
    split; [reflexivity |]. right. exists (JStr EmptyString). split; reflexivity.
Defined.

Lemma main_stops_after_login_witness :
  issued (@main Sample.runtime Sample.docker_fs) SampleMore.world_without_key
  = [EvLogin].
Proof.
  apply (proj1 (@main_stops_after_login Sample.runtime Sample.docker_fs
                  SampleMore.world_without_key)
           (Exn RuntimeError
              "Login failed to return validationKey. Response: <data> Cookies: <data>")).
  reflexivity.
Defined.

Lemma folder_id_of_response_odd_answers_witness :
  exists msg,
    @folder_id_of_response Sample.runtime
      (JDict [("data", JNull); ("id", JInt 17922960)])
    = Raise (Exn AttributeError msg).
Proof.
  apply (proj1 (proj2 (@folder_id_of_response_odd_answers Sample.runtime
                         (JDict [("data", JNull); ("id", JInt 17922960)])))
           [("data", JNull); ("id", JInt 17922960)] JNull);
    [reflexivity | reflexivity | discriminate].
Defined.
